(** * TIMEX: backtesting, transformations and cross-correlation reporting

    A shallow embedding of the parts of TIMEX that its specification talks
    about:

    - [Transform]: the pointwise pre/post transformations, over the reals;
    - [Pandas]: the few DataFrame operations the sources use, over a store
      of frames addressed by reference, so that in-place updates and
      aliasing are visible;
    - [Prophet]: [FBProphet.train] and [FBProphet.predict]
      (data_prediction/prophet_predictor.py);
    - [Visualization]: [cross_correlation_graph], [prediction_plot],
      [performance_plot] and the model part of [create_scenario_children]
      (data_visualization/functions.py);
    - [Backtest] and [Config]: the window arithmetic and the configuration
      defaults of [launch_model].

    Floats are modelled by rationals ([Q]) where the code only compares and
    copies them, and by reals ([R]) where it takes logarithms. *)

From Stdlib Require Import ZArith QArith Qabs List Ascii String Lia Reals Lra.
From Stdlib Require Import Sorting.Permutation Sorting.Sorted.
From stdpp Require Import base option list gmap strings.
Import ListNotations.

(* ===================================================================== *)
(** * Definitions *)
(* ===================================================================== *)

(** ** Transformations (spec section 4.1) *)

Module Transform.
Local Open Scope R_scope.

(** The three kinds of the configuration key [transformation]. *)
Inductive TransformKind : Type :=
| TNone
| Log
| LogModified.

(** [np.sign]: -1, 0 or 1. *)
Definition sign (x : R) : R :=
  match total_order_T x 0 with
  | inleft (left _) => -1
  | inleft (right _) => 0
  | inright _ => 1
  end.

(** Modelled from the spec: [pre_transformation] lives in
    data_prediction/data_prediction.py, which is not among the sources.
    Section 4.1: [none] is the identity; [log] is
    [sign(x) * ln(|x|)] with [apply(0) = 0]; [log_modified] is
    [sign(x) * ln(|x| + 1)]. *)
Definition apply (kind : TransformKind) (x : R) : R :=
  match kind with
  | TNone => x
  | Log => if Req_dec_T x 0 then 0 else sign x * ln (Rabs x)
  | LogModified => sign x * ln (Rabs x + 1)
  end.

(** Modelled from the spec: [post_transformation], same missing file.
    Section 4.1: [log] inverts as [sign(y) * exp(|y|)] with
    [invert(0) = 0]; [log_modified] as [sign(y) * (exp(|y|) - 1)]. *)
Definition invert (kind : TransformKind) (y : R) : R :=
  match kind with
  | TNone => y
  | Log => if Req_dec_T y 0 then 0 else sign y * exp (Rabs y)
  | LogModified => sign y * (exp (Rabs y) - 1)
  end.

(** The two functions the tests import, applied pointwise to a series. *)
Definition pre_transformation (data : list R) (kind : TransformKind) : list R :=
  map (apply kind) data.

Definition post_transformation (data : list R) (kind : TransformKind) : list R :=
  map (invert kind) data.

(** Agreement within a relative tolerance of 1e-9. *)
Definition within_tolerance (got expected : R) : Prop :=
  Rabs (got - expected) <= / 1000000000 * Rabs expected.

(** Where the round trip through a transformation gives the input back. *)
Definition round_trip_domain (kind : TransformKind) (x : R) : Prop :=
  match kind with
  | Log => x = 0 \/ 1 < Rabs x
  | _ => True
  end.

(** The series of the transformation tests: the integers from -4 to 4. *)
Definition test_series : list R := [-4; -3; -2; -1; 0; 1; 2; 3; 4].

End Transform.

(** ** Python results: a value or a raised exception *)

Inductive exn : Type :=
| KeyError
| ValueError
| IndexError
| AttributeError
| TypeError
| NoSuchObject.

Inductive result (A : Type) : Type :=
| Ok (a : A)
| Raise (e : exn).
Arguments Ok {A} a.
Arguments Raise {A} e.

Definition rbind {A B : Type} (r : result A) (k : A -> result B) : result B :=
  match r with
  | Ok a => k a
  | Raise e => Raise e
  end.

Notation "'try!' x := r 'in' k" := (rbind r (fun x => k))
  (at level 10, x name, r at level 100, k at level 200).

(** Code that updates objects in place runs over a state [S]; an exception
    stops it and leaves the state as it stands at that point.
    [NoSuchObject] marks a reference outside the store, which no Python
    program reaches. *)
Definition M (S A : Type) : Type := S -> result A * S.

Definition ret {S A : Type} (a : A) : M S A := fun st => (Ok a, st).

Definition lift {S A : Type} (r : result A) : M S A := fun st => (r, st).

Definition bind {S A B : Type} (m : M S A) (k : A -> M S B) : M S B :=
  fun st =>
    match m st with
    | (Ok a, st') => k a st'
    | (Raise e, st') => (Raise e, st')
    end.

Notation "'do!' x := m 'in' k" := (bind m (fun x => k))
  (at level 10, x name, m at level 100, k at level 200).

(** ** The DataFrame operations the sources use *)

Module Pandas.
Local Open Scope string_scope.

(** A cell holds a float, a string, or NaN. *)
Inductive cell : Type :=
| Num (q : Q)
| Str (s : string)
| NaN.

Definition cell_eqb (a b : cell) : bool :=
  match a, b with
  | Num x, Num y => Qeq_bool x y
  | Str s, Str t => String.eqb s t
  | NaN, NaN => true
  | _, _ => false
  end.

(** A frame: its index (with the index's name) and its columns in order. *)
Record DataFrame : Type := mkDataFrame {
  index_name : option string;
  index : list cell;
  columns : list (string * list cell)
}.

Definition column_names (df : DataFrame) : list string :=
  map fst (columns df).

Definition has_column (name : string) (df : DataFrame) : bool :=
  existsb (String.eqb name) (column_names df).

(** [RangeIndex(n)]: the labels 0, 1, ..., n-1. *)
Definition range_index (n : nat) : list cell :=
  map (fun i => Num (inject_Z (Z.of_nat i))) (seq 0 n).

(** [df[name]]: the first column of that name, [KeyError] without one. *)
Fixpoint find_column (name : string) (cols : list (string * list cell))
  : option (list cell) :=
  match cols with
  | [] => None
  | (n, vs) :: rest => if String.eqb n name then Some vs else find_column name rest
  end.

Definition getitem (df : DataFrame) (name : string) : result (list cell) :=
  match find_column name (columns df) with
  | Some vs => Ok vs
  | None => Raise KeyError
  end.

(** [df.loc[:, name] = values]: overwrite the column of that name where it
    stands, or add it as the last column. *)
Fixpoint assign_column (name : string) (vs : list cell)
  (cols : list (string * list cell)) : list (string * list cell) :=
  match cols with
  | [] => [(name, vs)]
  | (n, old) :: rest =>
      if String.eqb n name then (n, vs) :: rest
      else (n, old) :: assign_column name vs rest
  end.

Definition loc_set_column (df : DataFrame) (name : string) (vs : list cell)
  : DataFrame :=
  mkDataFrame (index_name df) (index df) (assign_column name vs (columns df)).

(** [df.reset_index()]: the index becomes the first column, named after the
    index, or [index] for a nameless one ([level_0] when [index] is taken);
    [ValueError] when that name is a column already. The new index is a
    [RangeIndex]. *)
Definition reset_index_name (df : DataFrame) : string :=
  match index_name df with
  | Some n => n
  | None => if has_column "index" df then "level_0" else "index"
  end.

Definition reset_index (df : DataFrame) : result DataFrame :=
  let name := reset_index_name df in
  if has_column name df then Raise ValueError
  else Ok (mkDataFrame None (range_index (List.length (index df)))
             ((name, index df) :: columns df)).

(** [df.rename(columns=mapping)]: a dict as an association list whose
    earlier entries win; names outside the mapping are kept. *)
Fixpoint dict_get (mapping : list (string * string)) (name : string) : string :=
  match mapping with
  | [] => name
  | (old, new) :: rest => if String.eqb old name then new else dict_get rest name
  end.

Definition rename_columns (mapping : list (string * string)) (df : DataFrame)
  : DataFrame :=
  mkDataFrame (index_name df) (index df)
    (map (fun c => (dict_get mapping (fst c), snd c)) (columns df)).

(** [df.columns = names]: [ValueError] on a length mismatch. *)
Definition set_columns (names : list string) (df : DataFrame) : result DataFrame :=
  if Nat.eqb (List.length names) (List.length (columns df))
  then Ok (mkDataFrame (index_name df) (index df)
             (combine names (map snd (columns df))))
  else Raise ValueError.

(** [df.set_index(name)]: that column becomes the index and leaves the
    columns; [KeyError] without it. *)
Fixpoint remove_column (name : string) (cols : list (string * list cell))
  : list (string * list cell) :=
  match cols with
  | [] => []
  | (n, vs) :: rest =>
      if String.eqb n name then rest else (n, vs) :: remove_column name rest
  end.

Definition set_index (name : string) (df : DataFrame) : result DataFrame :=
  match find_column name (columns df) with
  | Some vs => Ok (mkDataFrame (Some name) vs (remove_column name (columns df)))
  | None => Raise KeyError
  end.

(** [left.join(right)]: a left join on the index. Every column of [right]
    is aligned to the labels of [left], NaN where [right] has no such row
    (the index of [right] holds each label once, as a series of
    timestamps does); [ValueError] when a column name occurs on both
    sides. *)
Fixpoint position (label : cell) (labels : list cell) : option nat :=
  match labels with
  | [] => None
  | l :: rest =>
      if cell_eqb l label then Some 0%nat
      else option_map S (position label rest)
  end.

Definition align (left_index right_index : list cell) (vs : list cell)
  : list cell :=
  map (fun label =>
         match position label right_index with
         | Some i => nth i vs NaN
         | None => NaN
         end) left_index.

Definition join (left right : DataFrame) : result DataFrame :=
  if existsb (fun n => has_column n left) (column_names right)
  then Raise ValueError
  else Ok (mkDataFrame (index_name left) (index left)
             (columns left ++
              map (fun c => (fst c, align (index left) (index right) (snd c)))
                  (columns right))).

(** [df.iloc[:, 0] = v]: every cell of the first column becomes [v];
    [IndexError] on a frame without columns. *)
Definition iloc_set_first_column (v : cell) (df : DataFrame) : result DataFrame :=
  match columns df with
  | [] => Raise IndexError
  | (n, vs) :: rest =>
      Ok (mkDataFrame (index_name df) (index df) ((n, map (fun _ => v) vs) :: rest))
  end.

(** [df.iloc[:, 0]]. *)
Definition iloc_first_column (df : DataFrame) : result (list cell) :=
  match columns df with
  | [] => Raise IndexError
  | (_, vs) :: _ => Ok vs
  end.

(** Python's [l[:stop]] and [l[start:]], negative bounds counting from the
    end. *)
Definition slice_to {A : Type} (stop : Z) (l : list A) : list A :=
  if (stop <? 0)%Z
  then firstn (Z.to_nat (Z.of_nat (List.length l) + stop)) l
  else firstn (Z.to_nat stop) l.

Definition slice_from {A : Type} (start : Z) (l : list A) : list A :=
  if (start <? 0)%Z
  then skipn (Z.to_nat (Z.of_nat (List.length l) + start)) l
  else skipn (Z.to_nat start) l.

Definition map_rows (f : forall A : Type, list A -> list A) (df : DataFrame)
  : DataFrame :=
  mkDataFrame (index_name df) (f cell (index df))
    (map (fun c => (fst c, f cell (snd c))) (columns df)).

(** [df.iloc[:stop]] and [df.iloc[start:]]. *)
Definition iloc_to (stop : Z) (df : DataFrame) : DataFrame :=
  map_rows (fun A => slice_to stop) df.

Definition iloc_from (start : Z) (df : DataFrame) : DataFrame :=
  map_rows (fun A => slice_from start) df.

(** Frames live in a store and are passed around by reference. *)
Definition ref : Type := nat.

Definition fresh {A : Type} (st : gmap nat A) : ref :=
  S (foldr Nat.max 0%nat (map fst (map_to_list st))).

(** Reading an object, creating one, and updating one in place. *)
Definition load {A : Type} (r : ref) : M (gmap nat A) A :=
  fun st =>
    match st !! r with
    | Some a => (Ok a, st)
    | None => (Raise NoSuchObject, st)
    end.

Definition alloc {A : Type} (a : A) : M (gmap nat A) ref :=
  fun st => (Ok (fresh st), <[fresh st := a]> st).

Definition update {A : Type} (r : ref) (f : A -> result A) : M (gmap nat A) unit :=
  fun st =>
    match st !! r with
    | Some a =>
        match f a with
        | Ok a' => (Ok tt, <[r := a']> st)
        | Raise e => (Raise e, st)
        end
    | None => (Raise NoSuchObject, st)
    end.

(** [df.columns[i]]. *)
Definition column_name_at (i : nat) (df : DataFrame) : result string :=
  match nth_error (column_names df) i with
  | Some n => Ok n
  | None => Raise IndexError
  end.

End Pandas.

(** ** FBProphet (data_prediction/prophet_predictor.py) *)

Module Prophet.
Import Pandas.
Local Open Scope string_scope.

Section FBProphet.

(** The Prophet library is external: a model object is created, told its
    regressors, fitted on a frame, and asked for a forecast frame. *)
Variable ProphetModel : Type.
Variable Prophet_new : ProphetModel.
Variable add_regressor : ProphetModel -> string -> ProphetModel.
Variable fit : ProphetModel -> DataFrame -> ProphetModel.
Variable fbmodel_predict : ProphetModel -> DataFrame -> result DataFrame.

(** [self.transformation.inverse], from series to series. *)
Variable inverse : list cell -> list cell.

(** The predictor object: its field [fbmodel]. *)
Record FBProphet : Type := mkFBProphet { fbmodel : ProphetModel }.

(** [FBProphet.train(input_data, extra_regressors)]. Both arguments are
    references. The result is the predictor after a successful call; when
    the call raises, [self.fbmodel] is the fresh [Prophet()] of its first
    line.

    With regressors, [input_data.join(...)] creates a new frame and the
    local name [input_data] is rebound to it, so the in-place steps that
    follow work on the new frame. Without, they work on the caller's. *)
Definition train (input_data : ref) (extra_regressors : option ref)
  : M (gmap nat DataFrame) FBProphet :=
  match extra_regressors with
  | Some regressors_ref =>
      do! caller_frame := load input_data in
      do! regressors := load regressors_ref in
      do! joined := lift (join caller_frame regressors) in
      do! input_data' := alloc joined in
      do! _ := update input_data' reset_index in
      do! current := load input_data' in
      do! old0 := lift (column_name_at 0 current) in
      do! old1 := lift (column_name_at 1 current) in
      do! _ := update input_data'
                 (fun df => Ok (rename_columns [(old1, "y"); (old0, "ds")] df)) in
      let model := fold_left add_regressor (column_names regressors) Prophet_new in
      do! final := load input_data' in
      ret (mkFBProphet (fit model final))
  | None =>
      do! _ := update input_data reset_index in
      do! _ := update input_data (set_columns ["ds"; "y"]) in
      do! final := load input_data in
      ret (mkFBProphet (fit Prophet_new final))
  end.

(** [FBProphet.predict(future_dataframe, extra_regressors)]. Every frame it
    changes in place is one it has created itself ([reset_index()] and
    [copy()] return new frames), so it is a function of its arguments. *)
Definition predict (self : FBProphet) (future_dataframe : DataFrame)
  (extra_regressors : option DataFrame) : result DataFrame :=
  try! future := reset_index future_dataframe in
  let future := rename_columns [("index", "ds")] future in
  try! future :=
    match extra_regressors with
    | Some regressors =>
        try! indexed := set_index "ds" future in
        try! joined := join indexed regressors in
        reset_index joined
    | None => Ok future
    end in
  try! forecast := fbmodel_predict (fbmodel self) future in
  try! yhat := getitem forecast "yhat" in
  let forecast := loc_set_column forecast "yhat" (inverse yhat) in
  try! upper := getitem forecast "yhat_upper" in
  let forecast := loc_set_column forecast "yhat_lower" (inverse upper) in
  try! upper := getitem forecast "yhat_upper" in
  let forecast := loc_set_column forecast "yhat_upper" (inverse upper) in
  set_index "ds" forecast.

End FBProphet.

(** A forecast as Prophet returns it for one future date: the date and
    the three prediction columns. *)
Definition sample_forecast : DataFrame :=
  mkDataFrame None [Num 0]
    [("ds", [Num 100]); ("yhat", [Num 2]);
     ("yhat_lower", [Num 1]); ("yhat_upper", [Num 3])].

(** The future frame the forecast is asked for: one date, no name on the
    index. *)
Definition sample_future : DataFrame :=
  mkDataFrame None [Num 100] [("yhat", [NaN])].

(** A training frame as [launch_model] slices it: dates in the index, one
    column of values. *)
Definition sample_training : DataFrame :=
  mkDataFrame None [Num 1; Num 2; Num 3] [("value", [Num 10; Num 20; Num 30])].

(** Regressors over the same dates. *)
Definition sample_regressors : DataFrame :=
  mkDataFrame None [Num 1; Num 2; Num 3] [("temperature", [Num 7; Num 8; Num 9])].

(** The caller's frame under reference 1, the regressors under 2. *)
Definition sample_store : gmap nat DataFrame :=
  <[1%nat := sample_training]> (<[2%nat := sample_regressors]> ∅).

End Prophet.

(** ** The reporting layer (data_visualization/functions.py) *)

Module Visualization.
Import Pandas.
Local Open Scope string_scope.

(** *** Python values and dicts *)

Inductive pyval : Type :=
| PInt (z : Z)
| PFloat (q : Q)
| PStr (s : string).

Fixpoint dict_lookup {V : Type} (key : string) (d : list (string * V)) : option V :=
  match d with
  | [] => None
  | (k, v) :: rest => if String.eqb k key then Some v else dict_lookup key rest
  end.

(** [d[key]]. *)
Definition dict_item {V : Type} (d : list (string * V)) (key : string) : result V :=
  match dict_lookup key d with
  | Some v => Ok v
  | None => Raise KeyError
  end.

(** [str.upper], on ASCII letters. *)
Definition upper_ascii (c : ascii) : ascii :=
  let n := nat_of_ascii c in
  if (97 <=? n)%nat && (n <=? 122)%nat then ascii_of_nat (n - 32) else c.

Fixpoint upper (s : string) : string :=
  match s with
  | EmptyString => EmptyString
  | String c rest => String (upper_ascii c) (upper rest)
  end.

(** *** Results of a backtest, as the reporting layer reads them *)

(** The class is declared in data_prediction; its attributes are the ones
    read here ([tp.first_used_index], [tp.MAE], [tp.MSE], [tp.AM]) and
    [RMSE], which [show_errors] prints. *)
Record ValidationPerformance : Type := mkValidationPerformance {
  first_used_index : cell;
  MAE : Q;
  MSE : Q;
  RMSE : Q;
  AM : Q
}.

(** One training window: its prediction, a frame held by reference, and
    its scores. *)
Record SingleResult : Type := mkSingleResult {
  prediction : ref;
  testing_performances : ValidationPerformance
}.

(** [model.results] is a list object, held by reference as well;
    [model.characteristics] is a dict. *)
Record ModelResult : Type := mkModelResult {
  results : ref;
  characteristics : list (string * pyval)
}.

(** The objects the reporting layer can change in place: frames and lists
    of results. *)
Record world : Type := mkWorld {
  frames : gmap nat DataFrame;
  lists : gmap nat (list SingleResult)
}.

Definition on_frames {A : Type} (m : M (gmap nat DataFrame) A) : M world A :=
  fun w =>
    match m (frames w) with
    | (r, fs) => (r, mkWorld fs (lists w))
    end.

Definition on_lists {A : Type} (m : M (gmap nat (list SingleResult)) A) : M world A :=
  fun w =>
    match m (lists w) with
    | (r, ls) => (r, mkWorld (frames w) ls)
    end.

(** [getattr(tp, name)] for the upper-case names [name.upper()] can
    produce. *)
Definition getattr (tp : ValidationPerformance) (name : string) : result Q :=
  if String.eqb name "MAE" then Ok (MAE tp)
  else if String.eqb name "MSE" then Ok (MSE tp)
  else if String.eqb name "RMSE" then Ok (RMSE tp)
  else if String.eqb name "AM" then Ok (AM tp)
  else Raise AttributeError.

(** *** Sorting *)

(** [list.sort(key=...)] is stable and ascending: an element goes before
    the first one whose key is not smaller. *)
Fixpoint insert_by {A : Type} (key : A -> Q) (x : A) (l : list A) : list A :=
  match l with
  | [] => [x]
  | y :: rest =>
      if Qle_bool (key x) (key y) then x :: y :: rest
      else y :: insert_by key x rest
  end.

Definition sort_by {A : Type} (key : A -> Q) (l : list A) : list A :=
  foldr (insert_by key) [] l.

(** Ascending order under a key, and under a key that may raise: [a]
    goes before [b] when both have a key and the keys are in order. *)
Definition key_le {A : Type} (key : A -> Q) (a b : A) : Prop :=
  (key a <= key b)%Q.

Definition key_ordered {A : Type} (key : A -> result Q) (a b : A) : Prop :=
  exists ka kb : Q, key a = Ok ka /\ key b = Ok kb /\ (ka <= kb)%Q.

Fixpoint map_result {A B : Type} (f : A -> result B) (l : list A) : result (list B) :=
  match l with
  | [] => Ok []
  | x :: rest =>
      try! y := f x in
      try! ys := map_result f rest in
      Ok (y :: ys)
  end.

(** The keys are computed first, one per element; an exception in a key
    leaves the list as it was. *)
Definition list_sort {A : Type} (key : A -> result Q) (l : list A) : result (list A) :=
  try! keyed := map_result (fun x => try! k := key x in Ok (k, x)) l in
  Ok (map snd (sort_by fst keyed)).

(** *** Traces and children *)

Record trace : Type := mkTrace {
  trace_name : string;
  trace_x : list cell;
  trace_y : list cell
}.

Record edge : Type := mkEdge {
  edge_from : string;
  edge_to : string;
  edge_corr : cell;
  edge_lag : cell
}.

(** What a Dash child shows. Text is kept where the sources fix it; the
    list of characteristics is kept as the data it is rendered from. *)
Inductive child : Type :=
| Heading (level : nat) (text : string)
| Div (text : string)
| Graph (title : string) (traces : list trace)
| CharacteristicsList (chars : list (string * pyval)) (best : ValidationPerformance)
| CorrelationGraphs (figures : list (string * list edge))
| EmptyDiv.

(** *** Label slices *)

Definition cell_leb (a b : cell) : bool :=
  match a, b with
  | Num x, Num y => Qle_bool x y
  | _, _ => false
  end.

Definition filter_rows (keep : cell -> bool) (df : DataFrame) : DataFrame :=
  mkDataFrame (index_name df) (List.filter keep (index df))
    (map (fun c => (fst c,
                    map snd (List.filter (fun row => keep (fst row))
                                    (combine (index df) (snd c)))))
         (columns df)).

(** [df.loc[:label]] and [df.loc[label:]], both ends included, on an
    increasing index of timestamps. *)
Definition loc_to (label : cell) (df : DataFrame) : DataFrame :=
  filter_rows (fun l => cell_leb l label) df.

Definition loc_from (label : cell) (df : DataFrame) : DataFrame :=
  filter_rows (fun l => cell_leb label l) df.

(** [-test_values] for the value found in the characteristics. *)
Definition negate (v : pyval) : result Z :=
  match v with
  | PInt z => Ok (- z)%Z
  | PFloat _ => Raise TypeError
  | PStr _ => Raise TypeError
  end.

(** *** cross_correlation_graph *)

(** [Series.abs()]. *)
Definition cell_abs (c : cell) : result cell :=
  match c with
  | Num q => Ok (Num (Qabs q))
  | NaN => Ok NaN
  | Str _ => Raise TypeError
  end.

Definition numeric_rows (rows : list (cell * cell)) : list (cell * Q) :=
  omap (fun row => match snd row with
                   | Num q => Some (fst row, q)
                   | _ => None
                   end) rows.

(** The first row holding the largest value. *)
Fixpoint first_max (rows : list (cell * Q)) : option (cell * Q) :=
  match rows with
  | [] => None
  | (l, v) :: rest =>
      match first_max rest with
      | Some (l', v') => if Qle_bool v' v then Some (l, v) else Some (l', v')
      | None => Some (l, v)
      end
  end.

(** [Series.idxmax()]: the label of the first occurrence of the maximum,
    NaN values skipped; NaN when every value is NaN, [ValueError] on an
    empty series. *)
Definition idxmax (labels values : list cell) : result cell :=
  match combine labels values with
  | [] => Raise ValueError
  | rows =>
      match first_max (numeric_rows rows) with
      | Some (l, _) => Ok l
      | None => Ok NaN
      end
  end.

(** [df.loc[label, col]]: the cell of the one row with that label;
    [KeyError] without such a row. With several, pandas returns a series,
    on which the comparison that follows raises [ValueError]. *)
Definition loc_scalar (df : DataFrame) (label : cell) (col : string) : result cell :=
  try! values := getitem df col in
  match List.filter (fun row => cell_eqb (fst row) label) (combine (index df) values) with
  | [] => Raise KeyError
  | [row] => Ok (snd row)
  | _ => Raise ValueError
  end.

(** Lines 442-443: the lag of the largest absolute correlation of a
    column, and the correlation there. *)
Definition column_peak (df : DataFrame) (col : string) : result (cell * cell) :=
  try! values := getitem df col in
  try! magnitudes := map_result cell_abs values in
  try! index_of_max := idxmax (index df) magnitudes in
  try! corr := loc_scalar df index_of_max col in
  Ok (index_of_max, corr).

(** The number a Python value stands for in a comparison. *)
Definition number_of (v : pyval) : result Q :=
  match v with
  | PInt z => Ok (inject_Z z)
  | PFloat q => Ok q
  | PStr _ => Raise TypeError
  end.

(** [abs(corr) > threshold]; the threshold is [None] when the
    configuration has none. *)
Definition above_threshold (corr : cell) (threshold : option pyval) : result bool :=
  match corr, threshold with
  | Str _, _ => Raise TypeError
  | _, None => Raise TypeError
  | NaN, Some v => try! _ := number_of v in Ok false
  | Num q, Some v => try! t := number_of v in Ok (negb (Qle_bool (Qabs q) t))
  end.

(** [G.add_edge(u, v, ...)]: a second edge between the same nodes
    replaces the attributes of the first. *)
Fixpoint add_edge (e : edge) (es : list edge) : list edge :=
  match es with
  | [] => [e]
  | e' :: rest =>
      if String.eqb (edge_from e') (edge_from e) && String.eqb (edge_to e') (edge_to e)
      then e :: rest
      else e' :: add_edge e rest
  end.

(** The loop over the columns of one mode. *)
Fixpoint mode_edges (name : string) (df : DataFrame) (threshold : option pyval)
  (cols : list string) (es : list edge) : result (list edge) :=
  match cols with
  | [] => Ok es
  | col :: rest =>
      try! peak := column_peak df col in
      try! drawn := above_threshold (snd peak) threshold in
      mode_edges name df threshold rest
        (if drawn then add_edge (mkEdge name col (snd peak) (fst peak)) es else es)
  end.

(** One figure per mode, in the order of the dict; the figures are shown
    when there are one to four of them. *)
Definition cross_correlation_graph (name : string) (xcorr : list (string * DataFrame))
  (threshold : option pyval) : result child :=
  try! figures :=
    map_result (fun entry =>
                  try! es := mode_edges name (snd entry) threshold
                               (column_names (snd entry)) [] in
                  Ok (fst entry, es)) xcorr in
  let n_graphs := List.length figures in
  if (1 <=? n_graphs)%nat && (n_graphs <=? 4)%nat
  then Ok (CorrelationGraphs figures)
  else Ok EmptyDiv.

(** The rows of a column: (lag, correlation) pairs in index order. *)
Definition column_rows (df : DataFrame) (values : list cell) : list (cell * cell) :=
  combine (index df) values.

(** [(lag, corr)] is the first row of largest absolute correlation: the
    rows before it are strictly smaller in absolute value, the rows after
    it are not larger. *)
Definition first_peak (rows : list (cell * cell)) (lag : cell) (corr : Q) : Prop :=
  exists before after : list (cell * cell),
    rows = (before ++ (lag, Num corr) :: after)%list /\
    (forall l q, In (l, Num q) before -> (Qabs q < Qabs corr)%Q) /\
    (forall l q, In (l, Num q) after -> (Qabs q <= Qabs corr)%Q).

(** A row as [idxmax] sees it after [abs()]: NaN rows are skipped. *)
Definition abs_row (row : cell * cell) : option (cell * Q) :=
  match snd row with
  | Num q => Some (fst row, Qabs q)
  | _ => None
  end.

(** An edge of the graph of one mode, as the loop draws it: from the
    target to a column, carrying the first peak of that column, which is
    above the threshold. *)
Definition peak_edge (name : string) (df : DataFrame) (threshold : option pyval)
  (e : edge) : Prop :=
  exists (values : list cell) (q t : Q) (v : pyval),
    edge_from e = name /\
    getitem df (edge_to e) = Ok values /\
    edge_corr e = Num q /\
    first_peak (column_rows df values) (edge_lag e) q /\
    threshold = Some v /\ number_of v = Ok t /\ (t < Qabs q)%Q.

(** The claim that a tie between lags goes to the smallest absolute lag:
    no row of the column reaches the reported peak at a lag closer to 0. *)
Definition ties_go_to_smallest_abs_lag (df : DataFrame) (col : string) : Prop :=
  forall lag corr values lag' corr',
    column_peak df col = Ok (Num lag, Num corr) ->
    getitem df col = Ok values ->
    In (Num lag', Num corr') (combine (index df) values) ->
    (Qabs corr' == Qabs corr)%Q ->
    (Qabs lag <= Qabs lag')%Q.

(** A frame of correlations over the lags -1, 0, 1 in which two lags
    share the largest absolute value. *)
Definition tied_xcorr : DataFrame :=
  mkDataFrame None [Num (-1); Num 0; Num 1] [("y", [Num (1 # 2); Num (1 # 2); Num 0])].

(** *** Plots of a prediction *)

(** [prediction_plot(df, predicted_data, test_values)]: it reads its
    arguments only. The bound traces are added inside a [try]: whichever
    of the two columns is missing first ends the attempt. *)
Definition prediction_plot (df predicted_data : DataFrame) (test_values : pyval)
  : result child :=
  try! first := match index predicted_data with
                | [] => Raise IndexError
                | l :: _ => Ok l
                end in
  let not_training_data := loc_to first df in
  let training_data := loc_from first df in
  try! minus_test_values := negate test_values in
  let training_data := iloc_to minus_test_values training_data in
  let test_data := iloc_from minus_test_values df in
  try! yhat := getitem predicted_data "yhat" in
  let bounds :=
    match getitem predicted_data "yhat_lower" with
    | Ok lower =>
        mkTrace "yhat_lower" (index predicted_data) lower ::
        match getitem predicted_data "yhat_upper" with
        | Ok upper => [mkTrace "yhat_upper" (index predicted_data) upper]
        | Raise _ => []
        end
    | Raise _ => []
    end in
  try! unused := iloc_first_column not_training_data in
  try! training := iloc_first_column training_data in
  try! validation := iloc_first_column test_data in
  Ok (Graph "Best prediction for the validation set"
        (mkTrace "yhat" (index predicted_data) yhat :: bounds ++
         [mkTrace "unused data" (index not_training_data) unused;
          mkTrace "training data" (index training_data) training;
          mkTrace "validation data" (index test_data) validation])%list).

(** [df_performances.sort_index()]: the rows by increasing label, which is
    a timestamp; rows of equal label keep their order. *)
Definition sort_index {A : Type} (rows : list (cell * A)) : result (list (cell * A)) :=
  list_sort (fun row => match fst row with
                        | Num q => Ok q
                        | _ => Raise TypeError
                        end) rows.

(** [performance_plot(df, predicted_data, testing_performances,
    test_values)]. [predicted_data] is the caller's frame, by reference:
    the assignment [predicted_data.iloc[:, 0] = "nan"] changes it in
    place. *)
Definition performance_plot (df : DataFrame) (predicted_data : ref)
  (testing_performances : list ValidationPerformance) (test_values : pyval)
  : M (gmap nat DataFrame) child :=
  do! minus_test_values := lift (negate test_values) in
  let training_data := iloc_to minus_test_values df in
  let data_performances :=
    map (fun tp => (first_used_index tp, (MAE tp, MSE tp, AM tp)))
        testing_performances in
  do! df_performances := lift (sort_index data_performances) in
  let labels := map fst df_performances in
  let mae := mkTrace "MAE" labels (map (fun r => Num (fst (fst (snd r)))) df_performances) in
  let mse := mkTrace "MSE" labels (map (fun r => Num (snd (fst (snd r)))) df_performances) in
  let am := mkTrace "AM" labels (map (fun r => Num (snd (snd r))) df_performances) in
  do! training := lift (iloc_first_column training_data) in
  do! _ := update predicted_data (iloc_set_first_column (Str "nan")) in
  do! blanked := load predicted_data in
  do! yhat := lift (iloc_first_column blanked) in
  ret (Graph "Performances with different training windows"
         [mae; mse; am;
          mkTrace "training data" (index training_data) training;
          mkTrace "yhat" (index blanked) yhat]).

(** [characteristics_list]: the characteristics and the errors of the
    first performance in the list. *)
Definition characteristics_list (model_characteristics : list (string * pyval))
  (testing_performances : list ValidationPerformance) : result child :=
  match testing_performances with
  | [] => Raise IndexError
  | best :: _ => Ok (CharacteristicsList model_characteristics best)
  end.

(** [main_accuracy_estimator.upper()]. *)
Definition estimator_attribute (v : pyval) : result string :=
  match v with
  | PStr s => Ok (upper s)
  | _ => Raise AttributeError
  end.

(** The key of the sort:
    [getattr(x.testing_performances, main_accuracy_estimator.upper())]. *)
Definition estimator_key (main_accuracy_estimator : pyval) (x : SingleResult)
  : result Q :=
  try! attribute := estimator_attribute main_accuracy_estimator in
  getattr (testing_performances x) attribute.

(** *** create_scenario_children *)

(** The body of the loop over the models (lines 106-125): sort the results
    in place by the main accuracy estimator, take the prediction of the
    first as the best one, and build the children. *)
Definition model_children (scenario_data : DataFrame)
  (model_parameters : list (string * pyval)) (model_name : string)
  (model : ModelResult) : M world (list child) :=
  do! test_values := lift (dict_item (characteristics model) "test_values") in
  do! main_accuracy_estimator :=
    lift (dict_item model_parameters "main_accuracy_estimator") in
  do! _ := on_lists (update (results model)
             (list_sort (estimator_key main_accuracy_estimator))) in
  do! model_results := on_lists (load (results model)) in
  do! best := lift (match model_results with
                    | [] => Raise IndexError
                    | x :: _ => Ok x
                    end) in
  let best_prediction := prediction best in
  let performances := map testing_performances model_results in
  do! chars := lift (characteristics_list (characteristics model) performances) in
  do! best_frame := on_frames (load best_prediction) in
  do! pplot := lift (prediction_plot scenario_data best_frame test_values) in
  do! perf := on_frames (performance_plot scenario_data best_prediction
                           performances test_values) in
  ret [Heading 4 model_name; chars; pplot; perf].

Fixpoint for_each {S A B : Type} (f : A -> M S (list B)) (l : list A) : M S (list B) :=
  match l with
  | [] => ret []
  | x :: rest =>
      do! ys := f x in
      do! zs := for_each f rest in
      ret (ys ++ zs)%list
  end.

(** A scenario whose [historical_prediction] is [None]: its data, its
    cross-correlation frames by mode, and its models by name. *)
Record Scenario : Type := mkScenario {
  scenario_data : DataFrame;
  xcorr : option (list (string * DataFrame));
  models : option (list (string * ModelResult))
}.

Section CreateScenarioChildren.

(** The plots of the raw data read their frame and return a graph; they
    are not unfolded here. *)
Variable line_plot : DataFrame -> result child.
Variable histogram_plot : DataFrame -> list (string * pyval) -> result child.
Variable box_plot : DataFrame -> list (string * pyval) -> result child.
Variable box_plot_aggregate : DataFrame -> list (string * pyval) -> result child.
Variable components_plot : DataFrame -> result child.
Variable autocorrelation_plot : DataFrame -> result child.
Variable cross_correlation_plot : list (string * DataFrame) -> result child.

Definition data_children (scenario : Scenario)
  (visualization_parameters : list (string * pyval)) (name : string)
  : result (list child) :=
  let df := scenario_data scenario in
  try! c1 := line_plot df in
  try! c2 := histogram_plot df visualization_parameters in
  try! c3 := box_plot df visualization_parameters in
  try! c4 := box_plot_aggregate df visualization_parameters in
  try! c5 := components_plot df in
  try! c6 := autocorrelation_plot df in
  Ok [Heading 2 (name ++ " analysis"); Heading 3 "Data visualization";
      c1; c2; c3; c4; c5; c6].

Definition xcorr_children (scenario : Scenario)
  (visualization_parameters : list (string * pyval)) (name : string)
  : result (list child) :=
  match xcorr scenario with
  | None => Ok []
  | Some frames_by_mode =>
      let graph_corr_threshold :=
        dict_lookup "xcorr_graph_threshold" visualization_parameters in
      try! plot := cross_correlation_plot frames_by_mode in
      try! graph := cross_correlation_graph name frames_by_mode graph_corr_threshold in
      Ok [Heading 3 "Cross-correlation";
          Div "Negative lags (left part) show the correlation between this scenario and the future of the others.";
          Div "Meanwhile, positive lags (right part) shows the correlation between this scenario and the past of the others.";
          plot;
          Div "The peaks found using each cross-correlation modality are shown in the graphs:";
          graph]
  end.

(** [create_scenario_children(scenario, param_config)], with
    [param_config] given by its two entries. *)
Definition create_scenario_children (scenario : Scenario)
  (visualization_parameters : option (list (string * pyval)))
  (model_parameters : option (list (string * pyval))) : M world (list child) :=
  do! visualization_parameters :=
    lift (match visualization_parameters with
          | Some d => Ok d
          | None => Raise KeyError
          end) in
  do! name := lift (column_name_at 0 (scenario_data scenario)) in
  do! first := lift (data_children scenario visualization_parameters name) in
  do! second := lift (xcorr_children scenario visualization_parameters name) in
  do! third :=
    match models scenario with
    | None => ret []
    | Some by_name =>
        do! model_parameters :=
          lift (match model_parameters with
                | Some d => Ok d
                | None => Raise KeyError
                end) in
        do! per_model :=
          for_each (fun entry =>
                      model_children (scenario_data scenario) model_parameters
                        (fst entry) (snd entry)) by_name in
        ret (Heading 3 "Training & Validation results" :: per_model)
    end in
  ret (first ++ second ++ third)%list.

End CreateScenarioChildren.

(** *** A small backtest for the examples *)

(** A series of five dates, the last of which is the test value. *)
Definition sample_data : DataFrame :=
  mkDataFrame None [Num 1; Num 2; Num 3; Num 4; Num 5]
    [("value", [Num 10; Num 20; Num 30; Num 40; Num 50])].

(** Two windows: one from date 3, one from date 1, each with a prediction
    over its training dates, the test date and one more. *)
Definition sample_prediction_short : DataFrame :=
  mkDataFrame (Some "ds") [Num 3; Num 4; Num 5; Num 6]
    [("yhat", [Num 31; Num 41; Num 52; Num 60])].

Definition sample_prediction_long : DataFrame :=
  mkDataFrame (Some "ds") [Num 1; Num 2; Num 3; Num 4; Num 5; Num 6]
    [("yhat", [Num 11; Num 21; Num 29; Num 40; Num 51; Num 62])].

Definition sample_results : list SingleResult :=
  [mkSingleResult 1 (mkValidationPerformance (Num 3) 2 4 2 2);
   mkSingleResult 2 (mkValidationPerformance (Num 1) 1 1 1 1)].

Definition sample_world : world :=
  mkWorld (<[1%nat := sample_prediction_short]>
             (<[2%nat := sample_prediction_long]> ∅))
          (<[0%nat := sample_results]> ∅).

Definition sample_model : ModelResult :=
  mkModelResult 0 [("name", PStr "FBProphet"); ("test_values", PInt 1)].

Definition sample_model_parameters : list (string * pyval) :=
  [("main_accuracy_estimator", PStr "mae")].

(** The loop body run on the sample. *)
Definition sample_outcome : result (list child) * world :=
  model_children sample_data sample_model_parameters "FBProphet" sample_model
    sample_world.

Definition sample_children : list child :=
  match fst sample_outcome with
  | Ok children => children
  | Raise _ => []
  end.

(** The claim that no prediction changes: every result of the model finds
    its prediction in the store as it was. *)
Definition predictions_untouched (before after : world) (model : ModelResult) : Prop :=
  forall rs r,
    lists before !! results model = Some rs ->
    In r rs ->
    frames after !! prediction r = frames before !! prediction r.

End Visualization.

(** ** Configuration (spec sections 3 and 6) *)

Module Config.
Import Transform.
Local Open Scope string_scope.
Local Open Scope Z_scope.

Inductive Estimator : Type :=
| mae
| mse
| rmse
| am.

(** A value of the configuration mapping. *)
Inductive cfg_value : Type :=
| CInt (z : Z)
| CStr (s : string).

(** An entry of [param_config]: a plain value, or a nested mapping such
    as the one under [model_parameters]. *)
Inductive cfg_entry : Type :=
| Leaf (v : cfg_value)
| Nested (d : gmap string cfg_value).

(** The window sizes are given in absolute or in relative form. *)
Inductive amount : Type :=
| Absolute (n : Z)
| Percentage (p : Z).

(** What the predictor keeps of its configuration before it has seen a
    series. *)
Record Settings : Type := mkSettings {
  test_amount : amount;
  delta_training_amount : amount;
  settings_prediction_lags : Z;
  settings_transformation : TransformKind;
  settings_main_accuracy_estimator : Estimator
}.

(** The configuration once the length of the series is known. *)
Record ModelConfig : Type := mkModelConfig {
  test_values : Z;
  delta_training_values : Z;
  prediction_lags : Z;
  transformation : TransformKind;
  main_accuracy_estimator : Estimator
}.

(** The keys section 6 lists. *)
Definition known_keys : list string :=
  ["test_values"; "test_percentage"; "delta_training_values";
   "delta_training_percentage"; "prediction_lags"; "transformation";
   "main_accuracy_estimator"].

(** Modelled from the spec: the defaults of a missing key. The
    configuration reader and its default file are not among the sources.
    Section 6 documents [delta_training_percentage = 20],
    [transformation = log] and [main_accuracy_estimator = mae], mirrored
    from the default-path test; the same test
    ([test_launch_model_fbprophet_3]) expects [test_values = 10] on 100
    points and predictions 10 points past the test values, taken here as
    [test_percentage = 10] and [prediction_lags = 10]. *)
Definition default_delta_training_percentage : Z := 20.
Definition default_test_percentage : Z := 10.
Definition default_prediction_lags : Z := 10.
Definition default_transformation : TransformKind := Log.
Definition default_main_accuracy_estimator : Estimator := mae.

Definition int_key (key : string) (d : gmap string cfg_value) : option Z :=
  match d !! key with
  | Some (CInt z) => Some z
  | _ => None
  end.

Definition str_key (key : string) (d : gmap string cfg_value) : option string :=
  match d !! key with
  | Some (CStr s) => Some s
  | _ => None
  end.

Definition parse_transformation (s : string) : option TransformKind :=
  if String.eqb s "none" then Some TNone
  else if String.eqb s "log" then Some Log
  else if String.eqb s "log_modified" then Some LogModified
  else None.

Definition parse_estimator (s : string) : option Estimator :=
  if String.eqb s "mae" then Some mae
  else if String.eqb s "mse" then Some mse
  else if String.eqb s "rmse" then Some rmse
  else if String.eqb s "am" then Some am
  else None.

(** Modelled from the spec: reading the model parameters (section 6: the
    keys [test_values|test_percentage],
    [delta_training_values|delta_training_percentage], [prediction_lags],
    [transformation], [main_accuracy_estimator]; unknown keys ignored;
    missing keys fall back to the defaults). A value that cannot be read
    counts as missing. *)
Definition read_model_parameters (d : gmap string cfg_value) : Settings :=
  mkSettings
    (match int_key "test_values" d with
     | Some n => Absolute n
     | None => Percentage (default default_test_percentage (int_key "test_percentage" d))
     end)
    (match int_key "delta_training_values" d with
     | Some n => Absolute n
     | None => Percentage (default default_delta_training_percentage
                             (int_key "delta_training_percentage" d))
     end)
    (default default_prediction_lags (int_key "prediction_lags" d))
    (default default_transformation (str_key "transformation" d ≫= parse_transformation))
    (default default_main_accuracy_estimator
       (str_key "main_accuracy_estimator" d ≫= parse_estimator)).

(** Modelled from the spec: the predictor's constructor reads the nested
    mapping under [model_parameters]; without one, every key is missing. *)
Definition read_config (param_config : gmap string cfg_entry) : Settings :=
  match param_config !! "model_parameters" with
  | Some (Nested d) => read_model_parameters d
  | _ => read_model_parameters ∅
  end.

(** Modelled from the spec (section 3): percentages are resolved to
    absolute counts once the series length is known, rounding down, with
    a floor of 1. *)
Definition resolve_amount (len : Z) (a : amount) : Z :=
  match a with
  | Absolute n => n
  | Percentage p => Z.max 1 (len * p / 100)
  end.

Definition resolve (s : Settings) (len : Z) : ModelConfig :=
  mkModelConfig
    (resolve_amount len (test_amount s))
    (resolve_amount len (delta_training_amount s))
    (settings_prediction_lags s)
    (settings_transformation s)
    (settings_main_accuracy_estimator s).

(** The configuration of the default-path test: no [model_parameters],
    one key the predictor does not know. *)
Definition verbose_only : gmap string cfg_entry :=
  {[ "verbose" := Leaf (CStr "no") ]}.

End Config.

(** ** The backtest engine (spec section 4.2) *)

Module Backtest.
Import Transform Config.
Local Open Scope Z_scope.

(** A series: (timestamp, value) pairs, timestamps increasing. *)
Definition timestamps (series : list (Z * R)) : list Z := map fst series.

Fixpoint increasing (ts : list Z) : bool :=
  match ts with
  | [] => true
  | t :: rest =>
      match rest with
      | [] => true
      | u :: _ => (t <? u) && increasing rest
      end
  end.

Record PerformanceMetrics : Type := mkPerformanceMetrics {
  MAE : R;
  MSE : R;
  RMSE : R;
  AM : R
}.

Record TrainingWindowResult : Type := mkTrainingWindowResult {
  first_used_index : Z;
  prediction : list (Z * R);
  testing_performance : PerformanceMetrics
}.

Inductive engine_error : Type :=
| ConfigurationError
| AllWindowsFailedError.

(** *** PerformanceScorer (spec section 4.3) *)

(** The actual values that have a prediction at their timestamp, paired
    with it. *)
Definition overlap (actual predicted : list (Z * R)) : list (R * R) :=
  omap (fun a =>
          match find (fun p => Z.eqb (fst p) (fst a)) predicted with
          | Some p => Some (snd a, snd p)
          | None => None
          end) actual.

Definition mean (l : list R) : R :=
  (fold_right Rplus 0 l / INR (List.length l))%R.

(** Modelled from the spec: [score]; [None] is the
    [MisalignedSeriesError] of an empty intersection. *)
Definition score (actual predicted : list (Z * R)) : option PerformanceMetrics :=
  match overlap actual predicted with
  | [] => None
  | pairs =>
      let errors := map (fun ap => (snd ap - fst ap)%R) pairs in
      let mse := mean (map (fun e => (e * e)%R) errors) in
      Some (mkPerformanceMetrics (mean (map Rabs errors)) mse (sqrt mse) (mean errors))
  end.

(** *** Windows *)

(** Modelled from the spec (step 2):
    [W = floor((len - test_values) / delta_training_values)], minimum 1. *)
Definition window_count (len test delta : Z) : Z :=
  Z.max 1 ((len - test) / delta).

(** Modelled from the spec (step 2): window [i] starts at
    [len - test_values - (i+1) * delta_training_values]; when these
    windows leave the beginning of the series unused, one more window
    uses all available history (the fifth window of the 100-point
    example). *)
Definition window_starts (len test delta : Z) : list Z :=
  let W := window_count len test delta in
  map (fun i => len - test - (Z.of_nat i + 1) * delta) (seq 0 (Z.to_nat W))
  ++ (if W * delta <? len - test then [0] else []).

(** [series[start:stop]]. *)
Definition slice {A : Type} (start stop : Z) (l : list A) : list A :=
  firstn (Z.to_nat stop - Z.to_nat start) (skipn (Z.to_nat start) l).

(** The spacing of the last two timestamps. *)
Definition step_of (ts : list Z) : Z :=
  match rev ts with
  | last :: previous :: _ => last - previous
  | _ => 1
  end.

(** Modelled from the spec (step 3): the timestamps asked of the model,
    from the start of the window over the training slice and the test
    horizon, then [prediction_lags] more. *)
Definition future_index (ts : list Z) (start lags : Z) : list Z :=
  skipn (Z.to_nat start) ts
  ++ map (fun k => List.last ts 0 + (Z.of_nat k + 1) * step_of ts)
         (seq 0 (Z.to_nat lags)).

(** What the test suite calls the used training set of a result:
    [df.loc[first_used_index:].iloc[:-test_values]]. *)
Definition used_training_set (series : list (Z * R)) (first : Z) (test : Z)
  : list (Z * R) :=
  Pandas.slice_to (- test) (List.filter (fun row => first <=? fst row) series).

Section Engine.

(** The ForecastModel capability: a fresh model is fitted per window
    ([None]: the training failed), and predicts a series over the
    timestamps it is asked for. *)
Variable Model : Type.
Variable train : list (Z * R) -> option Model.
Variable predict : Model -> list Z -> list (Z * R).

(** Modelled from the spec (step 3): one window. A failed training and an
    empty scoring overlap both drop the window. *)
Definition run_window (cfg : ModelConfig) (series transformed : list (Z * R))
  (start : Z) : option TrainingWindowResult :=
  let len := Z.of_nat (List.length series) in
  let training := slice start (len - test_values cfg) transformed in
  first ← head (timestamps training);
  model ← train training;
  let forecast :=
    predict model (future_index (timestamps series) start (prediction_lags cfg)) in
  let inverted := map (fun row => (fst row, invert (transformation cfg) (snd row)))
                      forecast in
  performance ← score (skipn (Z.to_nat (len - test_values cfg)) series) inverted;
  Some (mkTrainingWindowResult first inverted performance).

(** Modelled from the spec (section 4.2): [launch_model] lives in
    data_prediction/data_prediction.py, which is not among the sources.
    Resolve the sizes, refuse a series shorter than
    [delta_training_values + test_values], transform once, run every
    window, keep the surviving results. *)
Definition launch_model (settings : Settings) (series : list (Z * R))
  : engine_error + list TrainingWindowResult :=
  let len := Z.of_nat (List.length series) in
  let cfg := resolve settings len in
  if (test_values cfg <? 1) || (delta_training_values cfg <? 1)
     || (len <? delta_training_values cfg + test_values cfg)
  then inl ConfigurationError
  else
    let transformed :=
      map (fun row => (fst row, apply (transformation cfg) (snd row))) series in
    match omap (run_window cfg series transformed)
               (window_starts len (test_values cfg) (delta_training_values cfg)) with
    | [] => inl AllWindowsFailedError
    | results => inr results
    end.

End Engine.

(** The settings of [test_launch_model_fbprophet_1]. *)
Definition canonical_settings (lags : Z) : Settings :=
  mkSettings (Percentage 10) (Percentage 20) lags TNone mae.

(** A model that repeats the last training value, and a series of 100
    daily points, as [get_fake_df(100)] builds one. *)
Definition naive_train (training : list (Z * R)) : option R :=
  Some (List.last (map snd training) 0%R).

Definition naive_predict (level : R) (idx : list Z) : list (Z * R) :=
  map (fun t => (t, level)) idx.

Definition fake_series (n : nat) : list (Z * R) :=
  map (fun i => (Z.of_nat i, INR i)) (seq 0 n).

End Backtest.

(** ** The frame FBProphet.predict hands to the model *)

Module Future.
Import Pandas.
Local Open Scope string_scope.
Local Open Scope list_scope.

(** What [predict] builds from a future frame whose index has no name:
    the labels of the index as the column [ds], in front of the columns
    of the frame, under a fresh range index. *)
Definition ds_frame (future_dataframe : DataFrame) : DataFrame :=
  mkDataFrame None (range_index (List.length (index future_dataframe)))
    (("ds", index future_dataframe) :: columns future_dataframe).

(** The same with extra regressors: their columns, aligned on the labels
    of the future frame, come last. *)
Definition ds_frame_with (future_dataframe regressors : DataFrame) : DataFrame :=
  mkDataFrame None (range_index (List.length (index future_dataframe)))
    (("ds", index future_dataframe) ::
     columns future_dataframe ++
     map (fun c => (fst c, align (index future_dataframe) (index regressors) (snd c)))
         (columns regressors)).

(** A future frame whose index is named, and regressors for the date of
    [Prophet.sample_future]. *)
Definition sample_future_named : DataFrame :=
  mkDataFrame (Some "date") [Num 100] [("yhat", [NaN])].

Definition sample_future_regressors : DataFrame :=
  mkDataFrame None [Num 100] [("temperature", [Num 12])].

(** A forecast without the column of the upper bound. *)
Definition sample_forecast_without_bounds : DataFrame :=
  mkDataFrame None [Num 0] [("ds", [Num 100]); ("yhat", [Num 2])].

(** A model that answers only a frame under an unnamed index. *)
Definition sample_model_predict (model : unit) (future : DataFrame) : result DataFrame :=
  match index_name future with
  | None => Ok Prophet.sample_forecast
  | Some _ => Raise KeyError
  end.

(** A training frame of two columns, and stores holding it, and holding
    a frame and regressors with a column of the same name. *)
Definition sample_training_wide : DataFrame :=
  mkDataFrame None [Num 1; Num 2] [("value", [Num 10; Num 20]); ("other", [Num 5; Num 6])].

Definition sample_store_wide : gmap nat DataFrame :=
  <[1%nat := sample_training_wide]> ∅.

Definition sample_store_overlap : gmap nat DataFrame :=
  <[1%nat := Prophet.sample_training]> (<[2%nat := Prophet.sample_training]> ∅).

End Future.

(** ** suppress_stdout_stderr (data_prediction/prophet_predictor.py) *)

Module Descriptors.

(** The table of the open file descriptors of the process: what each
    descriptor refers to. A call of [os] that fails raises [OSError]:
    [None] here. *)
Inductive file : Type :=
| DevNull
| Stream (id : nat).

Definition fdM (A : Type) : Type := gmap nat file -> option A * gmap nat file.

Definition fd_ret {A : Type} (a : A) : fdM A := fun t => (Some a, t).

Definition fd_bind {A B : Type} (m : fdM A) (k : A -> fdM B) : fdM B :=
  fun t =>
    match m t with
    | (Some a, t') => k a t'
    | (None, t') => (None, t')
    end.

(** A new descriptor is the lowest one not in use. *)
Definition lowest_free (t : gmap nat file) : nat :=
  default 0%nat (List.find (fun n => bool_decide (t !! n = None)) (seq 0 (S (size t)))).

(** [os.open(os.devnull, os.O_RDWR)]. *)
Definition os_open_devnull : fdM nat :=
  fun t => (Some (lowest_free t), <[lowest_free t := DevNull]> t).

(** [os.dup(fd)]. *)
Definition os_dup (fd : nat) : fdM nat :=
  fun t =>
    match t !! fd with
    | Some f => (Some (lowest_free t), <[lowest_free t := f]> t)
    | None => (None, t)
    end.

(** [os.dup2(fd, fd2)]: [fd2] is closed first if it is open. *)
Definition os_dup2 (fd fd2 : nat) : fdM unit :=
  fun t =>
    match t !! fd with
    | Some f => (Some tt, <[fd2 := f]> t)
    | None => (None, t)
    end.

(** [os.close(fd)]. *)
Definition os_close (fd : nat) : fdM unit :=
  fun t =>
    match t !! fd with
    | Some _ => (Some tt, delete fd t)
    | None => (None, t)
    end.

Record suppress_stdout_stderr : Type := mk_suppress {
  null_fds : list nat;
  save_fds : list nat
}.

(** [__init__]: two descriptors on the null device, then copies of the
    descriptors 1 and 2. *)
Definition init : fdM suppress_stdout_stderr :=
  fd_bind os_open_devnull (fun n0 =>
  fd_bind os_open_devnull (fun n1 =>
  fd_bind (os_dup 1) (fun s1 =>
  fd_bind (os_dup 2) (fun s2 =>
  fd_ret (mk_suppress [n0; n1] [s1; s2]))))).

(** [__enter__]. *)
Definition enter (self : suppress_stdout_stderr) : fdM unit :=
  fd_bind (os_dup2 (nth 0 (null_fds self) 0%nat) 1) (fun _ =>
  os_dup2 (nth 1 (null_fds self) 0%nat) 2).

Fixpoint close_all (fds : list nat) : fdM unit :=
  match fds with
  | [] => fd_ret tt
  | fd :: rest => fd_bind (os_close fd) (fun _ => close_all rest)
  end.

(** [__exit__]: it returns [None], so what the block raised goes on. *)
Definition exit (self : suppress_stdout_stderr) : fdM unit :=
  fd_bind (os_dup2 (nth 0 (save_fds self) 0%nat) 1) (fun _ =>
  fd_bind (os_dup2 (nth 1 (save_fds self) 0%nat) 2) (fun _ =>
  close_all (null_fds self ++ save_fds self))).

(** [with suppress_stdout_stderr(): body]. The body ends with a value or
    with an exception ([None]); [__exit__] runs in both cases. *)
Definition with_suppressed {A : Type} (body : fdM A) : fdM A :=
  fun t =>
    match init t with
    | (None, t1) => (None, t1)
    | (Some self, t1) =>
        match enter self t1 with
        | (None, t2) => (None, t2)
        | (Some _, t2) =>
            match body t2 with
            | (r, t3) =>
                match exit self t3 with
                | (None, t4) => (None, t4)
                | (Some _, t4) => (r, t4)
                end
            end
        end
    end.

(** A process with its three standard streams open; the instance it
    creates, and its table after [__init__], [__enter__] and [__exit__]. *)
Definition sample_table : gmap nat file :=
  <[0%nat := Stream 0]> (<[1%nat := Stream 1]> (<[2%nat := Stream 2]> ∅)).

Definition sample_self : suppress_stdout_stderr :=
  mk_suppress [3; 4]%nat [5; 6]%nat.

Definition sample_after_init : gmap nat file := snd (init sample_table).

Definition sample_entered : gmap nat file := snd (enter sample_self sample_after_init).

Definition sample_exited : gmap nat file := snd (exit sample_self sample_entered).

End Descriptors.

(** ** The dashboard (data_visualization/functions.py, continued) *)

Module Dashboard.
Import Pandas Visualization.
Local Open Scope string_scope.
Local Open Scope list_scope.

(** *** cross_correlation_plot *)

(** A trace of a figure with subplots: what is drawn, the cell of the
    grid it is drawn in, and whether it has an entry in the legend. The
    colour of the line, a hash of the column name, is left out. *)
Record subplot_trace : Type := mkSubplotTrace {
  shown : trace;
  row : nat;
  col : nat;
  showlegend : bool
}.

Record figure : Type := mkFigure {
  rows : nat;
  cols : nat;
  subplot_titles : list string;
  data : list subplot_trace
}.

Definition combs : list (nat * nat) := [(1, 1); (1, 2); (2, 1); (2, 2)]%nat.

(** The loop over the modes, [i] counting them: every column of the
    [i]-th mode goes to the cell [combs[i]]. *)
Fixpoint add_traces (i : nat) (xcorr : list (string * DataFrame))
  : result (list subplot_trace) :=
  match xcorr with
  | [] => Ok []
  | (mode, df) :: rest =>
      try! here :=
        map_result (fun name =>
                      try! y := getitem df name in
                      try! comb := match nth_error combs i with
                                   | Some c => Ok c
                                   | None => Raise IndexError
                                   end in
                      Ok (mkSubplotTrace (mkTrace name (index df) y)
                            (fst comb) (snd comb) (i =? 0)%nat))
                   (column_names df) in
      try! later := add_traces (S i) rest in
      Ok (here ++ later)
  end.

(** [cross_correlation_plot(xcorr)]: a grid of one or two rows and
    columns, by the number of modes. *)
Definition cross_correlation_plot (xcorr : list (string * DataFrame)) : result figure :=
  let subplots := List.length xcorr in
  let rows := if (subplots <? 3)%nat then 1%nat else 2%nat in
  let cols := if (subplots <? 2)%nat then 1%nat else 2%nat in
  try! data := add_traces 0 xcorr in
  Ok (mkFigure rows cols (map fst xcorr) data).

(** *** create_dash_children *)

Section CreateDashChildren.

Variable line_plot : DataFrame -> result child.
Variable histogram_plot : DataFrame -> list (string * pyval) -> result child.
Variable box_plot : DataFrame -> list (string * pyval) -> result child.
Variable box_plot_aggregate : DataFrame -> list (string * pyval) -> result child.
Variable components_plot : DataFrame -> result child.
Variable autocorrelation_plot : DataFrame -> result child.
Variable cross_correlation_plot : list (string * DataFrame) -> result child.

(** [create_dash_children(scenarios, param_config)]: the children of the
    scenarios, in order. *)
Definition create_dash_children (scenarios : list Scenario)
  (visualization_parameters : option (list (string * pyval)))
  (model_parameters : option (list (string * pyval))) : M world (list child) :=
  for_each (fun s =>
              create_scenario_children line_plot histogram_plot box_plot
                box_plot_aggregate components_plot autocorrelation_plot
                cross_correlation_plot s visualization_parameters model_parameters)
           scenarios.

End CreateDashChildren.

(** *** Inputs for the examples *)

(** Correlations of one other series under one mode, under three, and
    under five. *)
Definition sample_xcorr : list (string * DataFrame) :=
  [("pearson", tied_xcorr)].

Definition sample_xcorr_three : list (string * DataFrame) :=
  [("pearson", tied_xcorr); ("kendall", tied_xcorr); ("spearman", tied_xcorr)].

Definition sample_xcorr_five : list (string * DataFrame) :=
  [("pearson", tied_xcorr); ("kendall", tied_xcorr); ("spearman", tied_xcorr);
   ("matlab_normalized", tied_xcorr); ("extra", tied_xcorr)].

(** A plot that always succeeds, for the plots that are not unfolded. *)
Definition sample_plot1 (df : DataFrame) : result child := Ok EmptyDiv.

Definition sample_plot2 (df : DataFrame) (visualization_parameters : list (string * pyval))
  : result child := Ok EmptyDiv.

Definition sample_plot_xcorr (xcorr : list (string * DataFrame)) : result child :=
  Ok EmptyDiv.

(** Scenarios without models: one without cross-correlation, one with. *)
Definition sample_scenario : Scenario :=
  mkScenario sample_data None None.

Definition sample_scenario_xcorr : Scenario :=
  mkScenario sample_data (Some sample_xcorr) None.

(** A prediction with an upper bound and no lower bound, and its plot;
    the plot of the long window of the sample backtest when no value is
    kept for testing; and the performance plot of the sample backtest. *)
Definition sample_prediction_upper : DataFrame :=
  mkDataFrame (Some "ds") [Num 3; Num 4; Num 5; Num 6]
    [("yhat", [Num 31; Num 41; Num 52; Num 60]);
     ("yhat_upper", [Num 33; Num 43; Num 54; Num 62])].

Definition sample_prediction_plot : child :=
  match prediction_plot sample_data sample_prediction_upper (PInt 1) with
  | Ok g => g
  | Raise _ => EmptyDiv
  end.

Definition sample_prediction_plot_all : child :=
  match prediction_plot sample_data sample_prediction_long (PInt 0) with
  | Ok g => g
  | Raise _ => EmptyDiv
  end.

Definition sample_performance_plot : child * gmap nat DataFrame :=
  match performance_plot sample_data 2%nat (map testing_performances sample_results)
          (PInt 1) (frames sample_world) with
  | (Ok g, fs) => (g, fs)
  | (Raise _, fs) => (EmptyDiv, fs)
  end.

(** The figure of three modes. *)
Definition sample_figure : figure :=
  match cross_correlation_plot sample_xcorr_three with
  | Ok fig => fig
  | Raise _ => mkFigure 0 0 [] []
  end.

End Dashboard.

(* ===================================================================== *)
(** * Theorems *)
(* ===================================================================== *)

Section TransformFacts.
Import Transform.
Local Open Scope R_scope.

Lemma sign_pos (x : R) : 0 < x -> sign x = 1.
Proof.
  intros Hx. unfold sign.
  destruct (total_order_T x 0) as [[Hlt | Heq] | Hgt]; lra.
Qed.

Lemma sign_neg (x : R) : x < 0 -> sign x = -1.
Proof.
  intros Hx. unfold sign.
  destruct (total_order_T x 0) as [[Hlt | Heq] | Hgt]; lra.
Qed.

Lemma sign_zero : sign 0 = 0.
Proof.
  unfold sign.
  destruct (total_order_T 0 0) as [[Hlt | Heq] | Hgt]; lra.
Qed.

Lemma apply_log_pos (x : R) : 0 < x -> apply Log x = ln x.
Proof.
  intros Hx. unfold apply.
  destruct (Req_dec_T x 0) as [Heq | Hne]; [lra |].
  rewrite (sign_pos x Hx), Rabs_right by lra. lra.
Qed.

Lemma apply_log_neg (x : R) : x < 0 -> apply Log x = - ln (- x).
Proof.
  intros Hx. unfold apply.
  destruct (Req_dec_T x 0) as [Heq | Hne]; [lra |].
  rewrite (sign_neg x Hx), Rabs_left by lra. lra.
Qed.

Lemma apply_log_zero : apply Log 0 = 0.
Proof.
  unfold apply. destruct (Req_dec_T 0 0) as [Heq | Hne]; [reflexivity | lra].
Qed.

Lemma invert_log_pos (y : R) : 0 < y -> invert Log y = exp y.
Proof.
  intros Hy. unfold invert.
  destruct (Req_dec_T y 0) as [Heq | Hne]; [lra |].
  rewrite (sign_pos y Hy), Rabs_right by lra. lra.
Qed.

Lemma invert_log_neg (y : R) : y < 0 -> invert Log y = - exp (- y).
Proof.
  intros Hy. unfold invert.
  destruct (Req_dec_T y 0) as [Heq | Hne]; [lra |].
  rewrite (sign_neg y Hy), Rabs_left by lra. lra.
Qed.

Lemma invert_log_zero : invert Log 0 = 0.
Proof.
  unfold invert. destruct (Req_dec_T 0 0) as [Heq | Hne]; [reflexivity | lra].
Qed.

Lemma ln_gt_0 (x : R) : 1 < x -> 0 < ln x.
Proof.
  intros Hx. rewrite <- ln_1. apply ln_increasing; lra.
Qed.

(** The [log] round trip is exact above 1 in absolute value and at 0. *)
Lemma log_round_trip_exact (x : R) :
  x = 0 \/ 1 < Rabs x -> invert Log (apply Log x) = x.
Proof.
  intros [-> | Hx].
  - rewrite apply_log_zero. apply invert_log_zero.
  - destruct (Rcase_abs x) as [Hneg | Hpos].
    + rewrite Rabs_left in Hx by assumption.
      rewrite apply_log_neg by assumption.
      pose proof (ln_gt_0 (- x) Hx) as Hln.
      rewrite invert_log_neg by lra.
      rewrite Ropp_involutive, exp_ln by lra. lra.
    + rewrite Rabs_right in Hx by assumption.
      rewrite apply_log_pos by lra.
      pose proof (ln_gt_0 x Hx) as Hln.
      rewrite invert_log_pos by assumption.
      apply exp_ln. lra.
Qed.

(** The [log_modified] round trip is exact on the whole real line. *)
Lemma log_modified_round_trip_exact (x : R) :
  invert LogModified (apply LogModified x) = x.
Proof.
  unfold invert, apply.
  destruct (total_order_T x 0) as [[Hlt | Heq] | Hgt].
  - rewrite (sign_neg x Hlt), (Rabs_left x Hlt).
    assert (Hln : 0 < ln (- x + 1)) by (apply ln_gt_0; lra).
    rewrite sign_neg by lra. rewrite Rabs_left by lra.
    replace (- (-1 * ln (- x + 1))) with (ln (- x + 1)) by lra.
    rewrite exp_ln by lra. lra.
  - subst x. rewrite sign_zero, Rmult_0_l, sign_zero. lra.
  - rewrite (sign_pos x Hgt), (Rabs_right x) by lra.
    assert (Hln : 0 < ln (x + 1)) by (apply ln_gt_0; lra).
    rewrite Rmult_1_l, sign_pos by assumption.
    rewrite Rabs_right by lra. rewrite exp_ln by lra. lra.
Qed.

Lemma within_tolerance_refl (x : R) : within_tolerance x x.
Proof.
  unfold within_tolerance. rewrite Rminus_diag, Rabs_R0.
  apply Rmult_le_pos; [| apply Rabs_pos].
  left. apply Rinv_0_lt_compat. lra.
Qed.

End TransformFacts.

Section TransformClaims.
Import Transform.
Local Open Scope R_scope.

Lemma apply_log_formula (x : R) : apply Log x = sign x * ln (Rabs x).
Proof.
  unfold apply. destruct (Req_dec_T x 0) as [-> | Hne]; [| reflexivity].
  rewrite sign_zero. lra.
Qed.

Lemma ln_lt_0 (x : R) : 0 < x -> x < 1 -> ln x < 0.
Proof.
  intros H0 H1. rewrite <- ln_1. apply ln_increasing; lra.
Qed.

Lemma exp_opp_ln (x : R) : 0 < x -> exp (- ln x) = / x.
Proof.
  intros Hx. rewrite exp_Ropp, exp_ln by assumption. reflexivity.
Qed.

(** Strictly inside the unit interval the [log] round trip lands on the
    reciprocal with the sign flipped. *)
Lemma log_round_trip_inside_pos (x : R) :
  0 < x -> x < 1 -> invert Log (apply Log x) = - / x.
Proof.
  intros H0 H1. rewrite apply_log_pos by assumption.
  pose proof (ln_lt_0 x H0 H1) as Hln.
  rewrite invert_log_neg by assumption.
  rewrite exp_opp_ln by assumption. reflexivity.
Qed.

Lemma log_round_trip_inside_neg (x : R) :
  -1 < x -> x < 0 -> invert Log (apply Log x) = / (- x).
Proof.
  intros H0 H1. rewrite apply_log_neg by assumption.
  assert (Hln : ln (- x) < 0) by (apply ln_lt_0; lra).
  rewrite invert_log_pos by lra.
  rewrite exp_opp_ln by lra. reflexivity.
Qed.

Lemma log_collapses_one : invert Log (apply Log 1) = 0.
Proof.
  rewrite apply_log_pos by lra. rewrite ln_1. apply invert_log_zero.
Qed.

Lemma log_collapses_minus_one : invert Log (apply Log (-1)) = 0.
Proof.
  rewrite apply_log_neg by lra.
  replace (- -1) with 1 by lra. rewrite ln_1, Ropp_0. apply invert_log_zero.
Qed.

Lemma not_within_tolerance_of_zero (x : R) : x <> 0 -> ~ within_tolerance 0 x.
Proof.
  intros Hx H. unfold within_tolerance in H.
  rewrite Rminus_0_l, Rabs_Ropp in H.
  pose proof (Rabs_pos_lt x Hx) as Hpos. lra.
Qed.

(** Outside its domain the [log] round trip misses by more than the
    tolerance. *)
Lemma log_round_trip_misses (x : R) :
  x <> 0 -> Rabs x <= 1 -> ~ within_tolerance (invert Log (apply Log x)) x.
Proof.
  intros Hne Hle Hin.
  destruct (Rcase_abs x) as [Hneg | Hpos].
  - rewrite Rabs_left in Hle by assumption.
    destruct (Req_dec_T x (-1)) as [-> | Hne1].
    + rewrite log_collapses_minus_one in Hin.
      now apply (not_within_tolerance_of_zero (-1)) in Hin; [| lra].
    + rewrite log_round_trip_inside_neg in Hin by lra.
      unfold within_tolerance in Hin.
      assert (Hinv : 0 < / (- x)) by (apply Rinv_0_lt_compat; lra).
      rewrite Rabs_right in Hin by lra.
      rewrite (Rabs_left x) in Hin by assumption. lra.
  - destruct (Req_dec_T x 1) as [-> | Hne1].
    + rewrite log_collapses_one in Hin.
      now apply (not_within_tolerance_of_zero 1) in Hin; [| lra].
    + rewrite Rabs_right in Hle by assumption.
      rewrite log_round_trip_inside_pos in Hin by lra.
      unfold within_tolerance in Hin.
      assert (Hinv : 0 < / x) by (apply Rinv_0_lt_compat; lra).
      rewrite Rabs_left in Hin by lra.
      rewrite (Rabs_right x) in Hin by assumption. lra.
Qed.

Lemma Forall2_map_self {A : Type} (P : A -> A -> Prop) (f : A -> A) (l : list A) :
  (forall x, P (f x) x) -> Forall2 P (map f l) l.
Proof.
  intros H. induction l as [| x l IH]; simpl; constructor; auto.
Qed.

Lemma Forall2_map_self_inv {A : Type} (P : A -> A -> Prop) (f : A -> A) (l : list A) :
  Forall2 P (map f l) l -> forall x, In x l -> ~ P (f x) x -> False.
Proof.
  induction l as [| y l IH]; simpl; intros H x Hx Hnot; [contradiction |].
  apply Forall2_cons_iff in H. destruct H as [Hhd Htl].
  destruct Hx as [-> | Hx]; [exact (Hnot Hhd) | exact (IH Htl x Hx Hnot)].
Qed.



(** C8. The [log] transformation of the integers from -4 to 4 is
    [-ln 4, -ln 3, -ln 2, 0, 0, 0, ln 2, ln 3, ln 4]: it is
    [sign(x) * ln(|x|)] at every [x], with 0 at [x = 0], and -1, 0 and 1
    all go to 0. *)
Theorem log_transform_of_test_series :
  pre_transformation test_series Log
  = [- ln 4; - ln 3; - ln 2; 0; 0; 0; ln 2; ln 3; ln 4]
  /\ (forall x : R, apply Log x = sign x * ln (Rabs x))
  /\ apply Log 0 = 0.
Proof.
  split; [| split; [exact apply_log_formula | exact apply_log_zero]].
  unfold pre_transformation, test_series. cbn [map].
  rewrite (apply_log_neg (-4)), (apply_log_neg (-3)), (apply_log_neg (-2)),
    (apply_log_neg (-1)) by lra.
  rewrite (apply_log_pos 1), (apply_log_pos 2), (apply_log_pos 3),
    (apply_log_pos 4) by lra.
  rewrite apply_log_zero.
  replace (- -4) with 4 by lra. replace (- -3) with 3 by lra.
  replace (- -2) with 2 by lra. replace (- -1) with 1 by lra.
  rewrite ln_1, Ropp_0. reflexivity.
Qed.

End TransformClaims.

(** ** Facts about results and frames *)

Lemma rbind_Ok {A B : Type} (r : result A) (k : A -> result B) (b : B) :
  rbind r k = Ok b -> exists a, r = Ok a /\ k a = Ok b.
Proof.
  destruct r as [a | e]; simpl; intros H; [eauto | discriminate].
Qed.

Ltac rbind_inv H :=
  let a := fresh "a" in
  let Ha := fresh "Ha" in
  apply rbind_Ok in H; destruct H as (a & Ha & H).

Section FrameFacts.
Import Pandas.

Lemma find_column_assign_same (name : string) (vs : list cell)
  (cols : list (string * list cell)) :
  find_column name (assign_column name vs cols) = Some vs.
Proof.
  induction cols as [| [n old] rest IH]; simpl.
  - now rewrite String.eqb_refl.
  - destruct (String.eqb n name) eqn:E; simpl; rewrite E; [reflexivity | exact IH].
Qed.

Lemma find_column_assign_other (name other : string) (vs : list cell)
  (cols : list (string * list cell)) :
  name <> other ->
  find_column name (assign_column other vs cols) = find_column name cols.
Proof.
  intros Hne. induction cols as [| [n old] rest IH]; simpl.
  - destruct (String.eqb other name) eqn:E; [| reflexivity].
    apply String.eqb_eq in E. congruence.
  - destruct (String.eqb n other) eqn:E; simpl.
    + apply String.eqb_eq in E. subst n.
      destruct (String.eqb other name) eqn:E'; [| reflexivity].
      apply String.eqb_eq in E'. congruence.
    + destruct (String.eqb n name); [reflexivity | exact IH].
Qed.

Lemma find_column_remove_other (name other : string)
  (cols : list (string * list cell)) :
  name <> other ->
  find_column name (remove_column other cols) = find_column name cols.
Proof.
  intros Hne. induction cols as [| [n vs] rest IH]; simpl; [reflexivity |].
  destruct (String.eqb n other) eqn:E; simpl.
  - apply String.eqb_eq in E. subst n.
    destruct (String.eqb other name) eqn:E'; [| reflexivity].
    apply String.eqb_eq in E'. congruence.
  - destruct (String.eqb n name); [reflexivity | exact IH].
Qed.

Lemma getitem_Ok (df : DataFrame) (name : string) (vs : list cell) :
  getitem df name = Ok vs <-> find_column name (columns df) = Some vs.
Proof.
  unfold getitem. destruct (find_column name (columns df)); split; congruence.
Qed.

Lemma getitem_loc_set_same (df : DataFrame) (name : string) (vs : list cell) :
  getitem (loc_set_column df name vs) name = Ok vs.
Proof.
  apply getitem_Ok. simpl. apply find_column_assign_same.
Qed.

Lemma getitem_loc_set_other (df : DataFrame) (name other : string) (vs : list cell) :
  name <> other ->
  getitem (loc_set_column df other vs) name = getitem df name.
Proof.
  intros Hne. unfold getitem. simpl.
  now rewrite find_column_assign_other.
Qed.

Lemma getitem_set_index_other (df out : DataFrame) (name other : string) :
  name <> other ->
  set_index other df = Ok out ->
  getitem out name = getitem df name.
Proof.
  intros Hne. unfold set_index.
  destruct (find_column other (columns df)); [| discriminate].
  intros [= <-]. unfold getitem. simpl.
  now rewrite find_column_remove_other.
Qed.

End FrameFacts.

(** ** FBProphet.predict *)

Section PredictFacts.
Import Pandas Prophet.
Local Open Scope string_scope.

Variable ProphetModel : Type.
Variable fbmodel_predict : ProphetModel -> DataFrame -> result DataFrame.
Variable inverse : list cell -> list cell.

(** C1: what [FBProphet.predict] returns in each prediction column. The
    returned [yhat] is the inverse transform of the model's [yhat] and the
    returned [yhat_upper] that of the model's [yhat_upper]; the returned
    [yhat_lower], however, is the inverse transform of the model's
    [yhat_upper] too (line 128 reads [forecast['yhat_upper']]), and the
    model's [yhat_lower] is not read at all. *)
Theorem predict_lower_bound_from_upper (self : FBProphet ProphetModel)
  (future_dataframe : DataFrame) (extra_regressors : option DataFrame)
  (out : DataFrame) :
  predict ProphetModel fbmodel_predict inverse self future_dataframe extra_regressors
  = Ok out ->
  exists (future forecast : DataFrame) (yhat upper : list cell),
    fbmodel_predict (fbmodel ProphetModel self) future = Ok forecast /\
    getitem forecast "yhat" = Ok yhat /\
    getitem forecast "yhat_upper" = Ok upper /\
    getitem out "yhat" = Ok (inverse yhat) /\
    getitem out "yhat_lower" = Ok (inverse upper) /\
    getitem out "yhat_upper" = Ok (inverse upper).
Proof.
  unfold predict. intros H.
  rbind_inv H. rbind_inv H. rbind_inv H. rbind_inv H. rbind_inv H. rbind_inv H.
  rename a0 into future, a1 into forecast, a2 into yhat, a3 into upper,
    a4 into upper'.
  rewrite getitem_loc_set_other in Ha3 by discriminate.
  rewrite getitem_loc_set_other in Ha4 by discriminate.
  rewrite getitem_loc_set_other in Ha4 by discriminate.
  assert (upper' = upper) by congruence. subst upper'.
  exists future, forecast, yhat, upper.
  repeat split; try assumption.
  - rewrite (getitem_set_index_other _ out "yhat" "ds") by (discriminate || exact H).
    rewrite getitem_loc_set_other by discriminate.
    rewrite getitem_loc_set_other by discriminate.
    apply getitem_loc_set_same.
  - rewrite (getitem_set_index_other _ out "yhat_lower" "ds") by (discriminate || exact H).
    rewrite getitem_loc_set_other by discriminate.
    apply getitem_loc_set_same.
  - rewrite (getitem_set_index_other _ out "yhat_upper" "ds") by (discriminate || exact H).
    apply getitem_loc_set_same.
Qed.

End PredictFacts.

(** C1 at a concrete forecast, with the identity as inverse (the
    transformation [none]): the model's bounds are 1 and 3, and the
    returned lower bound is 3. *)
Lemma predict_lower_bound_from_upper_sample :
  Pandas.getitem Prophet.sample_forecast "yhat_lower" = Ok [Pandas.Num 1] /\
  exists (future forecast : Pandas.DataFrame) (yhat upper : list Pandas.cell),
    Ok Prophet.sample_forecast = Ok forecast /\
    Pandas.getitem forecast "yhat" = Ok yhat /\
    Pandas.getitem forecast "yhat_upper" = Ok upper /\
    Pandas.getitem
      (Pandas.mkDataFrame (Some "ds"%string) [Pandas.Num 100]
         [("yhat"%string, [Pandas.Num 2]); ("yhat_lower"%string, [Pandas.Num 3]);
          ("yhat_upper"%string, [Pandas.Num 3])]) "yhat" = Ok yhat /\
    Pandas.getitem
      (Pandas.mkDataFrame (Some "ds"%string) [Pandas.Num 100]
         [("yhat"%string, [Pandas.Num 2]); ("yhat_lower"%string, [Pandas.Num 3]);
          ("yhat_upper"%string, [Pandas.Num 3])]) "yhat_lower" = Ok upper /\
    Pandas.getitem
      (Pandas.mkDataFrame (Some "ds"%string) [Pandas.Num 100]
         [("yhat"%string, [Pandas.Num 2]); ("yhat_lower"%string, [Pandas.Num 3]);
          ("yhat_upper"%string, [Pandas.Num 3])]) "yhat_upper" = Ok upper.
Proof.
  split; [reflexivity |].
  exact (predict_lower_bound_from_upper unit (fun _ _ => Ok Prophet.sample_forecast)
           (fun series => series) (Prophet.mkFBProphet unit tt)
           Prophet.sample_future None _ eq_refl).
Defined.

(** ** FBProphet.train *)

Lemma fresh_unused {A : Type} (st : gmap nat A) : st !! Pandas.fresh st = None.
Proof.
  destruct (st !! Pandas.fresh st) as [a |] eqn:E; [| reflexivity]. exfalso.
  apply elem_of_map_to_list in E.
  assert (Hle : forall (l : list (nat * A)) k v,
             (k, v) ∈ l -> (k <= foldr Nat.max 0 (map fst l))%nat).
  { induction l as [| [k' v'] l IH]; intros k v Hin.
    - inversion Hin.
    - apply elem_of_cons in Hin. destruct Hin as [[= -> ->] | Hin]; simpl.
      + lia.
      + specialize (IH k v Hin). lia. }
  specialize (Hle _ _ _ E). unfold Pandas.fresh in Hle.
  exact (Nat.nle_succ_diag_l _ Hle).
Qed.

Section TrainFacts.
Import Pandas Prophet.
Local Open Scope string_scope.

Variable ProphetModel : Type.
Variable Prophet_new : ProphetModel.
Variable add_regressor : ProphetModel -> string -> ProphetModel.
Variable fit : ProphetModel -> DataFrame -> ProphetModel.

Local Abbreviation train := (Prophet.train ProphetModel Prophet_new add_regressor fit).

(** With regressors, whatever the outcome, every frame of the store is
    left as it was: the steps in place work on the frame [join] has
    created. *)
Lemma train_with_regressors_frame (input_data regressors : ref)
  (st st' : gmap nat DataFrame) (res : result (FBProphet ProphetModel)) :
  train input_data (Some regressors) st = (res, st') ->
  forall (r : ref) (df : DataFrame), st !! r = Some df -> st' !! r = Some df.
Proof.
  intros H r df Hr.
  assert (Hfresh : r <> fresh st).
  { intros ->. rewrite fresh_unused in Hr. discriminate. }
  unfold Prophet.train, bind, load, lift, alloc, update, ret in H.
  repeat case_match; simplify_eq; try assumption;
    rewrite ?lookup_insert_ne by (intros ?; congruence); try assumption.
Qed.

(** Without regressors, a call that returns has replaced the caller's
    frame, under the same reference, by one with a fresh range index and
    the columns [ds] (the former index) and [y] (the former column). *)
Lemma train_without_regressors_effect (input_data : ref)
  (st st' : gmap nat DataFrame) (self : FBProphet ProphetModel) :
  train input_data None st = (Ok self, st') ->
  exists (df : DataFrame) (name : string) (values : list cell),
    st !! input_data = Some df /\
    columns df = [(name, values)] /\
    st' = <[input_data :=
              mkDataFrame None (range_index (List.length (index df)))
                [("ds", index df); ("y", values)]]> st.
Proof.
  intros H.
  unfold Prophet.train, bind, load, lift, update, ret in H.
  destruct (st !! input_data) as [df |] eqn:Hdf; [| discriminate].
  destruct (reset_index df) as [df1 |] eqn:Hreset; [| discriminate].
  rewrite lookup_insert_eq in H.
  destruct (set_columns ["ds"; "y"] df1) as [df2 |] eqn:Hset; [| discriminate].
  rewrite lookup_insert_eq in H. injection H as _ <-.
  unfold reset_index in Hreset.
  destruct (has_column (reset_index_name df) df); [discriminate |].
  injection Hreset as <-.
  unfold set_columns in Hset. simpl in Hset.
  destruct (columns df) as [| [name values] [| c rest]] eqn:Hcols;
    simpl in Hset; try discriminate.
  injection Hset as <-.
  exists df, name, values.
  split; [reflexivity |]. split; [assumption |].
  apply insert_insert_eq.
Qed.

(** C10, as the code has it. Without extra regressors, a call of
    [FBProphet.train] that returns has changed the caller's frame in
    place: its index is reset and its columns are [ds] and [y], so the
    frame is no longer the one passed. With extra regressors the caller's
    frame, like every other frame that existed before the call, is left
    unchanged: [join] returns a new frame and only that one is reset and
    renamed. *)
Theorem train_changes_caller_frame_only_without_regressors
  (input_data : ref) (st st' : gmap nat DataFrame) :
  (forall self : FBProphet ProphetModel,
      train input_data None st = (Ok self, st') ->
      exists df df' : DataFrame,
        st !! input_data = Some df /\ st' !! input_data = Some df' /\
        df' <> df /\
        index_name df' = None /\
        index df' = range_index (List.length (index df)) /\
        column_names df' = ["ds"; "y"] /\
        getitem df' "ds" = Ok (index df) /\
        (forall r : ref, r <> input_data -> st' !! r = st !! r))
  /\
  (forall (regressors : ref) (res : result (FBProphet ProphetModel)),
      train input_data (Some regressors) st = (res, st') ->
      forall (r : ref) (df : DataFrame), st !! r = Some df -> st' !! r = Some df).
Proof.
  split.
  - intros self H.
    destruct (train_without_regressors_effect _ _ _ _ H)
      as (df & name & values & Hdf & Hcols & ->).
    exists df, (mkDataFrame None (range_index (List.length (index df)))
                  [("ds", index df); ("y", values)]).
    rewrite lookup_insert_eq. repeat split; try reflexivity; try assumption.
    + intros Heq. rewrite <- Heq in Hcols. simpl in Hcols. discriminate.
    + intros r Hr. now rewrite lookup_insert_ne by congruence.
  - intros regressors res H. exact (train_with_regressors_frame _ _ _ _ _ H).
Qed.

End TrainFacts.

(** The theorem at the sample store, without regressors: the caller's
    frame, under reference 1, is reset and renamed. *)
Lemma train_changes_caller_frame_sample :
  exists df df' : Pandas.DataFrame,
    Prophet.sample_store !! 1%nat = Some df /\
    snd (Prophet.train unit tt (fun _ _ => tt) (fun _ _ => tt) 1%nat None
           Prophet.sample_store) !! 1%nat = Some df' /\
    df' <> df /\
    Pandas.index_name df' = None /\
    Pandas.index df' = Pandas.range_index (List.length (Pandas.index df)) /\
    Pandas.column_names df' = ["ds"%string; "y"%string] /\
    Pandas.getitem df' "ds" = Ok (Pandas.index df) /\
    (forall r : Pandas.ref, r <> 1%nat ->
       snd (Prophet.train unit tt (fun _ _ => tt) (fun _ _ => tt) 1%nat None
              Prophet.sample_store) !! r = Prophet.sample_store !! r).
Proof.
  exact (proj1 (train_changes_caller_frame_only_without_regressors unit tt
                  (fun _ _ => tt) (fun _ _ => tt) 1%nat Prophet.sample_store
                  (snd (Prophet.train unit tt (fun _ _ => tt) (fun _ _ => tt) 1%nat
                          None Prophet.sample_store)))
           (Prophet.mkFBProphet unit tt) eq_refl).
Defined.

(** C10 as stated fails: a call with extra regressors returns and the
    caller's frame, under reference 1, is the frame that was passed. *)
Lemma train_with_regressors_keeps_caller_frame :
  fst (Prophet.train unit tt (fun _ _ => tt) (fun _ _ => tt) 1%nat (Some 2%nat)
         Prophet.sample_store) = Ok (Prophet.mkFBProphet unit tt)
  /\ snd (Prophet.train unit tt (fun _ _ => tt) (fun _ _ => tt) 1%nat (Some 2%nat)
            Prophet.sample_store) !! 1%nat
     = Some Prophet.sample_training
  /\ Prophet.sample_store !! 1%nat = Some Prophet.sample_training.
Proof.
  repeat split; vm_compute; reflexivity.
Qed.

(** ** cross_correlation_graph *)

Section CrossCorrelationFacts.
Import Pandas Visualization.
Local Open Scope string_scope.
Local Open Scope list_scope.

Lemma first_max_None (rows : list (cell * Q)) : first_max rows = None -> rows = [].
Proof.
  destruct rows as [| [l v] rest]; [reflexivity |]. simpl.
  destruct (first_max rest) as [[l' v'] |]; [| discriminate].
  destruct (Qle_bool v' v); discriminate.
Qed.

Lemma first_max_spec (rows : list (cell * Q)) (l : cell) (v : Q) :
  first_max rows = Some (l, v) ->
  exists before after,
    rows = before ++ (l, v) :: after /\
    (forall x, In x before -> (snd x < v)%Q) /\
    (forall x, In x after -> (snd x <= v)%Q).
Proof.
  revert l v. induction rows as [| [l0 v0] rest IH]; intros l v H; [discriminate |].
  simpl in H. destruct (first_max rest) as [[l' v'] |] eqn:E.
  - destruct (IH l' v' eq_refl) as (before & after & -> & Hb & Ha).
    destruct (Qle_bool v' v0) eqn:Hle; injection H as <- <-.
    + apply Qle_bool_iff in Hle.
      exists [], (before ++ (l', v') :: after). split; [reflexivity |].
      split; [intros x [] |].
      intros x Hx. apply in_app_or in Hx. destruct Hx as [Hx | [<- | Hx]].
      * apply Qlt_le_weak. eapply Qlt_le_trans; [exact (Hb x Hx) | exact Hle].
      * exact Hle.
      * eapply Qle_trans; [exact (Ha x Hx) | exact Hle].
    + assert (Hlt : (v0 < v')%Q).
      { apply Qnot_le_lt. intros Hc. apply Qle_bool_iff in Hc. congruence. }
      exists ((l0, v0) :: before), after. split; [reflexivity |].
      split; [| exact Ha].
      intros x [<- | Hx]; [exact Hlt | exact (Hb x Hx)].
  - injection H as <- <-. apply first_max_None in E. subst rest.
    exists [], []. split; [reflexivity |]. split; intros x [].
Qed.

Lemma omap_split {A B : Type} (f : A -> option B) (l : list A) (before' after' : list B) (y : B) :
  omap f l = before' ++ y :: after' ->
  exists before x after,
    l = before ++ x :: after /\ f x = Some y /\
    omap f before = before' /\ omap f after = after'.
Proof.
  revert before'. induction l as [| a l IH]; intros before' H.
  - destruct before'; discriminate.
  - cbn in H. destruct (f a) as [b |] eqn:E.
    + destruct before' as [| b' before'].
      * cbn in H. injection H as <- <-.
        exists [], a, l. cbn. auto.
      * cbn in H. injection H as <- H.
        destruct (IH before' H) as (before & x & after & -> & Hx & <- & <-).
        exists (a :: before), x, after. cbn. rewrite E. auto.
    + destruct (IH before' H) as (before & x & after & -> & Hx & <- & <-).
      exists (a :: before), x, after. cbn. rewrite E. auto.
Qed.

Lemma elem_of_omap_In {A B : Type} (f : A -> option B) (l : list A) (x : A) (y : B) :
  In x l -> f x = Some y -> In y (omap f l).
Proof.
  intros Hx Hf. apply list_elem_of_In. apply list_elem_of_omap.
  exists x. split; [now apply list_elem_of_In | exact Hf].
Qed.

Lemma cell_eqb_refl (c : cell) : cell_eqb c c = true.
Proof.
  destruct c; simpl; [apply Qeq_bool_refl | apply String.eqb_refl | reflexivity].
Qed.

Lemma numeric_rows_abs (idx values magnitudes : list cell) :
  map_result cell_abs values = Ok magnitudes ->
  numeric_rows (combine idx magnitudes) = omap abs_row (combine idx values).
Proof.
  revert idx magnitudes. induction values as [| c values IH]; intros idx magnitudes H.
  - simpl in H. injection H as <-. destruct idx; reflexivity.
  - simpl in H. rbind_inv H. rbind_inv H. injection H as <-.
    destruct idx as [| l idx]; [reflexivity |].
    unfold numeric_rows in *. cbn. rewrite (IH idx _ Ha0).
    destruct c; simpl in Ha; try discriminate; injection Ha as <-; reflexivity.
Qed.

Lemma column_peak_spec (df : DataFrame) (col : string) (lag : cell) (corr : Q) :
  column_peak df col = Ok (lag, Num corr) ->
  exists values, getitem df col = Ok values /\ first_peak (column_rows df values) lag corr.
Proof.
  unfold column_peak. intros H.
  rbind_inv H. rename a into values.
  rbind_inv H. rename a into magnitudes.
  rbind_inv H. rename a into index_of_max.
  rbind_inv H. injection H as -> ->.
  exists values. split; [assumption |].
  unfold idxmax in Ha1.
  destruct (combine (index df) magnitudes) as [| r0 rs] eqn:Hcomb; [discriminate |].
  rewrite <- Hcomb, (numeric_rows_abs _ _ _ Ha0) in Ha1. clear Hcomb r0 rs.
  unfold loc_scalar in Ha2. rewrite Ha in Ha2. simpl in Ha2.
  fold (column_rows df values) in Ha1, Ha2.
  destruct (List.filter (fun row => cell_eqb (fst row) lag) (column_rows df values))
    as [| row [| row' rest]] eqn:Hfilter; try discriminate.
  injection Ha2 as Hrow.
  assert (Hfound : In row (column_rows df values) /\ cell_eqb (fst row) lag = true).
  { apply (proj1 (filter_In (fun row => cell_eqb (fst row) lag) row
                     (column_rows df values))).
    rewrite Hfilter. now left. }
  destruct Hfound as [Hfound _].
  destruct (first_max (omap abs_row (column_rows df values))) as [[l v] |] eqn:Hmax.
  - injection Ha1 as ->.
    destruct (first_max_spec _ _ _ Hmax) as (before' & after' & Hsplit & Hb & Hafter).
    destruct (omap_split _ _ _ _ _ Hsplit)
      as (before & [l' c] & after & Hrows & Hx & <- & <-).
    unfold abs_row in Hx. simpl in Hx. destruct c as [q | |]; try discriminate.
    injection Hx as -> <-.
    assert (Hin : In (lag, Num q)
                    (List.filter (fun row => cell_eqb (fst row) lag) (column_rows df values))).
    { apply (proj2 (filter_In _ _ _)). split; [| apply cell_eqb_refl].
      rewrite Hrows. apply in_or_app. right. now left. }
    rewrite Hfilter in Hin. destruct Hin as [-> | []].
    simpl in Hrow. injection Hrow as <-.
    exists before, after. split; [exact Hrows |]. split.
    + intros l0 q0 Hin0. apply (Hb (l0, Qabs q0)).
      eapply elem_of_omap_In; [exact Hin0 | reflexivity].
    + intros l0 q0 Hin0. apply (Hafter (l0, Qabs q0)).
      eapply elem_of_omap_In; [exact Hin0 | reflexivity].
  - exfalso. apply first_max_None in Hmax.
    destruct row as [l c]. simpl in Hrow. subst c.
    pose proof (elem_of_omap_In abs_row _ _ (l, Qabs corr) Hfound eq_refl) as Hc.
    rewrite Hmax in Hc. exact Hc.
Qed.

Lemma In_add_edge (e e0 : edge) (es : list edge) :
  In e (add_edge e0 es) -> e = e0 \/ In e es.
Proof.
  induction es as [| e' rest IH]; simpl.
  - intros [<- | []]. now left.
  - destruct (_ && _); simpl.
    + intros [<- | H]; [now left | right; now right].
    + intros [<- | H]; [right; now left |].
      destruct (IH H) as [-> | H']; [now left | right; now right].
Qed.

Lemma above_threshold_true (corr : cell) (threshold : option pyval) :
  above_threshold corr threshold = Ok true ->
  exists (q t : Q) (v : pyval),
    corr = Num q /\ threshold = Some v /\ number_of v = Ok t /\ (t < Qabs q)%Q.
Proof.
  destruct corr as [q | s |], threshold as [v |]; simpl; try discriminate.
  - destruct (number_of v) as [t |] eqn:Hv; simpl; [| discriminate].
    intros [= H]. exists q, t, v. repeat split; try assumption.
    apply Qnot_le_lt. intros Hle. apply Qle_bool_iff in Hle.
    rewrite Hle in H. discriminate.
  - destruct (number_of v); discriminate.
Qed.

Lemma mode_edges_peaks (name : string) (df : DataFrame) (threshold : option pyval)
  (cols : list string) (es es' : list edge) :
  mode_edges name df threshold cols es = Ok es' ->
  (forall e, In e es -> peak_edge name df threshold e) ->
  forall e, In e es' -> peak_edge name df threshold e.
Proof.
  revert es. induction cols as [| col rest IH]; intros es H Hes.
  - injection H as <-. exact Hes.
  - simpl in H. rbind_inv H. destruct a as [lag corr]. rbind_inv H. simpl in *.
    apply (IH _ H). destruct a; [| exact Hes].
    intros e He. apply In_add_edge in He. destruct He as [-> | He]; [| exact (Hes e He)].
    destruct (above_threshold_true _ _ Ha0) as (q & t & v & -> & Ht & Hv & Hlt).
    destruct (column_peak_spec _ _ _ _ Ha) as (values & Hget & Hpeak).
    exists values, q, t, v. simpl. auto 10.
Qed.

Lemma map_result_In {A B : Type} (f : A -> result B) (l : list A) (ys : list B) :
  map_result f l = Ok ys ->
  forall y, In y ys -> exists x, In x l /\ f x = Ok y.
Proof.
  revert ys. induction l as [| x l IH]; intros ys H y Hy.
  - injection H as <-. destruct Hy.
  - simpl in H. rbind_inv H. rbind_inv H. injection H as <-.
    destruct Hy as [<- | Hy].
    + exists x. split; [now left | assumption].
    + destruct (IH _ Ha0 y Hy) as (x' & Hx' & Hf). exists x'. split; [now right | assumption].
Qed.

(** C4, as the code has it. For every mode and every column that gets an
    edge, the reported lag is a lag at which the absolute value of the
    correlation is largest, and among several such lags it is the first
    in the order of the frame's index ([idxmax] returns the first
    occurrence): every row before it is strictly smaller in absolute
    value. On an index running from [-max_lags] up to [max_lags] that is
    the most negative of the tied lags, not the one closest to 0. *)
Theorem reported_lag_is_first_peak (name : string) (xcorr : list (string * DataFrame))
  (threshold : option pyval) (figures : list (string * list edge)) :
  cross_correlation_graph name xcorr threshold = Ok (CorrelationGraphs figures) ->
  forall (mode : string) (es : list edge) (e : edge),
    In (mode, es) figures -> In e es ->
    exists (df : DataFrame) (values : list cell) (corr : Q),
      In (mode, df) xcorr /\
      getitem df (edge_to e) = Ok values /\
      edge_corr e = Num corr /\
      first_peak (column_rows df values) (edge_lag e) corr.
Proof.
  unfold cross_correlation_graph. intros H mode es e Hfig He.
  rbind_inv H. destruct (_ && _); [| discriminate]. injection H as <-.
  destruct (map_result_In _ _ _ Ha _ Hfig) as ([mode' df] & Hin & Hentry).
  simpl in Hentry. rbind_inv Hentry. injection Hentry as -> ->.
  assert (Hpeak : peak_edge name df threshold e).
  { apply (mode_edges_peaks _ _ _ _ _ _ Ha0); [intros e' [] | exact He]. }
  destruct Hpeak as (values & q & t & v & _ & Hget & Hcorr & Hpeak & _).
  exists df, values, q. auto.
Qed.

(** C4 as stated fails: over the lags -1, 0, 1 with correlations 1/2,
    1/2, 0 the reported lag is -1, although lag 0 reaches the same
    absolute correlation at a smaller absolute lag. *)
Lemma tie_goes_to_first_lag : ~ ties_go_to_smallest_abs_lag tied_xcorr "y".
Proof.
  intros H.
  specialize (H (-1)%Q (1 # 2)%Q [Num (1 # 2); Num (1 # 2); Num 0] 0%Q (1 # 2)%Q
                eq_refl eq_refl).
  assert (Hle : (Qabs (-1) <= Qabs 0)%Q).
  { apply H; [simpl; tauto | reflexivity]. }
  vm_compute in Hle. exact (Hle eq_refl).
Qed.

(** The theorem at the tied frame, drawn under the mode [pearson] with
    threshold 0. *)
Lemma reported_lag_is_first_peak_sample :
  exists (df : DataFrame) (values : list cell) (corr : Q),
    In ("pearson", df) [("pearson", tied_xcorr)] /\
    getitem df "y" = Ok values /\
    Num (1 # 2) = Num corr /\
    first_peak (column_rows df values) (Num (-1)) corr.
Proof.
  exact (reported_lag_is_first_peak "x" [("pearson", tied_xcorr)] (Some (PInt 0))
           [("pearson", [mkEdge "x" "y" (Num (1 # 2)) (Num (-1))])] eq_refl
           "pearson" [mkEdge "x" "y" (Num (1 # 2)) (Num (-1))]
           (mkEdge "x" "y" (Num (1 # 2)) (Num (-1)))
           (or_introl eq_refl) (or_introl eq_refl)).
Defined.

End CrossCorrelationFacts.

(** ** Selecting the best result and plotting it *)

Section ReportingFacts.
Import Pandas Visualization.
Local Open Scope string_scope.
Local Open Scope list_scope.

Section SortFacts.
Context {A : Type} (key : A -> Q).

Lemma insert_by_perm (x : A) (l : list A) : Permutation (x :: l) (insert_by key x l).
Proof.
  induction l as [| y rest IH]; simpl; [reflexivity |].
  destruct (Qle_bool (key x) (key y)); [reflexivity |].
  rewrite perm_swap. now apply perm_skip.
Qed.

Lemma sort_by_perm (l : list A) : Permutation l (sort_by key l).
Proof.
  induction l as [| x rest IH]; simpl; [reflexivity |].
  rewrite <- insert_by_perm. now apply perm_skip.
Qed.

Lemma insert_by_sorted (x : A) (l : list A) :
  StronglySorted (key_le key) l -> StronglySorted (key_le key) (insert_by key x l).
Proof.
  induction l as [| y rest IH]; intros Hs; simpl.
  - constructor; constructor.
  - destruct (Qle_bool (key x) (key y)) eqn:E.
    + apply Qle_bool_iff in E. constructor; [exact Hs |].
      constructor; [exact E |].
      apply StronglySorted_inv in Hs. destruct Hs as [_ Hall].
      rewrite List.Forall_forall in Hall. apply List.Forall_forall. intros z Hz.
      unfold key_le in *. eapply Qle_trans; [exact E | exact (Hall z Hz)].
    + assert (Hlt : (key y < key x)%Q).
      { apply Qnot_le_lt. intros Hc. apply Qle_bool_iff in Hc. congruence. }
      apply StronglySorted_inv in Hs. destruct Hs as [Hrest Hall].
      constructor; [exact (IH Hrest) |].
      apply List.Forall_forall. intros z Hz.
      apply (Permutation_in _ (Permutation_sym (insert_by_perm x rest))) in Hz.
      destruct Hz as [<- | Hz].
      * apply Qlt_le_weak. exact Hlt.
      * rewrite List.Forall_forall in Hall. exact (Hall z Hz).
Qed.

Lemma sort_by_sorted (l : list A) : StronglySorted (key_le key) (sort_by key l).
Proof.
  induction l as [| x rest IH]; simpl; [constructor |].
  now apply insert_by_sorted.
Qed.

End SortFacts.

Lemma map_result_keyed {A : Type} (key : A -> result Q) (l : list A)
  (keyed : list (Q * A)) :
  map_result (fun x => try! k := key x in Ok (k, x)) l = Ok keyed ->
  map snd keyed = l /\ Forall (fun p => key (snd p) = Ok (fst p)) keyed.
Proof.
  revert keyed. induction l as [| x rest IH]; intros keyed H.
  - injection H as <-. split; [reflexivity | constructor].
  - simpl in H. rbind_inv H. rbind_inv Ha. injection Ha as <-.
    rbind_inv H. injection H as <-.
    destruct (IH _ Ha) as [Hmap Hall]. simpl. split.
    + now rewrite Hmap.
    + constructor; assumption.
Qed.

Lemma StronglySorted_map_snd {A : Type} (key : A -> result Q) (l : list (Q * A)) :
  Forall (fun p => key (snd p) = Ok (fst p)) l ->
  StronglySorted (key_le fst) l ->
  StronglySorted (key_ordered key) (map snd l).
Proof.
  induction l as [| p rest IH]; intros Hall Hs; simpl; [constructor |].
  apply Forall_cons in Hall. destruct Hall as [Hp Hall].
  apply StronglySorted_inv in Hs. destruct Hs as [Hrest Hle].
  constructor; [exact (IH Hall Hrest) |].
  apply List.Forall_forall. intros b Hb. apply in_map_iff in Hb.
  destruct Hb as (q & <- & Hq).
  rewrite List.Forall_forall in Hall, Hle.
  exists (fst p), (fst q). split; [exact Hp |]. split; [exact (Hall q Hq) |].
  exact (Hle q Hq).
Qed.

Lemma list_sort_spec {A : Type} (key : A -> result Q) (l l' : list A) :
  list_sort key l = Ok l' ->
  Permutation l l' /\ StronglySorted (key_ordered key) l'.
Proof.
  unfold list_sort. intros H. rbind_inv H. injection H as <-.
  destruct (map_result_keyed _ _ _ Ha) as [Hmap Hall].
  split.
  - rewrite <- Hmap. apply Permutation_map. apply sort_by_perm.
  - apply StronglySorted_map_snd; [| apply sort_by_sorted].
    apply List.Forall_forall. intros p Hp. rewrite List.Forall_forall in Hall. apply Hall.
    exact (Permutation_in _ (Permutation_sym (sort_by_perm fst a)) Hp).
Qed.

Lemma bind_Ok {S A B : Type} (m : M S A) (k : A -> M S B) (st st' : S) (b : B) :
  bind m k st = (Ok b, st') ->
  exists a st1, m st = (Ok a, st1) /\ k a st1 = (Ok b, st').
Proof.
  unfold bind. destruct (m st) as [[a | e] st1]; intros H; [eauto | discriminate].
Qed.

Lemma lift_Ok {S A : Type} (r : result A) (st st' : S) (a : A) :
  lift r st = (Ok a, st') -> r = Ok a /\ st' = st.
Proof.
  unfold lift. intros [= -> ->]. auto.
Qed.

Lemma load_Ok {A : Type} (r : ref) (st st' : gmap nat A) (a : A) :
  load r st = (Ok a, st') -> st !! r = Some a /\ st' = st.
Proof.
  unfold load. destruct (st !! r); intros [= -> ->]. auto.
Qed.

Lemma update_Ok {A : Type} (r : ref) (f : A -> result A) (st st' : gmap nat A) (u : unit) :
  update r f st = (Ok u, st') ->
  exists a a', st !! r = Some a /\ f a = Ok a' /\ st' = <[r := a']> st.
Proof.
  unfold update. destruct (st !! r) as [a |]; [| discriminate].
  destruct (f a) as [a' |] eqn:E; intros [= <-]. eauto.
Qed.

Lemma on_frames_Ok {A : Type} (m : M (gmap nat DataFrame) A) (w w' : world) (a : A) :
  on_frames m w = (Ok a, w') ->
  exists fs, m (frames w) = (Ok a, fs) /\ w' = mkWorld fs (lists w).
Proof.
  unfold on_frames. destruct (m (frames w)) as [r fs]. intros [= -> <-]. eauto.
Qed.

Lemma on_lists_Ok {A : Type} (m : M (gmap nat (list SingleResult)) A) (w w' : world) (a : A) :
  on_lists m w = (Ok a, w') ->
  exists ls, m (lists w) = (Ok a, ls) /\ w' = mkWorld (frames w) ls.
Proof.
  unfold on_lists. destruct (m (lists w)) as [r ls]. intros [= -> <-]. eauto.
Qed.

Tactic Notation "bind_inv" hyp(H) "as" ident(a) ident(st) ident(Ha) :=
  apply bind_Ok in H; destruct H as (a & st & Ha & H).

Ltac lift_inv H := apply lift_Ok in H; destruct H as [H ->].

Lemma performance_plot_effect (df : DataFrame) (r : ref)
  (tps : list ValidationPerformance) (tv : pyval) (fs fs' : gmap nat DataFrame)
  (g : child) :
  performance_plot df r tps tv fs = (Ok g, fs') ->
  exists (frame : DataFrame) (name : string) (values : list cell)
         (rest : list (string * list cell)),
    fs !! r = Some frame /\
    columns frame = (name, values) :: rest /\
    fs' = <[r := mkDataFrame (index_name frame) (index frame)
                   ((name, map (fun _ => Str "nan") values) :: rest)]> fs.
Proof.
  unfold performance_plot. intros H.
  bind_inv H as mtv st0 H0. lift_inv H0.
  bind_inv H as sorted st1 H1. lift_inv H1.
  bind_inv H as training st2 H2. lift_inv H2.
  bind_inv H as u st3 H3.
  apply update_Ok in H3. destruct H3 as (frame & frame' & Hframe & Hset & ->).
  bind_inv H as blanked st4 H4. apply load_Ok in H4. destruct H4 as [_ ->].
  bind_inv H as yhat st5 H5. lift_inv H5. injection H as _ <-.
  unfold iloc_set_first_column in Hset.
  destruct (columns frame) as [| [name values] rest] eqn:Hcols; [discriminate |].
  injection Hset as <-. exists frame, name, values, rest. auto.
Qed.

Lemma estimator_key_attribute (estimator : pyval) (x : SingleResult) (k : Q) :
  estimator_key estimator x = Ok k ->
  exists attribute : string,
    estimator_attribute estimator = Ok attribute /\
    forall y, estimator_key estimator y = getattr (testing_performances y) attribute.
Proof.
  unfold estimator_key. intros H. rbind_inv H.
  exists a. split; [exact Ha |]. intros y. now rewrite Ha.
Qed.

Lemma model_children_effect (scenario_data : DataFrame)
  (model_parameters : list (string * pyval)) (model_name : string)
  (model : ModelResult) (w w' : world) (children : list child) :
  model_children scenario_data model_parameters model_name model w = (Ok children, w') ->
  exists (test_values estimator : pyval)
         (rs rest : list SingleResult) (best : SingleResult)
         (best_frame : DataFrame) (pplot perf : child) (fs' : gmap nat DataFrame),
    dict_item (characteristics model) "test_values" = Ok test_values /\
    dict_item model_parameters "main_accuracy_estimator" = Ok estimator /\
    lists w !! results model = Some rs /\
    list_sort (estimator_key estimator) rs = Ok (best :: rest) /\
    frames w !! prediction best = Some best_frame /\
    prediction_plot scenario_data best_frame test_values = Ok pplot /\
    performance_plot scenario_data (prediction best)
      (map testing_performances (best :: rest)) test_values (frames w)
    = (Ok perf, fs') /\
    w' = mkWorld fs' (<[results model := best :: rest]> (lists w)) /\
    children = [Heading 4 model_name;
                CharacteristicsList (characteristics model) (testing_performances best);
                pplot; perf].
Proof.
  unfold model_children. intros H.
  bind_inv H as test_values st1 H1. lift_inv H1.
  bind_inv H as estimator st2 H2. lift_inv H2.
  bind_inv H as u st4 H4.
  apply on_lists_Ok in H4. destruct H4 as (ls & Hupd & ->).
  apply update_Ok in Hupd. destruct Hupd as (rs & rs' & Hrs & Hsort & ->).
  bind_inv H as model_results st5 H5.
  apply on_lists_Ok in H5. destruct H5 as (ls & Hload & ->).
  apply load_Ok in Hload. destruct Hload as [Hload ->]. simpl in Hload.
  rewrite lookup_insert_eq in Hload. injection Hload as <-.
  bind_inv H as best st6 H6. lift_inv H6.
  destruct rs' as [| best' rest]; [discriminate |]. injection H6 as ->.
  bind_inv H as chars st7 H7. lift_inv H7. simpl in H7. injection H7 as <-.
  bind_inv H as best_frame st9 H9.
  apply on_frames_Ok in H9. destruct H9 as (fs & Hload & ->).
  apply load_Ok in Hload. destruct Hload as [Hframe ->]. simpl in Hframe.
  bind_inv H as pplot st10 H10. lift_inv H10.
  bind_inv H as perf st11 H11.
  apply on_frames_Ok in H11. destruct H11 as (fs' & Hperf & ->).
  simpl in Hperf. injection H as <- <-. simpl.
  exists test_values, estimator, rs, rest, best, best_frame, pplot, perf, fs'.
  repeat (split; [first [assumption | reflexivity] |]). reflexivity.
Qed.

(** Sorted under the key of the sort is sorted under the attribute it
    reads. *)
Lemma sorted_under_attribute (estimator : pyval) (attribute : string)
  (l : list SingleResult) :
  (forall y, estimator_key estimator y = getattr (testing_performances y) attribute) ->
  StronglySorted (key_ordered (estimator_key estimator)) l ->
  StronglySorted
    (key_ordered (fun x => getattr (testing_performances x) attribute)) l.
Proof.
  intros Hkey. induction 1 as [| x rest Hrest IH Hall]; constructor; [exact IH |].
  rewrite List.Forall_forall in Hall. apply List.Forall_forall. intros y Hy.
  destruct (Hall y Hy) as (ka & kb & Ha & Hb & Hle).
  exists ka, kb. rewrite <- !Hkey. auto.
Qed.

Lemma sorted_head_has_key {A : Type} (key : A -> result Q) (l l' : list A) (x : A) :
  list_sort key l = Ok l' -> In x l' -> exists k, key x = Ok k.
Proof.
  unfold list_sort. intros H Hx. rbind_inv H. injection H as <-.
  destruct (map_result_keyed _ _ _ Ha) as [_ Hall].
  apply in_map_iff in Hx. destruct Hx as ([k y] & <- & Hin).
  rewrite List.Forall_forall in Hall. exists k. apply (Hall (k, y)).
  exact (Permutation_in _ (Permutation_sym (sort_by_perm fst a)) Hin).
Qed.






End ReportingFacts.

(** ** The backtest and its configuration *)

Section BacktestFacts.
Import Transform Config Backtest.
Local Open Scope Z_scope.

Lemma increasing_head_lt (t : Z) (ts : list Z) :
  increasing (t :: ts) = true -> forall u, In u ts -> t < u.
Proof.
  revert t. induction ts as [| v ts IH]; intros t H u Hu; [destruct Hu |].
  simpl in H. apply andb_true_iff in H. destruct H as [Hlt Hinc].
  apply Z.ltb_lt in Hlt. destruct Hu as [<- | Hu]; [exact Hlt |].
  specialize (IH v Hinc u Hu). lia.
Qed.

Lemma increasing_tail (t : Z) (ts : list Z) :
  increasing (t :: ts) = true -> increasing ts = true.
Proof.
  destruct ts as [| u ts]; [reflexivity |]. simpl.
  intros H. apply andb_true_iff in H. tauto.
Qed.

Lemma filter_from_nth (series : list (Z * R)) (n : nat) :
  increasing (timestamps series) = true ->
  (n < List.length series)%nat ->
  List.filter (fun row => nth n (timestamps series) 0 <=? fst row) series
  = skipn n series.
Proof.
  revert n. induction series as [| [t v] rest IH]; intros n Hinc Hn; [simpl in Hn; lia |].
  destruct n as [| n].
  - simpl. rewrite Z.leb_refl. f_equal.
    apply forallb_filter_id. apply forallb_forall. intros [u x] Hu. simpl.
    apply Z.leb_le.
    pose proof (increasing_head_lt t (timestamps rest) Hinc u) as Hlt.
    assert (In u (timestamps rest)) by (apply in_map_iff; exists (u, x); auto).
    specialize (Hlt H). lia.
  - simpl in Hn. cbn [timestamps map nth skipn List.filter fst].
    assert (Hlt : t < nth n (timestamps rest) 0).
    { apply (increasing_head_lt t (timestamps rest) Hinc). apply nth_In.
      unfold timestamps. rewrite length_map. lia. }
    change (map fst rest) with (timestamps rest).
    destruct (nth n (timestamps rest) 0 <=? t) eqn:E; [apply Z.leb_le in E; lia |].
    apply IH; [exact (increasing_tail _ _ Hinc) | lia].
Qed.

Lemma find_timestamp (t : Z) (l : list (Z * R)) :
  In t (timestamps l) -> exists p, find (fun p => Z.eqb (fst p) t) l = Some p.
Proof.
  induction l as [| [u x] rest IH]; simpl; intros H; [destruct H |].
  destruct (u =? t) eqn:E; [eauto |].
  destruct H as [-> | H]; [rewrite Z.eqb_refl in E; discriminate | exact (IH H)].
Qed.

Lemma overlap_nonempty (actual predicted : list (Z * R)) (a : Z * R) :
  In a actual -> In (fst a) (timestamps predicted) -> overlap actual predicted <> [].
Proof.
  intros Ha Hp Hnil.
  destruct (find_timestamp _ _ Hp) as (p & Hfind).
  assert (Hin : (snd a, snd p) ∈ overlap actual predicted).
  { unfold overlap. apply list_elem_of_omap. exists a. split.
    - now apply list_elem_of_In.
    - now rewrite Hfind. }
  rewrite Hnil in Hin. inversion Hin.
Qed.

Lemma score_defined (actual predicted : list (Z * R)) (a : Z * R) :
  In a actual -> In (fst a) (timestamps predicted) ->
  exists m, score actual predicted = Some m.
Proof.
  intros Ha Hp. unfold score.
  pose proof (overlap_nonempty _ _ _ Ha Hp) as Hne.
  destruct (overlap actual predicted); [congruence | eauto].
Qed.

Lemma length_future_index (ts : list Z) (start lags : Z) :
  0 <= start -> 0 <= lags -> start <= Z.of_nat (List.length ts) ->
  Z.of_nat (List.length (future_index ts start lags))
  = Z.of_nat (List.length ts) - start + lags.
Proof.
  intros Hs Hl Hle. unfold future_index.
  rewrite length_app, length_skipn, length_map, length_seq. lia.
Qed.

Lemma timestamps_map_value (f : R -> R) (l : list (Z * R)) :
  timestamps (map (fun row => (fst row, f (snd row))) l) = timestamps l.
Proof.
  unfold timestamps. rewrite map_map. reflexivity.
Qed.

Lemma head_slice (ts : list Z) (start stop : Z) :
  0 <= start -> start < stop -> stop <= Z.of_nat (List.length ts) ->
  head (slice start stop ts) = Some (nth (Z.to_nat start) ts 0).
Proof.
  intros Hs Hlt Hle. unfold slice.
  assert (Hn : (Z.to_nat start < List.length ts)%nat) by lia.
  rewrite <- (firstn_skipn (Z.to_nat start) ts) at 2.
  rewrite app_nth2 by (rewrite length_firstn; lia).
  rewrite length_firstn, Nat.min_l, Nat.sub_diag by lia.
  destruct (skipn (Z.to_nat start) ts) as [| t rest] eqn:E.
  - apply (f_equal (@List.length Z)) in E. rewrite length_skipn in E. simpl in E. lia.
  - destruct (Z.to_nat stop - Z.to_nat start)%nat eqn:E'; [lia | reflexivity].
Qed.

Lemma timestamps_slice (start stop : Z) (l : list (Z * R)) :
  timestamps (slice start stop l) = slice start stop (timestamps l).
Proof.
  unfold slice, timestamps. now rewrite <- firstn_map, <- skipn_map.
Qed.

Lemma In_skipn_le {A : Type} (x : A) (m n : nat) (l : list A) :
  (m <= n)%nat -> In x (skipn n l) -> In x (skipn m l).
Proof.
  intros Hle Hx. replace n with ((n - m) + m)%nat in Hx by lia.
  rewrite <- skipn_skipn in Hx.
  rewrite <- (firstn_skipn (n - m) (skipn m l)). apply in_or_app. now right.
Qed.

Section EngineFacts.

Variable Model : Type.
Variable train : list (Z * R) -> option Model.
Variable predict : Model -> list Z -> list (Z * R).

(** The contract of the ForecastModel capability: fitting a non-empty
    training slice succeeds, and a forecast has one row per timestamp
    asked for. *)
Hypothesis train_succeeds : forall training, training <> [] -> train training <> None.
Hypothesis predict_index : forall model idx, timestamps (predict model idx) = idx.

Lemma run_window_ok (cfg : ModelConfig) (series transformed : list (Z * R)) (start : Z) :
  timestamps transformed = timestamps series ->
  0 <= start ->
  start < Z.of_nat (List.length series) - test_values cfg ->
  1 <= test_values cfg ->
  0 <= prediction_lags cfg ->
  exists r : TrainingWindowResult,
    run_window Model train predict cfg series transformed start = Some r /\
    first_used_index r = nth (Z.to_nat start) (timestamps series) 0 /\
    Z.of_nat (List.length (prediction r))
    = Z.of_nat (List.length series) - start + prediction_lags cfg.
Proof.
  intros Hts Hstart Hlt Htest Hlags.
  set (len := Z.of_nat (List.length series)) in *.
  assert (Hlen : Z.of_nat (List.length (timestamps series)) = len)
    by (unfold timestamps; now rewrite length_map).
  unfold run_window. fold len.
  set (training := slice start (len - test_values cfg) transformed).
  assert (Hhead : head (timestamps training)
                  = Some (nth (Z.to_nat start) (timestamps series) 0)).
  { unfold training. rewrite timestamps_slice, Hts. apply head_slice; lia. }
  rewrite Hhead. cbn [mbind option_bind].
  assert (Hne : training <> []).
  { intros E. rewrite E in Hhead. discriminate. }
  destruct (train training) as [model |] eqn:Htrain;
    [| exfalso; exact (train_succeeds _ Hne Htrain)].
  cbn [mbind option_bind].
  set (idx := future_index (timestamps series) start (prediction_lags cfg)).
  set (inverted := map (fun row => (fst row, invert (transformation cfg) (snd row)))
                       (predict model idx)).
  assert (Hinv : timestamps inverted = idx).
  { unfold inverted. rewrite timestamps_map_value. apply predict_index. }
  set (actual := skipn (Z.to_nat (len - test_values cfg)) series).
  assert (Hscore : exists m, score actual inverted = Some m).
  { destruct actual as [| a rest] eqn:Hactual.
    - apply (f_equal (@List.length (Z * R))) in Hactual. unfold actual in Hactual.
      rewrite length_skipn in Hactual. simpl in Hactual. lia.
    - apply (score_defined _ _ a); [now left |].
      rewrite Hinv. unfold idx, future_index. apply in_or_app. left.
      apply (In_skipn_le _ (Z.to_nat start) (Z.to_nat (len - test_values cfg)));
        [lia |].
      unfold timestamps. rewrite skipn_map. fold actual. rewrite Hactual.
      now left. }
  destruct Hscore as (m & ->). cbn [mbind option_bind].
  eexists. split; [reflexivity |]. simpl. split; [reflexivity |].
  replace (List.length inverted) with (List.length (timestamps inverted))
    by (unfold timestamps; apply length_map).
  rewrite Hinv. unfold idx. rewrite length_future_index by lia. lia.
Qed.


Lemma used_training_set_length (series : list (Z * R)) (start test : Z) :
  increasing (timestamps series) = true ->
  0 <= start -> 1 <= test ->
  start < Z.of_nat (List.length series) - test ->
  Z.of_nat (List.length
              (used_training_set series (nth (Z.to_nat start) (timestamps series) 0) test))
  = Z.of_nat (List.length series) - start - test.
Proof.
  intros Hinc Hstart Htest Hlt. unfold used_training_set.
  rewrite filter_from_nth by (assumption || lia).
  unfold Pandas.slice_to.
  destruct (- test <? 0) eqn:E; [| apply Z.ltb_ge in E; lia].
  rewrite length_firstn, length_skipn. lia.
Qed.

(** C3. On a series of 100 points with [test_values = 10] and
    [delta_training_values = 20], and a model that fits every window, the
    backtest returns exactly 5 window results, and the prediction of each
    is as long as its used training slice
    ([df.loc[first_used_index:].iloc[:-10]]) plus the 10 test values plus
    [prediction_lags]. *)
Theorem backtest_of_100_points (settings : Settings) (series : list (Z * R)) :
  List.length series = 100%nat ->
  increasing (timestamps series) = true ->
  test_values (resolve settings 100) = 10 ->
  delta_training_values (resolve settings 100) = 20 ->
  0 <= prediction_lags (resolve settings 100) ->
  exists results : list TrainingWindowResult,
    launch_model Model train predict settings series = inr results /\
    List.length results = 5%nat /\
    Forall (fun r =>
              Z.of_nat (List.length (prediction r))
              = Z.of_nat (List.length (used_training_set series (first_used_index r) 10))
                + 10 + prediction_lags (resolve settings 100))
           results.
Proof.
  intros Hlen Hinc Htest Hdelta Hlags.
  unfold launch_model. rewrite Hlen. change (Z.of_nat 100) with 100.
  set (cfg := resolve settings 100) in *.
  rewrite Htest, Hdelta. cbn [Z.ltb Z.compare orb Z.add Pos.compare Pos.compare_cont Pos.add Pos.succ].
  change (window_starts 100 10 20) with [70; 50; 30; 10; 0].
  set (transformed := map (fun row => (fst row, apply (transformation cfg) (snd row))) series).
  assert (Hts : timestamps transformed = timestamps series)
    by apply timestamps_map_value.
  assert (Hwin : forall start, 0 <= start <= 70 ->
            exists r, run_window Model train predict cfg series transformed start = Some r /\
              Z.of_nat (List.length (prediction r))
              = Z.of_nat (List.length (used_training_set series (first_used_index r) 10))
                + 10 + prediction_lags cfg).
  { intros start Hstart.
    destruct (run_window_ok cfg series transformed start Hts) as (r & Hr & Hfirst & Hpred);
      rewrite ?Hlen, ?Htest; try lia.
    exists r. split; [exact Hr |].
    rewrite Hpred, Hfirst.
    rewrite (used_training_set_length series start 10 Hinc) by (rewrite ?Hlen; lia).
    rewrite Hlen. lia. }
  destruct (Hwin 70) as (r1 & Hr1 & Hp1); [lia |].
  destruct (Hwin 50) as (r2 & Hr2 & Hp2); [lia |].
  destruct (Hwin 30) as (r3 & Hr3 & Hp3); [lia |].
  destruct (Hwin 10) as (r4 & Hr4 & Hp4); [lia |].
  destruct (Hwin 0) as (r5 & Hr5 & Hp5); [lia |].
  exists [r1; r2; r3; r4; r5].
  cbn [omap list_omap]. rewrite Hr1, Hr2, Hr3, Hr4, Hr5.
  split; [reflexivity |]. split; [reflexivity |].
  repeat constructor; assumption.
Qed.

End EngineFacts.

Lemma naive_predict_index (level : R) (idx : list Z) :
  timestamps (naive_predict level idx) = idx.
Proof.
  unfold timestamps, naive_predict. rewrite map_map. simpl. apply map_id.
Qed.

Lemma naive_train_succeeds (training : list (Z * R)) :
  training <> [] -> naive_train training <> None.
Proof.
  intros _. discriminate.
Qed.

(** The theorem for the settings of the first backtest test (10 and 20
    percent, 10 lags), 100 daily points and a model that repeats the last
    training value. *)
Lemma backtest_of_100_points_sample :
  exists results : list TrainingWindowResult,
    launch_model R naive_train naive_predict (canonical_settings 10) (fake_series 100)
    = inr results /\
    List.length results = 5%nat /\
    Forall (fun r =>
              Z.of_nat (List.length (prediction r))
              = Z.of_nat (List.length
                            (used_training_set (fake_series 100) (first_used_index r) 10))
                + 10 + 10)
           results.
Proof.
  exact (backtest_of_100_points R naive_train naive_predict naive_train_succeeds
           naive_predict_index (canonical_settings 10) (fake_series 100)
           eq_refl eq_refl eq_refl eq_refl ltac:(discriminate)).
Defined.

Section ConfigFacts.
Local Open Scope string_scope.

Lemma int_key_insert_ne (key k : string) (v : cfg_value) (d : gmap string cfg_value) :
  k <> key -> int_key key (<[k := v]> d) = int_key key d.
Proof.
  intros Hne. unfold int_key. now rewrite lookup_insert_ne.
Qed.

Lemma str_key_insert_ne (key k : string) (v : cfg_value) (d : gmap string cfg_value) :
  k <> key -> str_key key (<[k := v]> d) = str_key key d.
Proof.
  intros Hne. unfold str_key. now rewrite lookup_insert_ne.
Qed.

Lemma unknown_key_ignored (d : gmap string cfg_value) (k : string) (v : cfg_value) :
  ~ In k known_keys ->
  read_model_parameters (<[k := v]> d) = read_model_parameters d.
Proof.
  intros Hk. unfold known_keys in Hk. simpl in Hk.
  unfold read_model_parameters.
  rewrite !int_key_insert_ne, !str_key_insert_ne by (intros ->; tauto).
  reflexivity.
Qed.

(** The configuration reader as modelled: a missing key falls back to its
    default ([delta_training_percentage = 20], [transformation = log],
    [main_accuracy_estimator = mae]); the configuration of the
    default-path test, which has no model parameters at all, resolves on
    100 points to [test_values = 10] and [delta_training_values = 20];
    a key outside the known ones changes nothing, in the model parameters
    or beside them. *)
Theorem defaults_and_unknown_keys :
  (forall d : gmap string cfg_value,
      d !! "delta_training_values" = None ->
      d !! "delta_training_percentage" = None ->
      delta_training_amount (read_model_parameters d) = Percentage 20)
  /\ (forall d : gmap string cfg_value,
         d !! "transformation" = None ->
         settings_transformation (read_model_parameters d) = Log)
  /\ (forall d : gmap string cfg_value,
         d !! "main_accuracy_estimator" = None ->
         settings_main_accuracy_estimator (read_model_parameters d) = mae)
  /\ resolve (read_config verbose_only) 100 = mkModelConfig 10 20 10 Log mae
  /\ (forall (d : gmap string cfg_value) (k : string) (v : cfg_value),
         ~ In k known_keys ->
         read_model_parameters (<[k := v]> d) = read_model_parameters d)
  /\ (forall (param_config : gmap string cfg_entry) (k : string) (v : cfg_entry),
         k <> "model_parameters" ->
         read_config (<[k := v]> param_config) = read_config param_config).
Proof.
  repeat split.
  - intros d H1 H2. unfold read_model_parameters, int_key. simpl.
    now rewrite H1, H2.
  - intros d H. unfold read_model_parameters, str_key. simpl. now rewrite H.
  - intros d H. unfold read_model_parameters, str_key. simpl. now rewrite H.
  - exact unknown_key_ignored.
  - intros pc k v Hk. unfold read_config. now rewrite lookup_insert_ne.
Qed.

(** The theorem for the key [verbose] of the default-path test, put among
    the model parameters. *)
Lemma defaults_and_unknown_keys_sample :
  read_model_parameters (<["verbose" := CStr "no"]> ∅) = read_model_parameters ∅.
Proof.
  refine (proj1 (proj2 (proj2 (proj2 (proj2 defaults_and_unknown_keys))))
            ∅ "verbose" (CStr "no") _).
  unfold known_keys. simpl. intros H.
  repeat (destruct H as [H | H]; [discriminate H |]). exact H.
Defined.

End ConfigFacts.

End BacktestFacts.

(* ===================================================================== *)
(** * Further properties of the code *)
(* ===================================================================== *)

(** ** More facts about frames *)

Section FrameMore.
Import Pandas.
Local Open Scope string_scope.
Local Open Scope list_scope.

Lemma Ok_inj {A : Type} (a b : A) : Ok a = Ok b -> a = b.
Proof.
  intros H. exact (f_equal (fun r => match r with Ok x => x | Raise _ => a end) H).
Qed.

Lemma has_column_false (name : string) (df : DataFrame) :
  has_column name df = false -> ~ In name (column_names df).
Proof.
  unfold has_column. intros H Hin.
  assert (Ht : existsb (String.eqb name) (column_names df) = true).
  { apply existsb_exists. exists name. split; [exact Hin | apply String.eqb_refl]. }
  congruence.
Qed.

Lemma existsb_false_forall {A : Type} (f : A -> bool) (l : list A) :
  (forall x, In x l -> f x = false) -> existsb f l = false.
Proof.
  intros H. destruct (existsb f l) eqn:E; [| reflexivity].
  apply existsb_exists in E. destruct E as (x & Hx & Hf). rewrite (H x Hx) in Hf.
  discriminate.
Qed.

Lemma has_column_absent (name : string) (df : DataFrame) :
  ~ In name (column_names df) -> has_column name df = false.
Proof.
  intros H. unfold has_column. apply existsb_false_forall. intros n Hn.
  destruct (String.eqb name n) eqn:E; [| reflexivity].
  apply String.eqb_eq in E. subst. contradiction.
Qed.

Lemma has_column_getitem (df : DataFrame) (name : string) :
  has_column name df = match getitem df name with Ok _ => true | Raise _ => false end.
Proof.
  unfold has_column, getitem, column_names.
  induction (columns df) as [| [n vs] rest IH]; [reflexivity |].
  cbn [map fst existsb find_column]. rewrite String.eqb_sym.
  destruct (String.eqb n name); [reflexivity | exact IH].
Qed.

Lemma find_column_None (name : string) (cols : list (string * list cell)) :
  find_column name cols = None <-> ~ In name (map fst cols).
Proof.
  induction cols as [| [n vs] rest IH]; simpl; [tauto |].
  destruct (String.eqb n name) eqn:E.
  - apply String.eqb_eq in E. subst.
    split; [discriminate | intros H; exfalso; apply H; now left].
  - assert (n <> name) by (intros ->; rewrite String.eqb_refl in E; discriminate).
    rewrite IH. tauto.
Qed.

Lemma find_column_Some_In (name : string) (cols : list (string * list cell))
  (vs : list cell) :
  find_column name cols = Some vs -> In name (map fst cols).
Proof.
  induction cols as [| [n ws] rest IH]; cbn [find_column map fst]; [discriminate |].
  destruct (String.eqb n name) eqn:E.
  - apply String.eqb_eq in E. intros _. now left.
  - intros H. right. exact (IH H).
Qed.

Lemma getitem_of_column (df : DataFrame) (name : string) :
  In name (column_names df) -> exists vs, getitem df name = Ok vs.
Proof.
  unfold getitem, column_names. induction (columns df) as [| [n vs] rest IH]; [intros [] |].
  cbn [map fst find_column In]. intros Hin.
  destruct (String.eqb n name) eqn:E; [eauto |].
  destruct Hin as [-> | Hin]; [| exact (IH Hin)].
  rewrite String.eqb_refl in E. discriminate.
Qed.

Lemma map_dict_get_id (mapping : list (string * string))
  (cols : list (string * list cell)) :
  (forall n, In n (map fst cols) -> dict_get mapping n = n) ->
  map (fun c => (dict_get mapping (fst c), snd c)) cols = cols.
Proof.
  induction cols as [| [n vs] rest IH]; intros H; simpl; [reflexivity |].
  rewrite (H n) by (now left). rewrite IH; [reflexivity |].
  intros m Hm. apply H. now right.
Qed.

Lemma rename_columns_id (mapping : list (string * string)) (df : DataFrame) :
  (forall n, In n (column_names df) -> dict_get mapping n = n) ->
  rename_columns mapping df = df.
Proof.
  intros H. destruct df as [iname idx cols]. unfold rename_columns. simpl. f_equal.
  apply map_dict_get_id. exact H.
Qed.

Lemma join_Ok (left right joined : DataFrame) :
  join left right = Ok joined ->
  joined = mkDataFrame (index_name left) (index left)
             (columns left ++
              map (fun c => (fst c, align (index left) (index right) (snd c)))
                  (columns right)) /\
  forall n, In n (column_names right) -> ~ In n (column_names left).
Proof.
  unfold join.
  destruct (existsb (fun n => has_column n left) (column_names right)) eqn:E;
    [discriminate |].
  intros [= <-]. split; [reflexivity |].
  intros n Hr Hl.
  assert (Ht : existsb (fun n => has_column n left) (column_names right) = true).
  { apply existsb_exists. exists n. split; [exact Hr |].
    unfold has_column. apply existsb_exists. exists n.
    split; [exact Hl | apply String.eqb_refl]. }
  congruence.
Qed.

End FrameMore.

(** ** FBProphet.train: failures and the fitted frame *)

Section TrainMore.
Import Pandas Prophet Future.
Local Open Scope string_scope.
Local Open Scope list_scope.

Variable ProphetModel : Type.
Variable Prophet_new : ProphetModel.
Variable add_regressor : ProphetModel -> string -> ProphetModel.
Variable fit : ProphetModel -> DataFrame -> ProphetModel.

Local Abbreviation train := (Prophet.train ProphetModel Prophet_new add_regressor fit).

(** Without extra regressors: once the index is reset, a frame that had
    not exactly one column fails at the assignment of the column names. *)
Lemma train_columns_mismatch (input_data : ref) (st : gmap nat DataFrame)
  (df df1 : DataFrame) :
  st !! input_data = Some df ->
  reset_index df = Ok df1 ->
  List.length (columns df) <> 1%nat ->
  train input_data None st = (Raise ValueError, <[input_data := df1]> st).
Proof.
  intros Hdf Hreset Hcols.
  unfold Prophet.train, bind, load, lift, update, ret.
  rewrite Hdf, Hreset, lookup_insert_eq.
  unfold reset_index in Hreset.
  destruct (has_column (reset_index_name df) df); [discriminate |].
  injection Hreset as <-. unfold set_columns. simpl.
  destruct (columns df) as [| c [| c' rest]]; simpl in *; try reflexivity.
  congruence.
Qed.

(** X1. A call of [train] without extra regressors on a frame that does
    not have exactly one column raises [ValueError] at the assignment of
    the column names, and the caller's frame keeps the effect of the
    [reset_index] that came first: it is under a range index, and its
    old index is its first column. *)
Theorem train_failure_keeps_reset_index (input_data : ref) (st : gmap nat DataFrame)
  (df : DataFrame) :
  st !! input_data = Some df ->
  has_column (reset_index_name df) df = false ->
  List.length (columns df) <> 1%nat ->
  train input_data None st
  = (Raise ValueError,
     <[input_data := mkDataFrame None (range_index (List.length (index df)))
                       ((reset_index_name df, index df) :: columns df)]> st).
Proof.
  intros Hdf Hfree Hcols.
  apply (train_columns_mismatch input_data st df); [exact Hdf | | exact Hcols].
  unfold reset_index. now rewrite Hfree.
Qed.

(** X2. A frame can be trained on once. After a call of [train] without
    extra regressors has returned, the caller's frame has the columns
    [ds] and [y] under a range index; a second call on it raises
    [ValueError] and leaves it with a third column, [index]. *)
Theorem train_twice_raises (input_data : ref) (st st' : gmap nat DataFrame)
  (self : FBProphet ProphetModel) :
  train input_data None st = (Ok self, st') ->
  exists (df : DataFrame) (values : list cell),
    st' !! input_data
    = Some (mkDataFrame None (range_index (List.length (index df)))
              [("ds", index df); ("y", values)]) /\
    train input_data None st'
    = (Raise ValueError,
       <[input_data :=
           mkDataFrame None (range_index (List.length (index df)))
             [("index", range_index (List.length (index df)));
              ("ds", index df); ("y", values)]]> st').
Proof.
  intros H.
  destruct (train_without_regressors_effect _ _ _ _ _ _ _ _ H)
    as (df & name & values & Hdf & Hcols & ->).
  exists df, values. rewrite lookup_insert_eq. split; [reflexivity |].
  erewrite train_columns_mismatch.
  - reflexivity.
  - apply lookup_insert_eq.
  - unfold reset_index. simpl. unfold range_index. rewrite length_map, length_seq.
    reflexivity.
  - simpl. lia.
Qed.

(** X3. With extra regressors that share a column name with the input,
    [train] raises [ValueError] at the join and changes no frame. *)
Theorem train_overlap_is_atomic (input_data regressors : ref) (st : gmap nat DataFrame)
  (df regs : DataFrame) (name : string) :
  st !! input_data = Some df ->
  st !! regressors = Some regs ->
  In name (column_names df) -> In name (column_names regs) ->
  train input_data (Some regressors) st = (Raise ValueError, st).
Proof.
  intros Hdf Hregs Hl Hr.
  unfold Prophet.train, bind, load, lift. rewrite Hdf, Hregs.
  unfold join.
  assert (H : existsb (fun n => has_column n df) (column_names regs) = true).
  { apply existsb_exists. exists name. split; [exact Hr |].
    unfold has_column. apply existsb_exists. exists name. split; [exact Hl |].
    apply String.eqb_refl. }
  now rewrite H.
Qed.


End TrainMore.

Section TrainExamples.
Import Pandas Prophet Future.
Local Open Scope string_scope.
Local Open Scope list_scope.

Local Abbreviation sample_train :=
  (Prophet.train unit tt (fun _ _ => tt) (fun _ _ => tt)).

(** A frame of two columns: the call fails and the frame has a third. *)
Lemma train_failure_keeps_reset_index_sample :
  sample_train 1%nat None sample_store_wide
  = (Raise ValueError,
     <[1%nat := mkDataFrame None (range_index 2)
                  (("index", [Num 1; Num 2]) :: columns sample_training_wide)]>
       sample_store_wide).
Proof.
  exact (train_failure_keeps_reset_index unit tt (fun _ _ => tt) (fun _ _ => tt)
           1%nat sample_store_wide sample_training_wide eq_refl eq_refl
           ltac:(discriminate)).
Defined.

(** Training twice on the frame of the sample store. *)
Lemma train_twice_raises_sample :
  exists (df : DataFrame) (values : list cell),
    snd (sample_train 1%nat None sample_store) !! 1%nat
    = Some (mkDataFrame None (range_index (List.length (index df)))
              [("ds", index df); ("y", values)]) /\
    sample_train 1%nat None (snd (sample_train 1%nat None sample_store))
    = (Raise ValueError,
       <[1%nat :=
           mkDataFrame None (range_index (List.length (index df)))
             [("index", range_index (List.length (index df)));
              ("ds", index df); ("y", values)]]>
         (snd (sample_train 1%nat None sample_store))).
Proof.
  exact (train_twice_raises unit tt (fun _ _ => tt) (fun _ _ => tt) 1%nat sample_store
           (snd (sample_train 1%nat None sample_store)) (mkFBProphet unit tt) eq_refl).
Defined.

(** Regressors with the column [value] of the input. *)
Lemma train_overlap_is_atomic_sample :
  sample_train 1%nat (Some 2%nat) sample_store_overlap
  = (Raise ValueError, sample_store_overlap).
Proof.
  exact (train_overlap_is_atomic unit tt (fun _ _ => tt) (fun _ _ => tt) 1%nat 2%nat
           sample_store_overlap sample_training sample_training "value"
           eq_refl eq_refl (or_introl eq_refl) (or_introl eq_refl)).
Defined.


End TrainExamples.

(** ** FBProphet.predict: the frame the model is asked for *)

Section PredictMore.
Import Pandas Prophet Future.
Local Open Scope string_scope.
Local Open Scope list_scope.

Variable ProphetModel : Type.
Variable inverse : list cell -> list cell.

Lemma dict_get_index_other (n : string) :
  n <> "index" -> dict_get [("index", "ds")] n = n.
Proof.
  intros Hn. unfold dict_get.
  destruct (String.eqb "index" n) eqn:E; [| reflexivity].
  apply String.eqb_eq in E. congruence.
Qed.

Lemma future_of_unnamed_index (fd : DataFrame) :
  index_name fd = None -> has_column "index" fd = false ->
  (try! future := reset_index fd in Ok (rename_columns [("index", "ds")] future))
  = Ok (ds_frame fd).
Proof.
  intros Hname Hfree. unfold reset_index, reset_index_name.
  rewrite Hname, Hfree, Hfree. unfold rbind, rename_columns, ds_frame.
  cbn [index_name index columns map fst snd]. do 3 f_equal.
  apply (map_dict_get_id [("index", "ds")]). intros n Hn.
  apply dict_get_index_other. intros ->.
  exact (has_column_false _ _ Hfree Hn).
Qed.

Lemma future_with_regressors (fd regs : DataFrame) :
  index_name fd = None ->
  ~ In "index" (column_names fd) ->
  ~ In "ds" (column_names fd) ->
  ~ In "ds" (column_names regs) ->
  (forall n, In n (column_names regs) -> ~ In n (column_names fd)) ->
  (try! indexed := set_index "ds" (ds_frame fd) in
   try! joined := join indexed regs in
   reset_index joined)
  = Ok (ds_frame_with fd regs).
Proof.
  intros Hname Hindex Hds Hrds Hdisjoint.
  unfold set_index, ds_frame. cbn [columns find_column remove_column].
  rewrite String.eqb_refl. unfold rbind at 1.
  unfold join. cbn [columns index index_name].
  rewrite existsb_false_forall.
  2:{ intros n Hn. apply has_column_absent. unfold column_names. cbn [columns].
      exact (Hdisjoint n Hn). }
  unfold rbind. unfold reset_index, reset_index_name. cbn [index_name index columns].
  rewrite has_column_absent.
  2:{ unfold column_names. cbn [columns]. rewrite map_app, map_map. intros H.
      apply in_app_or in H. destruct H as [H | H]; [exact (Hds H) | exact (Hrds H)]. }
  reflexivity.
Qed.

(** X5. Without extra regressors, and for a future frame whose index has
    no name and which has no column [index], the only frame [predict]
    asks the model about is the future frame with its index as the
    column [ds] under a range index: two models that answer alike on
    that frame give the same prediction. *)
Theorem predict_asks_for_ds_frame
  (p1 p2 : ProphetModel -> DataFrame -> result DataFrame)
  (self : FBProphet ProphetModel) (future_dataframe : DataFrame) :
  index_name future_dataframe = None ->
  has_column "index" future_dataframe = false ->
  p1 (fbmodel ProphetModel self) (ds_frame future_dataframe)
  = p2 (fbmodel ProphetModel self) (ds_frame future_dataframe) ->
  predict ProphetModel p1 inverse self future_dataframe None
  = predict ProphetModel p2 inverse self future_dataframe None.
Proof.
  intros Hname Hfree Hsame.
  pose proof (future_of_unnamed_index _ Hname Hfree) as Hfuture.
  unfold predict.
  destruct (reset_index future_dataframe) as [future |]; unfold rbind in Hfuture |- *;
    [| reflexivity].
  apply Ok_inj in Hfuture. rewrite Hfuture. now rewrite Hsame.
Qed.

(** X6. A forecast without the column [yhat_upper] makes [predict] raise
    [KeyError]: the upper bound is read before any bound is written. *)
Theorem predict_needs_upper_bound
  (fbmodel_predict : ProphetModel -> DataFrame -> result DataFrame)
  (self : FBProphet ProphetModel) (future_dataframe forecast : DataFrame) :
  index_name future_dataframe = None ->
  has_column "index" future_dataframe = false ->
  fbmodel_predict (fbmodel ProphetModel self) (ds_frame future_dataframe) = Ok forecast ->
  ~ In "yhat_upper" (column_names forecast) ->
  predict ProphetModel fbmodel_predict inverse self future_dataframe None
  = Raise KeyError.
Proof.
  intros Hname Hfree Hforecast Hupper.
  pose proof (future_of_unnamed_index _ Hname Hfree) as Hfuture.
  unfold predict.
  destruct (reset_index future_dataframe) as [future |]; unfold rbind in Hfuture |- *;
    [| discriminate].
  apply Ok_inj in Hfuture. rewrite Hfuture, Hforecast.
  apply find_column_None in Hupper.
  unfold getitem at 1. destruct (find_column "yhat" (columns forecast)); [| reflexivity].
  unfold getitem at 1. unfold loc_set_column at 1. cbn [columns].
  rewrite find_column_assign_other by discriminate. now rewrite Hupper.
Qed.

(** X7. A future frame whose index has a name other than [ds] and
    [index] cannot be used with extra regressors: the reset index keeps
    its name as a column, no column is renamed to [ds], and
    [set_index('ds')] raises [KeyError] before the model is asked. *)
Theorem predict_named_index_with_regressors
  (fbmodel_predict : ProphetModel -> DataFrame -> result DataFrame)
  (self : FBProphet ProphetModel) (future_dataframe regressors : DataFrame)
  (name : string) :
  index_name future_dataframe = Some name ->
  name <> "ds" -> name <> "index" ->
  (forall n, In n (column_names future_dataframe) ->
             n <> name /\ n <> "ds" /\ n <> "index") ->
  predict ProphetModel fbmodel_predict inverse self future_dataframe (Some regressors)
  = Raise KeyError.
Proof.
  intros Hname Hds Hindex Hcols.
  unfold predict, reset_index, reset_index_name. rewrite Hname.
  assert (Hfree : has_column name future_dataframe = false).
  { unfold has_column. destruct (existsb _ _) eqn:E; [| reflexivity].
    apply existsb_exists in E. destruct E as (n & Hn & E).
    apply String.eqb_eq in E. subst n. destruct (Hcols name Hn) as [H _]. congruence. }
  rewrite Hfree. unfold rbind at 1.
  assert (Hrename :
            rename_columns [("index", "ds")]
              (mkDataFrame None (range_index (List.length (index future_dataframe)))
                 ((name, index future_dataframe) :: columns future_dataframe))
            = mkDataFrame None (range_index (List.length (index future_dataframe)))
                ((name, index future_dataframe) :: columns future_dataframe)).
  { apply rename_columns_id. intros n Hn. apply dict_get_index_other.
    unfold column_names in Hn. cbn [columns map fst] in Hn.
    destruct Hn as [<- | Hn]; [exact Hindex |].
    destruct (Hcols n Hn) as (_ & _ & H). exact H. }
  rewrite Hrename. unfold set_index.
  assert (Hnone : find_column "ds"
                    ((name, index future_dataframe) :: columns future_dataframe) = None).
  { apply find_column_None. cbn [map fst]. intros [H | H]; [congruence |].
    destruct (Hcols "ds" H) as (_ & H2 & _). congruence. }
  cbn [columns]. rewrite Hnone. reflexivity.
Qed.


End PredictMore.

Section PredictExamples.
Import Pandas Prophet Future.
Local Open Scope string_scope.
Local Open Scope list_scope.

(** A model that refuses frames under a named index predicts as one that
    answers every frame. *)
Lemma predict_asks_for_ds_frame_sample :
  predict unit sample_model_predict (fun series => series) (mkFBProphet unit tt)
    sample_future None
  = predict unit (fun _ _ => Ok sample_forecast) (fun series => series)
      (mkFBProphet unit tt) sample_future None.
Proof.
  exact (predict_asks_for_ds_frame unit (fun series => series) sample_model_predict
           (fun _ _ => Ok sample_forecast) (mkFBProphet unit tt) sample_future
           eq_refl eq_refl eq_refl).
Defined.

(** A forecast of the columns [ds] and [yhat] only. *)
Lemma predict_needs_upper_bound_sample :
  predict unit (fun _ _ => Ok sample_forecast_without_bounds) (fun series => series)
    (mkFBProphet unit tt) sample_future None
  = Raise KeyError.
Proof.
  apply (predict_needs_upper_bound unit (fun series => series)
           (fun _ _ => Ok sample_forecast_without_bounds) (mkFBProphet unit tt)
           sample_future sample_forecast_without_bounds eq_refl eq_refl eq_refl).
  intros [H | [H | []]]; discriminate H.
Defined.

(** A future frame whose index is named [date]. *)
Lemma predict_named_index_with_regressors_sample :
  predict unit (fun _ _ => Ok sample_forecast) (fun series => series)
    (mkFBProphet unit tt) sample_future_named (Some sample_future_regressors)
  = Raise KeyError.
Proof.
  apply (predict_named_index_with_regressors unit (fun series => series)
           (fun _ _ => Ok sample_forecast) (mkFBProphet unit tt)
           sample_future_named sample_future_regressors "date" eq_refl).
  - discriminate.
  - discriminate.
  - intros n [<- | []]. repeat split; discriminate.
Defined.


End PredictExamples.

(** ** suppress_stdout_stderr: the descriptors of the process *)

Section DescriptorFacts.
Import Descriptors.

Lemma lowest_free_unused (t : gmap nat file) : t !! lowest_free t = None.
Proof.
  unfold lowest_free.
  destruct (List.find _ _) as [n |] eqn:E; simpl.
  - apply find_some in E. destruct E as [_ E]. now apply bool_decide_eq_true in E.
  - exfalso.
    assert (Hall : forall n, In n (seq 0 (S (size t))) -> n ∈ dom t).
    { intros n Hn. pose proof (find_none _ _ E n Hn) as Hf.
      apply bool_decide_eq_false in Hf. apply elem_of_dom.
      destruct (t !! n); [eauto | contradiction]. }
    assert (Hsub : list_to_set (seq 0 (S (size t))) ⊆ dom t).
    { intros n Hn. apply elem_of_list_to_set in Hn. apply Hall.
      now apply list_elem_of_In. }
    apply subseteq_size in Hsub.
    rewrite size_list_to_set in Hsub by apply NoDup_seq.
    rewrite size_dom in Hsub. rewrite length_seq in Hsub. lia.
Qed.

(** What [__init__] does on a table with 1 and 2 open. *)
Lemma init_effect (t : gmap nat file) (out err : file) :
  t !! 1%nat = Some out -> t !! 2%nat = Some err ->
  exists a b c d : nat,
    init t = (Some (mk_suppress [a; b] [c; d]),
              <[d := err]> (<[c := out]> (<[b := DevNull]> (<[a := DevNull]> t)))) /\
    t !! a = None /\ t !! b = None /\ t !! c = None /\ t !! d = None /\
    NoDup [a; b; c; d].
Proof.
  intros H1 H2.
  set (a := lowest_free t).
  set (t1 := <[a := DevNull]> t).
  set (b := lowest_free t1).
  set (t2 := <[b := DevNull]> t1).
  set (c := lowest_free t2).
  set (t3 := <[c := out]> t2).
  set (d := lowest_free t3).
  pose proof (lowest_free_unused t) as Ha. fold a in Ha.
  pose proof (lowest_free_unused t1) as Hb. fold b in Hb.
  pose proof (lowest_free_unused t2) as Hc. fold c in Hc.
  pose proof (lowest_free_unused t3) as Hd. fold d in Hd.
  unfold t3 in Hd. apply lookup_insert_None in Hd. destruct Hd as [Hd Hdc].
  unfold t2 in Hd, Hc. apply lookup_insert_None in Hd. destruct Hd as [Hd Hdb].
  apply lookup_insert_None in Hc. destruct Hc as [Hc Hcb].
  unfold t1 in Hd, Hc, Hb. apply lookup_insert_None in Hd. destruct Hd as [Hd Hda].
  apply lookup_insert_None in Hc. destruct Hc as [Hc Hca].
  apply lookup_insert_None in Hb. destruct Hb as [Hb Hba].
  assert (Ha1 : a <> 1%nat) by (intros E; rewrite E in Ha; congruence).
  assert (Hb1 : b <> 1%nat) by (intros E; rewrite E in Hb; congruence).
  assert (Hc2 : c <> 2%nat) by (intros E; rewrite E in Hc; congruence).
  assert (Ha2 : a <> 2%nat) by (intros E; rewrite E in Ha; congruence).
  assert (Hb2 : b <> 2%nat) by (intros E; rewrite E in Hb; congruence).
  exists a, b, c, d. split; [| repeat split; try assumption].
  - unfold init, fd_bind, os_open_devnull, os_dup, fd_ret.
    fold a. fold t1. fold b. fold t2.
    assert (E1 : t2 !! 1%nat = Some out).
    { unfold t2, t1. rewrite !lookup_insert_ne by congruence. exact H1. }
    rewrite E1. fold c. fold t3.
    assert (E2 : t3 !! 2%nat = Some err).
    { unfold t3, t2, t1. rewrite !lookup_insert_ne by congruence. exact H2. }
    rewrite E2. fold d. reflexivity.
  - repeat (apply NoDup_cons; split); try apply NoDup_nil_2;
      rewrite ?elem_of_cons, ?elem_of_nil; intuition congruence.
Qed.

Lemma close_all_open (fds : list nat) (t : gmap nat file) :
  NoDup fds -> (forall fd, In fd fds -> t !! fd <> None) ->
  close_all fds t = (Some tt, foldl (fun acc fd => delete fd acc) t fds).
Proof.
  revert t. induction fds as [| fd rest IH]; intros t Hnd Hopen; [reflexivity |].
  apply NoDup_cons in Hnd. destruct Hnd as [Hfd Hnd].
  simpl. unfold fd_bind, os_close.
  destruct (t !! fd) eqn:E; [| exfalso; apply (Hopen fd); [now left | exact E]].
  apply IH; [exact Hnd |].
  intros fd' Hin. rewrite lookup_delete_ne.
  - apply Hopen. now right.
  - intros ->. apply Hfd. now apply list_elem_of_In.
Qed.

Lemma table_restored (t : gmap nat file) (a b c d : nat) (out err : file) :
  t !! 1%nat = Some out -> t !! 2%nat = Some err ->
  t !! a = None -> t !! b = None -> t !! c = None -> t !! d = None ->
  delete d (delete c (delete b (delete a
    (<[2%nat := err]> (<[1%nat := out]>
       (<[2%nat := DevNull]> (<[1%nat := DevNull]>
          (<[d := err]> (<[c := out]> (<[b := DevNull]> (<[a := DevNull]> t)))))))))))
  = t.
Proof.
  intros H1 H2 Ha Hb Hc Hd. apply map_eq. intros i.
  rewrite !lookup_delete, !lookup_insert.
  repeat case_decide; subst; congruence.
Qed.

Lemma close_all_keeps_closed (fds : list nat) (t t' : gmap nat file) (r : option unit)
  (x : nat) :
  close_all fds t = (r, t') -> t !! x = None -> t' !! x = None.
Proof.
  revert t. induction fds as [| fd rest IH]; intros t H Hx.
  - injection H as _ <-. exact Hx.
  - simpl in H. unfold fd_bind, os_close in H.
    destruct (t !! fd) eqn:E.
    + apply (IH _ H). rewrite lookup_delete. case_decide; [reflexivity | exact Hx].
    + injection H as _ <-. exact Hx.
Qed.

Lemma close_all_closes (fds : list nat) (t t' : gmap nat file) :
  close_all fds t = (Some tt, t') -> forall fd, In fd fds -> t' !! fd = None.
Proof.
  revert t. induction fds as [| fd0 rest IH]; intros t H fd Hfd; [destruct Hfd |].
  simpl in H. unfold fd_bind, os_close in H.
  destruct (t !! fd0) eqn:E; [| discriminate].
  destruct Hfd as [<- | Hfd].
  - apply (close_all_keeps_closed _ _ _ _ _ H). rewrite lookup_delete.
    case_decide; [reflexivity | congruence].
  - exact (IH _ H fd Hfd).
Qed.

Lemma init_fields (t t1 : gmap nat file) (self : suppress_stdout_stderr) :
  init t = (Some self, t1) ->
  exists a b c d : nat, self = mk_suppress [a; b] [c; d].
Proof.
  unfold init, fd_bind, os_open_devnull, os_dup, fd_ret. intros H.
  repeat match type of H with
         | context [match ?m !! ?k with _ => _ end] => destruct (m !! k); [| discriminate]
         end.
  injection H as <- _. eauto.
Qed.

Section WithBlock.
Variable A : Type.
Variable body : fdM A.

Hypothesis body_keeps_table : forall t, snd (body t) = t.

(** X9. A block under [with suppress_stdout_stderr()] that opens and
    closes no descriptor of its own runs with the descriptors 1 and 2 on
    the null device and every other open descriptor as it was; after the
    block the table of descriptors is the one before it, whether the
    block returned or raised, and the outcome of the block is the
    outcome of the whole. *)
Theorem with_suppressed_restores (t : gmap nat file) (out err : file) :
  t !! 1%nat = Some out -> t !! 2%nat = Some err ->
  exists t_in : gmap nat file,
    with_suppressed body t = (fst (body t_in), t) /\
    t_in !! 1%nat = Some DevNull /\
    t_in !! 2%nat = Some DevNull /\
    (forall fd f, fd <> 1%nat -> fd <> 2%nat -> t !! fd = Some f -> t_in !! fd = Some f).
Proof.
  intros H1 H2.
  destruct (init_effect t out err H1 H2)
    as (a & b & c & d & Hinit & Ha & Hb & Hc & Hd & Hnd).
  assert (Ha1 : a <> 1%nat) by congruence. assert (Ha2 : a <> 2%nat) by congruence.
  assert (Hb1 : b <> 1%nat) by congruence. assert (Hb2 : b <> 2%nat) by congruence.
  assert (Hc1 : c <> 1%nat) by congruence. assert (Hc2 : c <> 2%nat) by congruence.
  assert (Hd1 : d <> 1%nat) by congruence. assert (Hd2 : d <> 2%nat) by congruence.
  pose proof Hnd as Hnd'.
  apply NoDup_cons in Hnd'. destruct Hnd' as [Hab Hnd'].
  apply NoDup_cons in Hnd'. destruct Hnd' as [Hbc Hnd'].
  apply NoDup_cons in Hnd'. destruct Hnd' as [Hcd _].
  assert (Hab' : a <> b) by set_solver. assert (Hac : a <> c) by set_solver.
  assert (Had : a <> d) by set_solver. assert (Hbc' : b <> c) by set_solver.
  assert (Hbd : b <> d) by set_solver. assert (Hcd' : c <> d) by set_solver.
  set (t4 := <[d := err]> (<[c := out]> (<[b := DevNull]> (<[a := DevNull]> t)))) in *.
  set (t_in := <[2%nat := DevNull]> (<[1%nat := DevNull]> t4)).
  exists t_in.
  assert (La : t4 !! a = Some DevNull).
  { unfold t4. rewrite !lookup_insert. repeat case_decide; congruence. }
  assert (Lb : <[1%nat := DevNull]> t4 !! b = Some DevNull).
  { unfold t4. rewrite !lookup_insert. repeat case_decide; congruence. }
  assert (Lc : t_in !! c = Some out).
  { unfold t_in, t4. rewrite !lookup_insert. repeat case_decide; congruence. }
  assert (Ld : <[1%nat := out]> t_in !! d = Some err).
  { unfold t_in, t4. rewrite !lookup_insert. repeat case_decide; congruence. }
  split; [| split; [| split]].
  - unfold with_suppressed. rewrite Hinit.
    unfold enter, fd_bind, os_dup2. cbn [null_fds nth]. rewrite La, Lb. fold t_in.
    pose proof (body_keeps_table t_in) as Hbody.
    destruct (body t_in) as [r t3]. cbn [snd fst] in *. subst t3.
    unfold exit, fd_bind, os_dup2. cbn [save_fds null_fds nth app]. rewrite Lc, Ld.
    rewrite close_all_open.
    + cbn [foldl]. unfold t_in, t4. now rewrite table_restored.
    + exact Hnd.
    + intros fd Hfd. unfold t_in, t4. rewrite !lookup_insert.
      simpl in Hfd. repeat case_decide; try congruence.
      intuition congruence.
  - unfold t_in. rewrite !lookup_insert. repeat case_decide; congruence.
  - unfold t_in. rewrite !lookup_insert. repeat case_decide; congruence.
  - intros fd f Hfd1 Hfd2 Hfd. unfold t_in, t4. rewrite !lookup_insert.
    repeat case_decide; subst; congruence.
Qed.

End WithBlock.

(** X10. An instance of [suppress_stdout_stderr] serves one block: once
    [__exit__] has closed its descriptors, entering it again fails at the
    first [os.dup2] and changes no descriptor. *)
Theorem suppress_not_reusable (t t1 t2 t3 : gmap nat file)
  (self : suppress_stdout_stderr) :
  init t = (Some self, t1) ->
  enter self t1 = (Some tt, t2) ->
  exit self t2 = (Some tt, t3) ->
  enter self t3 = (None, t3).
Proof.
  intros Hinit _ Hexit.
  destruct (init_fields _ _ _ Hinit) as (a & b & c & d & ->).
  unfold exit, fd_bind, os_dup2 in Hexit. cbn [save_fds null_fds nth app] in Hexit.
  destruct (t2 !! c); [| discriminate].
  destruct (<[1%nat := f]> t2 !! d); [| discriminate].
  pose proof (close_all_closes _ _ _ Hexit a (or_introl eq_refl)) as Ha.
  unfold enter, fd_bind, os_dup2. cbn [null_fds nth]. now rewrite Ha.
Qed.

(** A block that does nothing, in a process with its three streams. *)
Lemma with_suppressed_restores_sample :
  exists t_in : gmap nat file,
    with_suppressed (fd_ret tt) sample_table = (Some tt, sample_table) /\
    t_in !! 1%nat = Some DevNull /\
    t_in !! 2%nat = Some DevNull /\
    (forall fd f, fd <> 1%nat -> fd <> 2%nat ->
                  sample_table !! fd = Some f -> t_in !! fd = Some f).
Proof.
  exact (with_suppressed_restores unit (fd_ret tt) (fun t => eq_refl) sample_table
           (Stream 1) (Stream 2) eq_refl eq_refl).
Defined.

(** The instance of the sample process, after its block. *)
Lemma suppress_not_reusable_sample :
  enter sample_self sample_exited = (None, sample_exited).
Proof.
  exact (suppress_not_reusable sample_table sample_after_init sample_entered
           sample_exited sample_self eq_refl eq_refl eq_refl).
Defined.

End DescriptorFacts.

(** ** cross_correlation_graph: figures, edges and the threshold *)

Section CorrelationGraphMore.
Import Pandas Visualization Dashboard.
Local Open Scope string_scope.
Local Open Scope list_scope.

Lemma map_result_length {A B : Type} (f : A -> result B) (l : list A) (ys : list B) :
  map_result f l = Ok ys -> List.length ys = List.length l.
Proof.
  revert ys. induction l as [| x l IH]; intros ys H.
  - injection H as <-. reflexivity.
  - cbn [map_result] in H. rbind_inv H. rbind_inv H. injection H as <-.
    simpl. f_equal. now apply IH.
Qed.

Lemma map_result_Forall2 {A B : Type} (f : A -> result B) (l : list A) (ys : list B) :
  map_result f l = Ok ys -> Forall2 (fun x y => f x = Ok y) l ys.
Proof.
  revert ys. induction l as [| x l IH]; intros ys H.
  - injection H as <-. constructor.
  - cbn [map_result] in H. rbind_inv H. rbind_inv H. injection H as <-.
    constructor; [assumption | now apply IH].
Qed.

Lemma map_result_Raise {A B : Type} (f : A -> result B) (l : list A) (x : A) (e : exn) :
  In x l -> f x = Raise e -> exists e', map_result f l = Raise e'.
Proof.
  induction l as [| y l IH]; intros Hx Hf; [destruct Hx |].
  cbn [map_result]. destruct Hx as [-> | Hx].
  - rewrite Hf. eauto.
  - destruct (f y) as [b | e0]; [| eauto]. cbn [rbind].
    destruct (IH Hx Hf) as (e' & ->). eauto.
Qed.

(** X11. When [cross_correlation_graph] returns, it shows one figure per
    mode, in the order of the modes, if there are between one and four
    modes, and an empty [Div] otherwise: with no mode, or with five or
    more, no figure is shown. *)
Theorem correlation_figures_per_mode (name : string) (xcorr : list (string * DataFrame))
  (threshold : option pyval) (shown : child) :
  cross_correlation_graph name xcorr threshold = Ok shown ->
  if (1 <=? List.length xcorr)%nat && (List.length xcorr <=? 4)%nat
  then exists figures : list (string * list edge),
         shown = CorrelationGraphs figures /\ map fst figures = map fst xcorr
  else shown = EmptyDiv.
Proof.
  unfold cross_correlation_graph. intros H. rbind_inv H. rename a into figures.
  rewrite (map_result_length _ _ _ Ha) in H.
  destruct ((1 <=? List.length xcorr)%nat && (List.length xcorr <=? 4)%nat).
  - injection H as <-. exists figures. split; [reflexivity |].
    apply map_result_Forall2 in Ha.
    induction Ha as [| entry fig rest figs Hentry _ IH]; [reflexivity |].
    cbn [map]. f_equal; [| exact IH].
    rbind_inv Hentry. injection Hentry as <-. reflexivity.
  - injection H as <-. reflexivity.
Qed.

Lemma add_edge_targets (name : string) (e0 : edge) (es : list edge) :
  edge_from e0 = name ->
  (forall e, In e es -> edge_from e = name) ->
  NoDup (map edge_to es) ->
  NoDup (map edge_to (add_edge e0 es)) /\
  (forall e, In e (add_edge e0 es) -> edge_from e = name).
Proof.
  intros H0 Hfrom Hnd. split.
  - induction es as [| e' rest IH]; cbn [add_edge map].
    + apply NoDup_singleton.
    + assert (Hfrom' : forall e, In e rest -> edge_from e = name)
        by (intros e He; apply Hfrom; now right).
      cbn [map] in Hnd. apply NoDup_cons in Hnd. destruct Hnd as [Hnotin Hnd].
      destruct (String.eqb (edge_from e') (edge_from e0)
                && String.eqb (edge_to e') (edge_to e0)) eqn:E.
      * apply andb_true_iff in E. destruct E as [_ E]. apply String.eqb_eq in E.
        cbn [map]. apply NoDup_cons. split; [| exact Hnd]. now rewrite <- E.
      * cbn [map]. apply NoDup_cons. split; [| exact (IH Hfrom' Hnd)].
        intros Hin. apply list_elem_of_In in Hin. apply in_map_iff in Hin.
        destruct Hin as (e & Heq & Hin).
        apply In_add_edge in Hin. destruct Hin as [-> | Hin].
        -- rewrite (Hfrom e' (or_introl eq_refl)), H0, String.eqb_refl in E.
           rewrite <- Heq, String.eqb_refl in E. discriminate.
        -- apply Hnotin. apply list_elem_of_In. apply in_map_iff. eauto.
  - intros e He. apply In_add_edge in He. destruct He as [-> | He]; auto.
Qed.

Lemma mode_edges_targets (name : string) (df : DataFrame) (threshold : option pyval)
  (cols : list string) (es es' : list edge) :
  mode_edges name df threshold cols es = Ok es' ->
  (forall e, In e es -> edge_from e = name) ->
  NoDup (map edge_to es) ->
  NoDup (map edge_to es') /\ (forall e, In e es' -> edge_from e = name).
Proof.
  revert es. induction cols as [| col rest IH]; intros es H Hfrom Hnd.
  - injection H as <-. auto.
  - cbn [mode_edges] in H. rbind_inv H. rbind_inv H.
    destruct a0.
    + destruct (add_edge_targets name (mkEdge name col (snd a) (fst a)) es eq_refl Hfrom Hnd)
        as [Hnd' Hfrom'].
      exact (IH _ H Hfrom' Hnd').
    + exact (IH _ H Hfrom Hnd).
Qed.

(** X12. In every figure [cross_correlation_graph] shows, each edge
    leaves the target, goes to a column of the frame of that mode, and
    carries a correlation whose absolute value is strictly above the
    configured threshold, which is a number; no column is reached by two
    edges. *)
Theorem correlation_edges_above_threshold (name : string)
  (xcorr : list (string * DataFrame)) (threshold : option pyval)
  (figures : list (string * list edge)) :
  cross_correlation_graph name xcorr threshold = Ok (CorrelationGraphs figures) ->
  forall (mode : string) (es : list edge),
    In (mode, es) figures ->
    NoDup (map edge_to es) /\
    exists df : DataFrame,
      In (mode, df) xcorr /\
      forall e : edge, In e es ->
        edge_from e = name /\
        In (edge_to e) (column_names df) /\
        exists (q t : Q) (v : pyval),
          edge_corr e = Num q /\ threshold = Some v /\ number_of v = Ok t /\
          (t < Qabs q)%Q.
Proof.
  unfold cross_correlation_graph. intros H mode es Hfig.
  rbind_inv H. destruct (_ && _); [| discriminate]. injection H as <-.
  destruct (map_result_In _ _ _ Ha _ Hfig) as ([mode' df] & Hin & Hentry).
  cbn [fst snd] in Hentry. rbind_inv Hentry. injection Hentry as -> ->.
  split.
  - apply (mode_edges_targets _ _ _ _ _ _ Ha0); [intros e [] | apply NoDup_nil_2].
  - exists df. split; [exact Hin |]. intros e He.
    assert (Hpeak : peak_edge name df threshold e).
    { apply (mode_edges_peaks _ _ _ _ _ _ Ha0); [intros e' [] | exact He]. }
    destruct Hpeak as (values & q & t & v & Hfrom & Hget & Hcorr & _ & Hthr & Hnum & Hlt).
    split; [exact Hfrom |]. split.
    + apply getitem_Ok in Hget. exact (find_column_Some_In _ _ _ Hget).
    + exists q, t, v. auto.
Qed.

Lemma mode_edges_without_threshold (name : string) (df : DataFrame) (col : string)
  (cols : list string) (es : list edge) :
  exists e, mode_edges name df None (col :: cols) es = Raise e.
Proof.
  cbn [mode_edges]. destruct (column_peak df col) as [[lag corr] | e]; [| eauto].
  cbn [rbind snd]. destruct corr; cbn [above_threshold rbind]; eauto.
Qed.

(** Without a threshold, the edges of a mode that has a column cannot
    be computed. *)
Lemma graph_entry_without_threshold (name mode : string) (df : DataFrame) :
  columns df <> [] ->
  exists e : exn,
    (fun entry : string * DataFrame =>
       try! es := mode_edges name (snd entry) None (column_names (snd entry)) [] in
       Ok (fst entry, es)) (mode, df) = Raise e.
Proof.
  intros Hcols. cbn [fst snd]. unfold column_names.
  destruct (columns df) as [| [col vs] rest]; [congruence |]. cbn [map fst].
  destruct (mode_edges_without_threshold name df col (map fst rest) []) as (e & ->).
  eauto.
Qed.

(** X13. Without a threshold ([None], which is what
    [create_scenario_children] passes when the visualization parameters
    have no [xcorr_graph_threshold]), [cross_correlation_graph] raises as
    soon as one mode has a column: the comparison of a correlation with
    [None] is a type error. *)
Theorem correlation_graph_needs_threshold (name : string)
  (xcorr : list (string * DataFrame)) (mode : string) (df : DataFrame) :
  In (mode, df) xcorr -> columns df <> [] ->
  exists e : exn, cross_correlation_graph name xcorr None = Raise e.
Proof.
  intros Hin Hcols. unfold cross_correlation_graph.
  destruct (graph_entry_without_threshold name mode df Hcols) as (e & Hentry).
  destruct (map_result_Raise
              (fun entry : string * DataFrame =>
                 try! es := mode_edges name (snd entry) None (column_names (snd entry)) [] in
                 Ok (fst entry, es)) xcorr (mode, df) e Hin Hentry) as (e' & He').
  rewrite He'. eauto.
Qed.

(** One mode, threshold 1/4: one figure, whose one edge goes to the
    column [y] with a correlation of 1/2. *)
Lemma correlation_figures_per_mode_sample :
  cross_correlation_graph "target" sample_xcorr (Some (PFloat (1 # 4)))
  = Ok (CorrelationGraphs [("pearson", [mkEdge "target" "y" (Num (1 # 2)) (Num (-1))])])
  /\ exists figures : list (string * list edge),
       CorrelationGraphs [("pearson", [mkEdge "target" "y" (Num (1 # 2)) (Num (-1))])]
       = CorrelationGraphs figures /\
       map fst figures = ["pearson"].
Proof.
  split; [reflexivity |].
  exact (correlation_figures_per_mode "target" sample_xcorr (Some (PFloat (1 # 4)))
           (CorrelationGraphs
              [("pearson", [mkEdge "target" "y" (Num (1 # 2)) (Num (-1))])])
           eq_refl).
Defined.

Lemma correlation_edges_above_threshold_sample :
  NoDup (map edge_to [mkEdge "target" "y" (Num (1 # 2)) (Num (-1))]) /\
  exists df : DataFrame,
    In ("pearson", df) sample_xcorr /\
    forall e : edge, In e [mkEdge "target" "y" (Num (1 # 2)) (Num (-1))] ->
      edge_from e = "target" /\
      In (edge_to e) (column_names df) /\
      exists (q t : Q) (v : pyval),
        edge_corr e = Num q /\ Some (PFloat (1 # 4)) = Some v /\ number_of v = Ok t /\
        (t < Qabs q)%Q.
Proof.
  exact (correlation_edges_above_threshold "target" sample_xcorr (Some (PFloat (1 # 4)))
           [("pearson", [mkEdge "target" "y" (Num (1 # 2)) (Num (-1))])]
           eq_refl "pearson" [mkEdge "target" "y" (Num (1 # 2)) (Num (-1))]
           (or_introl eq_refl)).
Defined.

(** The same mode without a threshold. *)
Lemma correlation_graph_needs_threshold_sample :
  exists e : exn, cross_correlation_graph "target" sample_xcorr None = Raise e.
Proof.
  exact (correlation_graph_needs_threshold "target" sample_xcorr "pearson" tied_xcorr
           (or_introl eq_refl) ltac:(discriminate)).
Defined.

End CorrelationGraphMore.

(** ** The best result, a second rendering, and the plots *)

Section ReportingMore.
Import Pandas Visualization Dashboard.
Local Open Scope string_scope.
Local Open Scope list_scope.

Tactic Notation "bind_inv" hyp(H) "as" ident(a) ident(st) ident(Ha) :=
  apply bind_Ok in H; destruct H as (a & st & Ha & H).

Ltac lift_inv H := apply lift_Ok in H; destruct H as [H ->].

Lemma sort_by_head {A : Type} (key : A -> Q) (l : list A) (b : A) (t : list A) :
  sort_by key l = b :: t ->
  exists l1 l2 : list A,
    l = l1 ++ b :: l2 /\
    (forall x, In x l1 -> (key b < key x)%Q) /\
    (forall x, In x l2 -> (key b <= key x)%Q).
Proof.
  revert b t. induction l as [| x rest IH]; intros b t H; [discriminate |].
  change (sort_by key (x :: rest)) with (insert_by key x (sort_by key rest)) in H.
  destruct (sort_by key rest) as [| y t'] eqn:Hrest.
  - assert (rest = []) as ->.
    { apply Permutation_nil. rewrite <- Hrest. apply Permutation_sym, sort_by_perm. }
    injection H as <- <-. exists [], []. split; [reflexivity |].
    split; intros z [].
  - destruct (IH y t' eq_refl) as (l1 & l2 & -> & Hbefore & Hafter).
    cbn [insert_by] in H. destruct (Qle_bool (key x) (key y)) eqn:E.
    + injection H as <- <-. apply Qle_bool_iff in E.
      exists [], (l1 ++ y :: l2). split; [reflexivity |]. split; [intros z [] |].
      intros z Hz. apply in_app_or in Hz. destruct Hz as [Hz | [<- | Hz]].
      * eapply Qle_trans; [exact E |]. apply Qlt_le_weak. exact (Hbefore z Hz).
      * exact E.
      * eapply Qle_trans; [exact E | exact (Hafter z Hz)].
    + injection H as <- <-.
      assert (Hlt : (key y < key x)%Q).
      { apply Qnot_le_lt. intros Hc. apply Qle_bool_iff in Hc. congruence. }
      exists (x :: l1), l2. split; [reflexivity |]. split; [| exact Hafter].
      intros z [<- | Hz]; [exact Hlt | exact (Hbefore z Hz)].
Qed.

Lemma list_sort_head {A : Type} (key : A -> result Q) (l : list A) (b : A) (t : list A) :
  list_sort key l = Ok (b :: t) ->
  exists (l1 l2 : list A) (kb : Q),
    l = l1 ++ b :: l2 /\ key b = Ok kb /\
    (forall x, In x l1 -> exists kx, key x = Ok kx /\ (kb < kx)%Q) /\
    (forall x, In x l2 -> exists kx, key x = Ok kx /\ (kb <= kx)%Q).
Proof.
  unfold list_sort. intros H. rbind_inv H. injection H as H.
  destruct (map_result_keyed _ _ _ Ha) as [Hmap Hall].
  destruct (sort_by fst a) as [| p t0] eqn:Hsort; [discriminate |].
  cbn [map] in H. injection H as Hb Ht.
  destruct (sort_by_head _ _ _ _ Hsort) as (a1 & a2 & -> & Hbefore & Hafter).
  rewrite List.Forall_forall in Hall.
  exists (map snd a1), (map snd a2), (fst p). split.
  - rewrite <- Hmap, map_app. cbn [map]. now rewrite Hb.
  - split.
    + rewrite <- Hb. apply Hall. apply in_or_app. right. now left.
    + split; intros x Hx; apply in_map_iff in Hx; destruct Hx as (q & <- & Hq);
        exists (fst q); (split; [apply Hall; apply in_or_app; auto using in_cons |]).
      * exact (Hbefore q Hq).
      * exact (Hafter q Hq).
Qed.


Lemma sort_by_sorted_id {A : Type} (key : A -> Q) (l : list A) :
  StronglySorted (key_le key) l -> sort_by key l = l.
Proof.
  induction 1 as [| x rest Hrest IH Hall]; [reflexivity |].
  change (sort_by key (x :: rest)) with (insert_by key x (sort_by key rest)).
  rewrite IH. destruct rest as [| y rest']; [reflexivity |].
  cbn [insert_by]. apply Forall_inv in Hall. unfold key_le in Hall.
  apply Qle_bool_iff in Hall. now rewrite Hall.
Qed.

Lemma map_result_keyed_of {A : Type} (key : A -> result Q) (keyed : list (Q * A)) :
  Forall (fun p => key (snd p) = Ok (fst p)) keyed ->
  map_result (fun x => try! k := key x in Ok (k, x)) (map snd keyed) = Ok keyed.
Proof.
  induction 1 as [| [k x] rest Hp Hall IH]; [reflexivity |].
  cbn [map map_result snd fst] in *. rewrite Hp. cbn [rbind]. rewrite IH. reflexivity.
Qed.

(** Sorting a list that [list_sort] has sorted gives it back. *)
Lemma list_sort_again {A : Type} (key : A -> result Q) (l l' : list A) :
  list_sort key l = Ok l' -> list_sort key l' = Ok l'.
Proof.
  unfold list_sort. intros H. rbind_inv H. injection H as <-.
  destruct (map_result_keyed _ _ _ Ha) as [_ Hall].
  rewrite (map_result_keyed_of key (sort_by fst a)).
  - cbn [rbind]. now rewrite (sort_by_sorted_id _ _ (sort_by_sorted fst a)).
  - apply List.Forall_forall. intros p Hp. rewrite List.Forall_forall in Hall. apply Hall.
    exact (Permutation_in _ (Permutation_sym (sort_by_perm fst a)) Hp).
Qed.

Lemma iloc_set_first_column_blank (frame : DataFrame) (name : string)
  (values : list cell) (rest : list (string * list cell)) :
  columns frame = (name, values) :: rest ->
  let blanked := mkDataFrame (index_name frame) (index frame)
                   ((name, map (fun _ => Str "nan") values) :: rest) in
  iloc_set_first_column (Str "nan") blanked = Ok blanked.
Proof.
  intros _ blanked. unfold iloc_set_first_column, blanked. cbn [columns index_name index].
  now rewrite map_map.
Qed.

(** [performance_plot] on a store it has already changed: the same
    graph, and no further change. *)
Lemma performance_plot_again (df : DataFrame) (r : ref)
  (tps : list ValidationPerformance) (tv : pyval) (fs fs' : gmap nat DataFrame)
  (g : child) :
  performance_plot df r tps tv fs = (Ok g, fs') ->
  performance_plot df r tps tv fs' = (Ok g, fs').
Proof.
  unfold performance_plot. intros H.
  bind_inv H as mtv st0 H0. lift_inv H0.
  bind_inv H as sorted st1 H1. lift_inv H1.
  bind_inv H as training st2 H2. lift_inv H2.
  bind_inv H as u st3 H3.
  apply update_Ok in H3. destruct H3 as (frame & frame' & Hframe & Hset & ->).
  bind_inv H as blanked st4 H4. apply load_Ok in H4. destruct H4 as [Hload ->].
  rewrite lookup_insert_eq in Hload. injection Hload as <-.
  bind_inv H as yhat st5 H5. lift_inv H5. injection H as <- <-.
  unfold iloc_set_first_column in Hset.
  destruct (columns frame) as [| [name values] rest] eqn:Hcols; [discriminate |].
  injection Hset as <-.
  pose proof (iloc_set_first_column_blank frame name values rest Hcols) as Hagain.
  cbv zeta in Hagain.
  unfold bind, lift, update, load, ret. rewrite H0, H1, H2.
  rewrite lookup_insert_eq, Hagain, insert_insert_eq, lookup_insert_eq, H5.
  reflexivity.
Qed.

(** The loop body, run forward from what its steps give. *)
Lemma model_children_run (scenario_data : DataFrame)
  (model_parameters : list (string * pyval)) (model_name : string)
  (model : ModelResult) (w : world) (test_values estimator : pyval)
  (rs rest : list SingleResult) (best : SingleResult)
  (best_frame : DataFrame) (pplot perf : child) (fs' : gmap nat DataFrame) :
  dict_item (characteristics model) "test_values" = Ok test_values ->
  dict_item model_parameters "main_accuracy_estimator" = Ok estimator ->
  lists w !! results model = Some rs ->
  list_sort (estimator_key estimator) rs = Ok (best :: rest) ->
  frames w !! prediction best = Some best_frame ->
  prediction_plot scenario_data best_frame test_values = Ok pplot ->
  performance_plot scenario_data (prediction best)
    (map testing_performances (best :: rest)) test_values (frames w) = (Ok perf, fs') ->
  model_children scenario_data model_parameters model_name model w
  = (Ok [Heading 4 model_name;
         CharacteristicsList (characteristics model) (testing_performances best);
         pplot; perf],
     mkWorld fs' (<[results model := best :: rest]> (lists w))).
Proof.
  intros Htv Hest Hrs Hsort Hframe Hplot Hperf.
  unfold model_children, bind, lift, on_lists, on_frames, update, load, ret.
  rewrite Htv, Hest, Hrs, Hsort. cbn [lists frames].
  rewrite lookup_insert_eq. cbn [characteristics_list map frames lists].
  rewrite Hframe, Hplot. cbn [frames lists].
  change (testing_performances best :: map testing_performances rest)
    with (map testing_performances (best :: rest)).
  rewrite Hperf. reflexivity.
Qed.

Lemma prediction_plot_Ok (df p p' : DataFrame) (tv : pyval) (g : child) (yhat' : list cell) :
  prediction_plot df p tv = Ok g ->
  index p' = index p ->
  getitem p' "yhat" = Ok yhat' ->
  exists g', prediction_plot df p' tv = Ok g'.
Proof.
  unfold prediction_plot. intros H Hindex Hyhat.
  rewrite Hindex, Hyhat.
  rbind_inv H. rewrite Ha. cbn [rbind].
  rbind_inv H. rewrite Ha0. cbn [rbind].
  rbind_inv H. rbind_inv H. rewrite Ha2. cbn [rbind].
  rbind_inv H. rewrite Ha3. cbn [rbind].
  rbind_inv H. rewrite Ha4. cbn [rbind]. eauto.
Qed.

Lemma getitem_blanked (frame : DataFrame) (name : string) (values : list cell)
  (rest : list (string * list cell)) (n : string) (vs : list cell) :
  columns frame = (name, values) :: rest ->
  getitem frame n = Ok vs ->
  exists vs',
    getitem (mkDataFrame (index_name frame) (index frame)
               ((name, map (fun _ => Str "nan") values) :: rest)) n = Ok vs'.
Proof.
  unfold getitem. intros ->. cbn [columns find_column].
  destruct (String.eqb name n); eauto.
Qed.

Lemma getitem_blanked_other (frame : DataFrame) (name : string) (values : list cell)
  (rest : list (string * list cell)) (n : string) :
  columns frame = (name, values) :: rest ->
  n <> name ->
  getitem (mkDataFrame (index_name frame) (index frame)
             ((name, map (fun _ => Str "nan") values) :: rest)) n
  = getitem frame n.
Proof.
  unfold getitem. intros -> Hn. cbn [columns find_column].
  destruct (String.eqb name n) eqn:E; [| reflexivity].
  apply String.eqb_eq in E. congruence.
Qed.

(** X15. Rendering a model a second time succeeds and changes nothing
    more: the list stays as sorted, the best prediction stays as
    blanked, and the heading, the characteristics and the performance
    plot come out as the first time. Only the plot of the best
    prediction can differ, being drawn from the blanked frame. *)
Theorem second_rendering_keeps_world (scenario_data : DataFrame)
  (model_parameters : list (string * pyval)) (model_name : string)
  (model : ModelResult) (w w' : world) (children : list child) :
  model_children scenario_data model_parameters model_name model w = (Ok children, w') ->
  exists heading chars pplot pplot' perf : child,
    children = [heading; chars; pplot; perf] /\
    model_children scenario_data model_parameters model_name model w'
    = (Ok [heading; chars; pplot'; perf], w').
Proof.
  intros H.
  destruct (model_children_effect _ _ _ _ _ _ _ H)
    as (test_values & estimator & rs & rest & best & best_frame
        & pplot & perf & fs' & Htv & Hest & Hrs & Hsort & Hframe
        & Hplot & Hperf & -> & ->).
  destruct (performance_plot_effect _ _ _ _ _ _ _ Hperf)
    as (frame & name & values & others & Hframe' & Hcols & Hfs).
  assert (frame = best_frame) by congruence. subst frame.
  assert (Hyhat : exists yhat, getitem best_frame "yhat" = Ok yhat).
  { unfold prediction_plot in Hplot. do 3 rbind_inv Hplot. eauto. }
  destruct Hyhat as (yhat & Hyhat).
  destruct (getitem_blanked _ _ _ _ _ _ Hcols Hyhat) as (yhat' & Hyhat').
  set (blanked := mkDataFrame (index_name best_frame) (index best_frame)
                    ((name, map (fun _ => Str "nan") values) :: others)) in *.
  destruct (prediction_plot_Ok scenario_data best_frame blanked test_values pplot yhat'
              Hplot eq_refl Hyhat') as (pplot' & Hplot').
  eexists _, _, pplot, pplot', perf. split; [reflexivity |].
  erewrite (model_children_run scenario_data model_parameters model_name model _
              test_values estimator (best :: rest) rest best blanked pplot' perf fs'
              Htv Hest).
  - cbn [lists frames]. now rewrite insert_insert_eq.
  - cbn [lists]. now rewrite lookup_insert_eq.
  - exact (list_sort_again _ _ _ Hsort).
  - cbn [frames]. rewrite Hfs. now rewrite lookup_insert_eq.
  - exact Hplot'.
  - cbn [frames]. exact (performance_plot_again _ _ _ _ _ _ _ Hperf).
Qed.

(** X16. When [yhat] is the first column of the best prediction, a
    second rendering of the model draws the best prediction with the
    string [nan] at every date: the first rendering has overwritten the
    values, and the second reads them from the same frame. The other
    traces of the plot are those of the first rendering. *)
Theorem second_rendering_blanks_yhat (scenario_data : DataFrame)
  (model_parameters : list (string * pyval)) (model_name : string)
  (model : ModelResult) (w w' : world) (children : list child)
  (best : SingleResult) (rest : list SingleResult) (frame : DataFrame)
  (values : list cell) (others : list (string * list cell)) :
  model_children scenario_data model_parameters model_name model w = (Ok children, w') ->
  lists w' !! results model = Some (best :: rest) ->
  frames w !! prediction best = Some frame ->
  columns frame = ("yhat", values) :: others ->
  exists (heading chars perf : child) (title : string) (traces : list trace),
    children = [heading; chars;
                Graph title (mkTrace "yhat" (index frame) values :: traces); perf] /\
    model_children scenario_data model_parameters model_name model w'
    = (Ok [heading; chars;
           Graph title (mkTrace "yhat" (index frame)
                          (map (fun _ => Str "nan") values) :: traces);
           perf], w').
Proof.
  intros H Hbest Hframe Hcols.
  destruct (model_children_effect _ _ _ _ _ _ _ H)
    as (test_values & estimator & rs & rest' & best' & best_frame
        & pplot & perf & fs' & Htv & Hest & Hrs & Hsort & Hframe'
        & Hplot & Hperf & -> & ->).
  cbn [lists] in Hbest. rewrite lookup_insert_eq in Hbest.
  injection Hbest as -> ->.
  assert (best_frame = frame) by congruence. subst best_frame.
  destruct (performance_plot_effect _ _ _ _ _ _ _ Hperf)
    as (frame0 & name & values0 & others0 & Hframe0 & Hcols0 & Hfs).
  assert (frame0 = frame) by congruence. subst frame0.
  rewrite Hcols in Hcols0. injection Hcols0 as <- <- <-.
  set (blanked := mkDataFrame (index_name frame) (index frame)
                    (("yhat", map (fun _ => Str "nan") values) :: others)) in *.
  assert (Hyhat : getitem frame "yhat" = Ok values).
  { unfold getitem. now rewrite Hcols. }
  assert (Hyhat' : getitem blanked "yhat" = Ok (map (fun _ => Str "nan") values))
    by reflexivity.
  assert (Hlower : getitem blanked "yhat_lower" = getitem frame "yhat_lower").
  { apply (getitem_blanked_other frame "yhat" values others); [exact Hcols | discriminate]. }
  assert (Hupper : getitem blanked "yhat_upper" = getitem frame "yhat_upper").
  { apply (getitem_blanked_other frame "yhat" values others); [exact Hcols | discriminate]. }
  assert (Hshape : exists traces,
             pplot = Graph "Best prediction for the validation set"
                       (mkTrace "yhat" (index frame) values :: traces) /\
             prediction_plot scenario_data blanked test_values
             = Ok (Graph "Best prediction for the validation set"
                     (mkTrace "yhat" (index frame)
                        (map (fun _ => Str "nan") values) :: traces))).
  { unfold prediction_plot in Hplot |- *.
    rewrite Hyhat', Hlower, Hupper. rewrite Hyhat in Hplot.
    change (index blanked) with (index frame).
    rbind_inv Hplot. rewrite Ha. cbn [rbind].
    rbind_inv Hplot. rewrite Ha0. cbn [rbind] in Hplot |- *.
    rbind_inv Hplot. rewrite Ha1. cbn [rbind].
    rbind_inv Hplot. rewrite Ha2. cbn [rbind].
    rbind_inv Hplot. rewrite Ha3. cbn [rbind].
    injection Hplot as <-. eexists. split; reflexivity. }
  destruct Hshape as (traces & -> & Hplot').
  eexists _, _, perf, _, traces. split; [reflexivity |].
  erewrite (model_children_run scenario_data model_parameters model_name model _
              test_values estimator (best :: rest) rest best blanked _ perf fs'
              Htv Hest).
  - cbn [lists frames]. now rewrite insert_insert_eq.
  - cbn [lists]. now rewrite lookup_insert_eq.
  - exact (list_sort_again _ _ _ Hsort).
  - cbn [frames]. rewrite Hfs. now rewrite lookup_insert_eq.
  - exact Hplot'.
  - cbn [frames]. exact (performance_plot_again _ _ _ _ _ _ _ Hperf).
Qed.

(** X17. The traces of [prediction_plot], by name and in order: the
    prediction; the lower bound if the prediction has that column, and
    then the upper bound if it has that one too; the unused, the
    training and the validation data. A prediction with an upper bound
    but no lower bound is drawn without bounds. *)
Theorem prediction_plot_traces (df predicted_data : DataFrame) (test_values : pyval)
  (g : child) :
  prediction_plot df predicted_data test_values = Ok g ->
  exists traces : list trace,
    g = Graph "Best prediction for the validation set" traces /\
    map trace_name traces
    = "yhat" ::
      (if has_column "yhat_lower" predicted_data
       then "yhat_lower" ::
            (if has_column "yhat_upper" predicted_data then ["yhat_upper"] else [])
       else []) ++
      ["unused data"; "training data"; "validation data"].
Proof.
  unfold prediction_plot. intros H.
  rewrite !has_column_getitem.
  do 6 rbind_inv H. injection H as <-. eexists. split; [reflexivity |].
  destruct (getitem predicted_data "yhat_lower");
    [destruct (getitem predicted_data "yhat_upper") |]; reflexivity.
Qed.

Lemma slice_to_0 {A : Type} (l : list A) : slice_to 0 l = [].
Proof. reflexivity. Qed.

Lemma slice_from_0 {A : Type} (l : list A) : slice_from 0 l = l.
Proof. reflexivity. Qed.

(** X18. With [test_values = 0] the slices [iloc[:-0]] and [iloc[-0:]]
    are [iloc[:0]] and [iloc[0:]]: [prediction_plot] draws no training
    data at all and the whole series as validation data. *)
Theorem prediction_plot_without_test_values (df predicted_data : DataFrame) (g : child) :
  prediction_plot df predicted_data (PInt 0) = Ok g ->
  exists (title : string) (traces : list trace) (values : list cell),
    g = Graph title traces /\
    iloc_first_column df = Ok values /\
    In (mkTrace "training data" [] []) traces /\
    In (mkTrace "validation data" (index df) values) traces.
Proof.
  unfold prediction_plot. intros H.
  rbind_inv H. cbn [negate rbind Z.opp] in H.
  do 4 rbind_inv H. injection H as <-.
  unfold iloc_to, iloc_from, map_rows, iloc_first_column in Ha2, Ha3.
  cbn [columns index] in Ha2, Ha3.
  unfold iloc_first_column.
  destruct (columns df) as [| [n vs] rest] eqn:Hcols.
  - discriminate Ha3.
  - cbn [map fst snd] in Ha3. rewrite slice_from_0 in Ha3. injection Ha3 as <-.
    destruct (columns (loc_from a df)) as [| [n' vs'] rest']; [discriminate Ha2 |].
    cbn [map fst snd] in Ha2. rewrite slice_to_0 in Ha2. injection Ha2 as <-.
    eexists _, _, vs. split; [reflexivity |]. split; [reflexivity |].
    cbn [index]. rewrite slice_to_0, slice_from_0.
    split; apply in_cons, in_or_app; right; cbn [In]; auto.
Qed.

Lemma StronglySorted_map_inv {A B : Type} (f : A -> B) (R : B -> B -> Prop)
  (R' : A -> A -> Prop) (l : list A) :
  (forall a b, R (f a) (f b) -> R' a b) ->
  StronglySorted R (map f l) -> StronglySorted R' l.
Proof.
  intros Himpl. induction l as [| x rest IH]; intros H; [constructor |].
  cbn [map] in H. apply StronglySorted_inv in H. destruct H as [Hrest Hall].
  constructor; [exact (IH Hrest) |].
  apply List.Forall_forall. intros y Hy. rewrite List.Forall_forall in Hall.
  apply Himpl, Hall. now apply in_map.
Qed.


End ReportingMore.

Section ReportingExamples.
Import Pandas Visualization Dashboard.
Local Open Scope string_scope.
Local Open Scope list_scope.


(** The sample backtest rendered twice. *)
Lemma second_rendering_keeps_world_sample :
  exists heading chars pplot pplot' perf : child,
    sample_children = [heading; chars; pplot; perf] /\
    model_children sample_data sample_model_parameters "FBProphet" sample_model
      (snd sample_outcome)
    = (Ok [heading; chars; pplot'; perf], snd sample_outcome).
Proof.
  exact (second_rendering_keeps_world sample_data sample_model_parameters "FBProphet"
           sample_model sample_world (snd sample_outcome) sample_children eq_refl).
Defined.

(** Its best prediction has the one column [yhat]: the second plot of it
    shows [nan] at the six dates. *)
Lemma second_rendering_blanks_yhat_sample :
  exists (heading chars perf : child) (title : string) (traces : list trace),
    sample_children
    = [heading; chars;
       Graph title
         (mkTrace "yhat" (index sample_prediction_long)
            [Num 11; Num 21; Num 29; Num 40; Num 51; Num 62] :: traces);
       perf] /\
    model_children sample_data sample_model_parameters "FBProphet" sample_model
      (snd sample_outcome)
    = (Ok [heading; chars;
           Graph title
             (mkTrace "yhat" (index sample_prediction_long)
                (map (fun _ => Str "nan")
                   [Num 11; Num 21; Num 29; Num 40; Num 51; Num 62]) :: traces);
           perf],
       snd sample_outcome).
Proof.
  exact (second_rendering_blanks_yhat sample_data sample_model_parameters "FBProphet"
           sample_model sample_world (snd sample_outcome) sample_children
           (mkSingleResult 2 (mkValidationPerformance (Num 1) 1 1 1 1))
           [mkSingleResult 1 (mkValidationPerformance (Num 3) 2 4 2 2)]
           sample_prediction_long
           [Num 11; Num 21; Num 29; Num 40; Num 51; Num 62] []
           eq_refl eq_refl eq_refl eq_refl).
Defined.

(** A prediction with an upper bound only: four traces, no bound. *)
Lemma prediction_plot_traces_sample :
  exists traces : list trace,
    sample_prediction_plot = Graph "Best prediction for the validation set" traces /\
    map trace_name traces
    = ["yhat"; "unused data"; "training data"; "validation data"].
Proof.
  exact (prediction_plot_traces sample_data sample_prediction_upper (PInt 1)
           sample_prediction_plot eq_refl).
Defined.

(** The sample series with no test value. *)
Lemma prediction_plot_without_test_values_sample :
  exists (title : string) (traces : list trace) (values : list cell),
    sample_prediction_plot_all = Graph title traces /\
    iloc_first_column sample_data = Ok values /\
    In (mkTrace "training data" [] []) traces /\
    In (mkTrace "validation data" (index sample_data) values) traces.
Proof.
  exact (prediction_plot_without_test_values sample_data sample_prediction_long
           sample_prediction_plot_all eq_refl).
Defined.


End ReportingExamples.

(** ** cross_correlation_plot: the grid of subplots *)

Section LayoutFacts.
Import Pandas Visualization Dashboard.
Local Open Scope string_scope.
Local Open Scope list_scope.

Lemma add_traces_cells (xcorr : list (string * DataFrame)) (i : nat)
  (placed : list subplot_trace) :
  add_traces i xcorr = Ok placed ->
  forall t : subplot_trace, In t placed ->
    exists j : nat,
      (i <= j < i + List.length xcorr)%nat /\
      nth_error combs j = Some (row t, col t).
Proof.
  revert i placed. induction xcorr as [| [mode df] rest IH]; intros i placed H t Ht.
  - injection H as <-. destruct Ht.
  - cbn [add_traces] in H. rbind_inv H. rbind_inv H. injection H as <-.
    apply in_app_or in Ht. destruct Ht as [Ht | Ht].
    + destruct (map_result_In _ _ _ Ha _ Ht) as (name & _ & Hname).
      rbind_inv Hname. rbind_inv Hname. injection Hname as <-.
      exists i. cbn [row col List.length]. split; [lia |].
      destruct (nth_error combs i) as [[r c] |]; [| discriminate].
      injection Ha2 as <-. reflexivity.
    + destruct (IH _ _ Ha0 t Ht) as (j & Hj & Hcell).
      exists j. cbn [List.length]. split; [lia | exact Hcell].
Qed.

(** X20. Every trace [cross_correlation_plot] adds goes to a cell of the
    grid it has created: its row and its column are at least 1 and at
    most the numbers of rows and columns chosen from the number of
    modes. *)
Theorem cross_correlation_plot_within_grid (xcorr : list (string * DataFrame))
  (fig : figure) :
  cross_correlation_plot xcorr = Ok fig ->
  forall t : subplot_trace, In t (data fig) ->
    (1 <= row t <= rows fig)%nat /\ (1 <= col t <= cols fig)%nat.
Proof.
  unfold cross_correlation_plot. intros H t Ht.
  rbind_inv H. injection H as <-. cbn [data rows cols] in *.
  destruct (add_traces_cells _ _ _ Ha t Ht) as (j & Hj & Hcell).
  destruct j as [| [| [| [| j]]]]; cbn in Hcell;
    [| | | | destruct j; discriminate];
    injection Hcell as <- <-;
    destruct xcorr as [| ? [| ? [| ? [| ? ?]]]]; cbn in Hj |- *; lia.
Qed.

Lemma column_traces_outcome (df : DataFrame) (i : nat) (names : list string) :
  (forall name, In name names -> In name (column_names df)) ->
  let placed :=
    map_result (fun name =>
                  try! y := getitem df name in
                  try! comb := match nth_error combs i with
                               | Some c => Ok c
                               | None => Raise IndexError
                               end in
                  Ok (mkSubplotTrace (mkTrace name (index df) y)
                        (fst comb) (snd comb) (i =? 0)%nat)) names in
  (exists ts, placed = Ok ts) \/ placed = Raise IndexError.
Proof.
  intros Hnames placed. subst placed.
  induction names as [| name rest IH]; [left; eexists; reflexivity |].
  cbn [map_result].
  assert (Hrest : forall n, In n rest -> In n (column_names df)).
  { intros n Hn. apply Hnames. now right. }
  destruct (getitem_of_column df name (Hnames name (or_introl eq_refl))) as (vs & Hvs).
  destruct (IH Hrest) as [(ts & Hts) | Hts]; rewrite Hts, Hvs;
    destruct (nth_error combs i) as [c |]; cbn [rbind]; eauto.
Qed.

Lemma add_traces_overflow (xcorr : list (string * DataFrame)) (i k : nat)
  (mode : string) (df : DataFrame) :
  nth_error xcorr k = Some (mode, df) ->
  (4 <= i + k)%nat ->
  columns df <> [] ->
  add_traces i xcorr = Raise IndexError.
Proof.
  revert i k. induction xcorr as [| [mode' df'] rest IH]; intros i k Hk Hik Hcols.
  - destruct k; discriminate.
  - cbn [add_traces]. destruct k as [| k].
    + injection Hk as -> ->. unfold column_names.
      destruct (columns df) as [| [name vs] more] eqn:E; [congruence |].
      cbn [map fst map_result]. unfold getitem. rewrite E. cbn [find_column].
      rewrite String.eqb_refl. cbn [rbind].
      assert (nth_error combs i = None) as ->.
      { apply nth_error_None. cbn. lia. }
      reflexivity.
    + destruct (column_traces_outcome df' i (column_names df') (fun _ H => H))
        as [(ts & ->) | ->]; [| reflexivity].
      cbn [rbind]. rewrite (IH (S i) k Hk ltac:(lia) Hcols). reflexivity.
Qed.

(** X21. With more than four modes, [cross_correlation_plot] raises
    [IndexError] as soon as a mode after the fourth has a column: there
    are four cells, and no fifth entry in [combs]. *)
Theorem cross_correlation_plot_fifth_mode (xcorr : list (string * DataFrame))
  (k : nat) (mode : string) (df : DataFrame) :
  nth_error xcorr k = Some (mode, df) ->
  (4 <= k)%nat ->
  columns df <> [] ->
  cross_correlation_plot xcorr = Raise IndexError.
Proof.
  intros Hk Hlarge Hcols. unfold cross_correlation_plot.
  now rewrite (add_traces_overflow xcorr 0 k mode df Hk ltac:(lia) Hcols).
Qed.

(** Three modes: a grid of two by two, and three cells used. *)
Lemma cross_correlation_plot_within_grid_sample :
  cross_correlation_plot sample_xcorr_three = Ok sample_figure /\
  (rows sample_figure, cols sample_figure) = (2%nat, 2%nat) /\
  forall t : subplot_trace, In t (data sample_figure) ->
    (1 <= row t <= rows sample_figure)%nat /\ (1 <= col t <= cols sample_figure)%nat.
Proof.
  split; [reflexivity |]. split; [reflexivity |].
  exact (cross_correlation_plot_within_grid sample_xcorr_three sample_figure eq_refl).
Defined.

(** Five modes. *)
Lemma cross_correlation_plot_fifth_mode_sample :
  cross_correlation_plot sample_xcorr_five = Raise IndexError.
Proof.
  exact (cross_correlation_plot_fifth_mode sample_xcorr_five 4 "extra" tied_xcorr
           eq_refl (le_n 4) ltac:(discriminate)).
Defined.

End LayoutFacts.

(** ** create_scenario_children and create_dash_children *)

Section ScenarioFacts.
Import Pandas Visualization Dashboard.
Local Open Scope string_scope.
Local Open Scope list_scope.

Variable line_plot : DataFrame -> result child.
Variable histogram_plot : DataFrame -> list (string * pyval) -> result child.
Variable box_plot : DataFrame -> list (string * pyval) -> result child.
Variable box_plot_aggregate : DataFrame -> list (string * pyval) -> result child.
Variable components_plot : DataFrame -> result child.
Variable autocorrelation_plot : DataFrame -> result child.
Variable cross_correlation_plot : list (string * DataFrame) -> result child.

Local Abbreviation create_scenario_children :=
  (Visualization.create_scenario_children line_plot histogram_plot box_plot
     box_plot_aggregate components_plot autocorrelation_plot cross_correlation_plot).

Local Abbreviation create_dash_children :=
  (Dashboard.create_dash_children line_plot histogram_plot box_plot
     box_plot_aggregate components_plot autocorrelation_plot cross_correlation_plot).

(** Without models the store is not touched. *)
Lemma scenario_without_models_world (scenario : Scenario)
  (visualization_parameters model_parameters : option (list (string * pyval)))
  (w : world) :
  models scenario = None ->
  snd (create_scenario_children scenario visualization_parameters model_parameters w) = w.
Proof.
  intros Hmodels. unfold Visualization.create_scenario_children, bind, lift, ret.
  rewrite Hmodels.
  destruct visualization_parameters as [d |]; [| reflexivity].
  destruct (column_name_at 0 (scenario_data scenario)) as [name |]; [| reflexivity].
  destruct (data_children _ _ _ _ _ _ scenario d name) as [first |]; [| reflexivity].
  destruct (xcorr_children _ scenario d name) as [second |]; reflexivity.
Qed.



(** X24. A scenario with cross-correlations of at least one column, and
    visualization parameters without [xcorr_graph_threshold]:
    [create_scenario_children] raises, and no frame or list of results
    has changed. *)
Theorem scenario_children_need_threshold (scenario : Scenario)
  (visualization_parameters : list (string * pyval))
  (model_parameters : option (list (string * pyval)))
  (frames_by_mode : list (string * DataFrame)) (mode : string) (df : DataFrame)
  (w : world) :
  xcorr scenario = Some frames_by_mode ->
  In (mode, df) frames_by_mode ->
  columns df <> [] ->
  dict_lookup "xcorr_graph_threshold" visualization_parameters = None ->
  exists e : exn,
    create_scenario_children scenario (Some visualization_parameters) model_parameters w
    = (Raise e, w).
Proof.
  intros Hxcorr Hin Hcols Hthreshold.
  unfold Visualization.create_scenario_children, bind, lift, ret.
  destruct (column_name_at 0 (scenario_data scenario)) as [name |]; [| eauto].
  destruct (data_children _ _ _ _ _ _ scenario visualization_parameters name)
    as [first |]; [| eauto].
  assert (Hfail : exists e,
             xcorr_children cross_correlation_plot scenario visualization_parameters name
             = Raise e).
  { unfold xcorr_children. rewrite Hxcorr, Hthreshold.
    destruct (cross_correlation_plot frames_by_mode) as [plot |]; [| eauto].
    cbn [rbind].
    destruct (graph_entry_without_threshold name mode df Hcols) as (e & Hentry).
    destruct (map_result_Raise
                (fun entry : string * DataFrame =>
                   try! es := mode_edges name (snd entry) None
                                (column_names (snd entry)) [] in
                   Ok (fst entry, es)) frames_by_mode (mode, df) e Hin Hentry)
      as (e' & He').
    unfold cross_correlation_graph. rewrite He'. eauto. }
  destruct Hfail as (e & ->). eauto.
Qed.

End ScenarioFacts.

Section ScenarioExamples.
Import Pandas Visualization Dashboard.
Local Open Scope string_scope.
Local Open Scope list_scope.

Local Abbreviation sample_scenario_children :=
  (Visualization.create_scenario_children sample_plot1 sample_plot2 sample_plot2
     sample_plot2 sample_plot1 sample_plot1 sample_plot_xcorr).

Local Abbreviation sample_dash_children :=
  (Dashboard.create_dash_children sample_plot1 sample_plot2 sample_plot2
     sample_plot2 sample_plot1 sample_plot1 sample_plot_xcorr).



(** The scenario with cross-correlations, and no threshold. *)
Lemma scenario_children_need_threshold_sample :
  exists e : exn,
    sample_scenario_children sample_scenario_xcorr (Some []) None sample_world
    = (Raise e, sample_world).
Proof.
  exact (scenario_children_need_threshold sample_plot1 sample_plot2 sample_plot2
           sample_plot2 sample_plot1 sample_plot1 sample_plot_xcorr
           sample_scenario_xcorr [] None sample_xcorr "pearson" tied_xcorr sample_world
           eq_refl (or_introl eq_refl) ltac:(discriminate) eq_refl).
Defined.

End ScenarioExamples.
